(** * creqit: Facebook Lead Ads webhook integration

    A shallow embedding of
      - creqit/meta/FacebookLeadAds/webhook.py
      - creqit/meta/doctype/facebook_lead_ads_settings/facebook_lead_ads_settings.py
      - creqit/meta/doctype/facebook_lead_ads_webhook/facebook_lead_ads_webhook.py
    and the properties of the webhook ingestion contract.

    Python values that come out of [json.loads] are an inductive type;
    the handlers are computations in a state-and-exception monad over an
    explicit world (document store, logs, realtime bus, HTTP response). *)

From Stdlib Require Import ZArith List String Ascii Bool Lia.
Import ListNotations.
Open Scope string_scope.
Set Warnings "-register-all".

(* ================================================================== *)
(** ** Python values decoded from JSON *)

Inductive json : Type :=
| JNull                                  (* None *)
| JBool (b : bool)
| JInt (z : Z)
| JFloat (bits : Z)                      (* IEEE-754 binary64 bit pattern *)
| JStr (s : string)
| JArr (items : list json)
| JObj (fields : list (string * json)).  (* dict, first binding of a key wins *)

(** Structural equality, used for the store's lookup-by-field. *)
Fixpoint json_eqb (a b : json) {struct a} : bool :=
  match a, b with
  | JNull, JNull => true
  | JBool x, JBool y => Bool.eqb x y
  | JInt x, JInt y => Z.eqb x y
  | JFloat x, JFloat y => Z.eqb x y
  | JStr x, JStr y => String.eqb x y
  | JArr xs, JArr ys =>
      (fix go (l : list json) (r : list json) {struct l} : bool :=
         match l, r with
         | [], [] => true
         | x :: l', y :: r' => json_eqb x y && go l' r'
         | _, _ => false
         end) xs ys
  | JObj xs, JObj ys =>
      (fix go (l : list (string * json)) (r : list (string * json)) {struct l} : bool :=
         match l, r with
         | [], [] => true
         | (k, x) :: l', (k', y) :: r' =>
             String.eqb k k' && json_eqb x y && go l' r'
         | _, _ => false
         end) xs ys
  | _, _ => false
  end.

(** [type(v).__name__] *)
Definition type_name (v : json) : string :=
  match v with
  | JNull => "NoneType"
  | JBool _ => "bool"
  | JInt _ => "int"
  | JFloat _ => "float"
  | JStr _ => "str"
  | JArr _ => "list"
  | JObj _ => "dict"
  end.

(** [bool(v)]: None, False, 0, 0.0, -0.0, "", [] and {} are falsy. *)
Definition truthy (v : json) : bool :=
  match v with
  | JNull => false
  | JBool b => b
  | JInt z => negb (Z.eqb z 0)
  | JFloat bits => negb (Z.eqb (Z.land bits (Z.ones 63)) 0)
  | JStr s => negb (String.eqb s "")
  | JArr l => match l with [] => false | _ => true end
  | JObj l => match l with [] => false | _ => true end
  end.

(** Formatted text.  An f-string is kept as its literal pieces and the
    values interpolated into it, so that no rendering of [str()],
    [repr()] or [json.dumps] has to be invented. *)
Inductive frag : Type :=
| Lit (s : string)
| Val (v : json)            (* {v} *)
| Dump (v : json)           (* {json.dumps(v, indent=2)} *)
| Num (n : nat)             (* {len(...)} *)
| Flag (b : bool).          (* a Check field *)

Definition text := list frag.

Definition opt_json (o : option string) : json :=
  match o with Some s => JStr s | None => JNull end.

(* ================================================================== *)
(** ** Exceptions *)

Inductive exn : Type :=
| AttributeError (ty attr : string)  (* 'ty' object has no attribute 'attr' *)
| TypeError (msg : text)
| ValidationError (msg : text)       (* raised by creqit.throw *)
| DatabaseError (msg : text)         (* raised by the document store *)
| RecursionError.                    (* the interpreter's call depth is used up *)

(** [str(e)] *)
Definition str_exn (e : exn) : text :=
  match e with
  | AttributeError ty attr =>
      [Lit "'"; Lit ty; Lit "' object has no attribute '"; Lit attr; Lit "'"]
  | TypeError m => m
  | ValidationError m => m
  | DatabaseError m => m
  | RecursionError => [Lit "maximum recursion depth exceeded"]
  end.

Inductive outcome (A : Type) : Type :=
| Ok (a : A)
| Raise (e : exn).
Arguments Ok {A} a.
Arguments Raise {A} e.

(** [obj.get(key, default)]: only a dict has the method. *)
Fixpoint assoc (k : string) (l : list (string * json)) : option json :=
  match l with
  | [] => None
  | (k', v) :: l' => if String.eqb k k' then Some v else assoc k l'
  end.

Definition py_get (obj : json) (key : string) (default : json) : outcome json :=
  match obj with
  | JObj kvs => Ok (match assoc key kvs with Some v => v | None => default end)
  | _ => Raise (AttributeError (type_name obj) "get")
  end.

Fixpoint chars (s : string) : list json :=
  match s with
  | EmptyString => []
  | String c s' => JStr (String c EmptyString) :: chars s'
  end.

(** [iter(v)]: a list yields its items, a str its characters, a dict
    its keys; anything else is not iterable. *)
Definition py_iter (v : json) : outcome (list json) :=
  match v with
  | JArr l => Ok l
  | JStr s => Ok (chars s)
  | JObj kvs => Ok (map (fun kv => JStr (fst kv)) kvs)
  | _ => Raise (TypeError [Lit "'"; Lit (type_name v); Lit "' object is not iterable"])
  end.

(** [len(v)] *)
Definition py_len (v : json) : outcome nat :=
  match v with
  | JArr l => Ok (List.length l)
  | JStr s => Ok (String.length s)
  | JObj kvs => Ok (List.length kvs)
  | _ => Raise (TypeError [Lit "object of type '"; Lit (type_name v); Lit "' has no len()"])
  end.

(* ================================================================== *)
(** ** Programs: state and exceptions

    A Python function body is a state transformer that either returns
    or raises; whatever it did to the state before raising stays done. *)

Definition prog (S A : Type) : Type := S -> S * outcome A.

Definition ret {S A} (a : A) : prog S A := fun w => (w, Ok a).
Definition raise {S A} (e : exn) : prog S A := fun w => (w, Raise e).
Definition bind {S A B} (m : prog S A) (k : A -> prog S B) : prog S B :=
  fun w =>
    match m w with
    | (w', Ok a) => k a w'
    | (w', Raise e) => (w', Raise e)
    end.
Definition lift {S A} (o : outcome A) : prog S A := fun w => (w, o).

(** [try: m  except Exception as e: h e] *)
Definition try_except {S A} (m : prog S A) (h : exn -> prog S A) : prog S A :=
  fun w =>
    match m w with
    | (w', Ok a) => (w', Ok a)
    | (w', Raise e) => h e w'
    end.

Declare Scope py_scope.
Delimit Scope py_scope with py.
Notation "x <- m ;; k" := (bind m (fun x => k))
  (at level 61, m at next level, right associativity) : py_scope.
Notation "m ;;; k" := (bind m (fun _ => k))
  (at level 61, right associativity) : py_scope.
Open Scope py_scope.

(* ================================================================== *)
(** ** facebook_lead_ads_settings.py *)

Module Settings.

(** What [set_access_token] accepts as [expiry]: nothing, a number of
    seconds, or a point in time. *)
Inductive expiry_arg : Type :=
| NoExpiry
| Seconds (n : Z)
| Moment (t : string).

(** The [token_expiry] field. *)
Inductive expiry_value : Type :=
| Unset
| At (t : string)
| NowPlus (now : string) (seconds : Z).   (* datetime.now() + timedelta(seconds) *)

(** The fields of the "Facebook Lead Ads Settings" singleton that the
    code reads or writes.  A Data/Password field that was never filled
    in is [None]. *)
Record t : Type := mk {
  enabled : bool;
  app_id : option string;
  app_secret : option string;
  webhook_verify_token : option string;
  webhook_is_active : bool;
  access_token : option string;
  token_expiry : expiry_value
}.

(** [not field] on a Data field. *)
Definition blank (o : option string) : bool :=
  match o with
  | None => true
  | Some s => String.eqb s ""
  end.

(** [FacebookLeadAdsSettings.validate] *)
Definition validate (self : t) : outcome unit :=
  if enabled self then
    if blank (app_id self) then
      Raise (ValidationError [Lit "App ID is required when Facebook Lead Ads is enabled"])
    else if blank (app_secret self) then
      Raise (ValidationError [Lit "App Secret is required when Facebook Lead Ads is enabled"])
    else Ok tt
  else Ok tt.

(** Modelled from the spec: [Document.save] is the framework's and not
    part of these sources; per section 4.4 a save runs [validate] and a
    failed validation stops it before persistence, unless the document's
    [flags.ignore_validate] is set, as [set_access_token] sets it to save
    "without triggering validation".  [stored] is the persisted
    singleton; the result is the new persisted singleton. *)
Definition save (ignore_validate : bool) (self : t) (stored : t) : t * outcome unit :=
  if ignore_validate then (self, Ok tt)
  else match validate self with
       | Raise e => (stored, Raise e)
       | Ok _ => (self, Ok tt)
       end.

Definition set_webhook_is_active (self : t) (b : bool) : t :=
  mk (enabled self) (app_id self) (app_secret self) (webhook_verify_token self) b
     (access_token self) (token_expiry self).
Definition with_access_token (self : t) (v : option string) : t :=
  mk (enabled self) (app_id self) (app_secret self) (webhook_verify_token self)
     (webhook_is_active self) v (token_expiry self).
Definition with_token_expiry (self : t) (v : expiry_value) : t :=
  mk (enabled self) (app_id self) (app_secret self) (webhook_verify_token self)
     (webhook_is_active self) (access_token self) v.

(** [FacebookLeadAdsSettings.get_access_token] *)
Definition get_access_token (self : t) : option string :=
  if blank (access_token self) then None else access_token self.

(** [FacebookLeadAdsSettings.set_access_token]: the document after the
    call, the persisted singleton after it, and how the save ended.
    [now] is [datetime.now()]. *)
Definition set_access_token (self : t) (token : string) (expiry : expiry_arg)
    (now : string) (stored : t) : t * (t * outcome unit) :=
  let self1 := with_access_token self (Some token) in
  let self2 :=
    match expiry with
    | NoExpiry => self1
    | Seconds n =>
        if Z.eqb n 0 then self1                       (* [if expiry:] *)
        else with_token_expiry self1 (NowPlus now n)
    | Moment t => with_token_expiry self1 (At t)
    end in
  (self2, save true self2 stored).

End Settings.

(* ================================================================== *)
(** ** FacebookLeadAds/webhook.py *)

Module Webhook.

Inductive level : Type := INFO | WARNING | ERROR.

(** A "Facebook Lead" document as [create_facebook_lead] builds it. *)
Record lead_doc : Type := mk_lead {
  lead_id : text;                (* f"FB-{leadgen_id}" *)
  status : string;
  facebook_lead_id : json;
  facebook_form_id : json;
  facebook_page_id : json;
  facebook_ad_id : json;
  facebook_adset_id : json;
  lead_data : text;              (* json.dumps(webhook_data, indent=2) *)
  created_at : string
}.

(** A [creqit.publish_realtime] call. *)
Record realtime_event : Type := mk_event {
  event : string;
  msg_leadgen_id : json;
  msg_page_id : json;
  msg_form_id : json;
  msg_timestamp : string;
  user : string
}.

(** The page installed by [creqit.respond_as_web_page]. *)
Record web_page : Type := mk_page {
  title : string;
  html : text;
  success : bool
}.

(** What one request can observe and change.  [insert_fault] stands for
    the document store refusing an insert (the framework raises there:
    a mandatory field, a lost connection, ...); it is the only way the
    creation step can fail on a decoded JSON value. *)
Record world : Type := mk_world {
  settings : Settings.t;                       (* the stored singleton *)
  doctype_installed : bool;                    (* db.exists("DocType", "Facebook Lead") *)
  leads : list lead_doc;                       (* stored "Facebook Lead" documents *)
  insert_fault : lead_doc -> option exn;
  realtime : list realtime_event;              (* oldest first *)
  meta_log : list (level * text);              (* oldest first *)
  app_log : list (level * text);               (* creqit.logger() *)
  status_code : Z;                             (* creqit.response.status_code *)
  page : option web_page;
  now : string;                                (* creqit.utils.now() *)
  session_user : string                        (* creqit.session.user *)
}.

Definition M : Type -> Type := prog world.

Definition set_meta_log (w : world) (l : list (level * text)) : world :=
  mk_world (settings w) (doctype_installed w) (leads w) (insert_fault w)
    (realtime w) l (app_log w) (status_code w) (page w) (now w) (session_user w).
Definition set_app_log (w : world) (l : list (level * text)) : world :=
  mk_world (settings w) (doctype_installed w) (leads w) (insert_fault w)
    (realtime w) (meta_log w) l (status_code w) (page w) (now w) (session_user w).
Definition set_status_code (w : world) (c : Z) : world :=
  mk_world (settings w) (doctype_installed w) (leads w) (insert_fault w)
    (realtime w) (meta_log w) (app_log w) c (page w) (now w) (session_user w).
Definition set_page (w : world) (p : option web_page) : world :=
  mk_world (settings w) (doctype_installed w) (leads w) (insert_fault w)
    (realtime w) (meta_log w) (app_log w) (status_code w) p (now w) (session_user w).
Definition set_settings (w : world) (s : Settings.t) : world :=
  mk_world s (doctype_installed w) (leads w) (insert_fault w)
    (realtime w) (meta_log w) (app_log w) (status_code w) (page w) (now w) (session_user w).
Definition set_leads (w : world) (l : list lead_doc) : world :=
  mk_world (settings w) (doctype_installed w) l (insert_fault w)
    (realtime w) (meta_log w) (app_log w) (status_code w) (page w) (now w) (session_user w).
Definition set_realtime (w : world) (l : list realtime_event) : world :=
  mk_world (settings w) (doctype_installed w) (leads w) (insert_fault w)
    l (meta_log w) (app_log w) (status_code w) (page w) (now w) (session_user w).

(** [meta_logger.info/warning/error] and [creqit.logger().…] *)
Definition meta (l : level) (t : text) : M unit :=
  fun w => (set_meta_log w (meta_log w ++ [(l, t)]), Ok tt).
Definition applog (l : level) (t : text) : M unit :=
  fun w => (set_app_log w (app_log w ++ [(l, t)]), Ok tt).
Definition respond_status (c : Z) : M unit :=
  fun w => (set_status_code w c, Ok tt).
Definition respond_as_web_page (t : string) (h : text) (ok : bool) : M unit :=
  fun w => (set_page w (Some (mk_page t h ok)), Ok tt).
Definition get_single : M Settings.t := fun w => (w, Ok (settings w)).
Definition utils_now : M string := fun w => (w, Ok (now w)).
Definition current_user : M string := fun w => (w, Ok (session_user w)).

(** [settings.save(ignore_permissions=True)] *)
Definition save_settings (s : Settings.t) : M unit :=
  fun w => let (stored, r) := Settings.save false s (settings w) in (set_settings w stored, r).

(** *** Requests *)

Inductive raw_body : Type :=
| NoBody                       (* nothing was posted *)
| NotJson (raw : string)       (* bytes that do not decode as JSON *)
| Json (v : json).             (* a JSON document, decoded *)

Record request : Type := mk_request {
  method : string;
  args : list (string * string);        (* query string, first value wins *)
  headers : list (string * string);
  remote_addr : option string;
  body : raw_body
}.

Fixpoint arg (k : string) (l : list (string * string)) : option string :=
  match l with
  | [] => None
  | (k', v) :: l' => if String.eqb k k' then Some v else arg k l'
  end.

(** Modelled from the spec: [creqit.request.get_json()] belongs to the
    HTTP layer, which is not part of these sources; per sections 4.2 and
    8 a missing or unparseable body reaches the handler as no payload
    ([None]), a JSON document as its decoded value. *)
Definition get_json (r : request) : json :=
  match body r with
  | NoBody => JNull
  | NotJson _ => JNull
  | Json v => v
  end.

(** What a handler returns to the framework. *)
Inductive retval : Type :=
| RNone                                                 (* return *)
| RResponse (content : option string) (code : Z) (mimetype : string)
                                                        (* werkzeug Response *)
| RSuccess                                              (* {"success": True} *)
| RError (msg : text).                                  (* {"error": msg} *)

(** *** handle_verification *)

Definition opt_eqb (a b : option string) : bool :=
  match a, b with
  | None, None => true
  | Some x, Some y => String.eqb x y
  | _, _ => false
  end.

Definition opt_len (o : option string) : nat :=
  match o with
  | None => 0
  | Some s => String.length s
  end.

Definition handle_verification (r : request) : M retval :=
  let mode := arg "hub.mode" (args r) in
  let token := arg "hub.verify_token" (args r) in
  let challenge := arg "hub.challenge" (args r) in
  meta INFO [Lit "Facebook Webhook Verification: mode="; Val (opt_json mode);
             Lit ", token="; Val (opt_json token);
             Lit ", challenge="; Val (opt_json challenge)] ;;;
  settings <- get_single ;;
  meta INFO [Lit "Facebook Webhook Settings: enabled="; Flag (Settings.enabled settings);
             Lit ", verify_token="; Val (opt_json (Settings.webhook_verify_token settings))] ;;;
  if negb (Settings.enabled settings) then
    meta ERROR [Lit "Facebook Lead Ads is not enabled"] ;;;
    applog ERROR [Lit "Facebook Lead Ads is not enabled"] ;;;
    respond_as_web_page "Facebook Webhook Error"
      [Lit "Facebook Lead Ads is not enabled"] false ;;;
    ret RNone
  else
    let expected_token := Settings.webhook_verify_token settings in
    let received_token := token in
    meta INFO [Lit "Token comparison: expected_length="; Num (opt_len expected_token);
               Lit ", received_length="; Num (opt_len received_token)] ;;;
    meta INFO [Lit "Expected token repr: "; Val (opt_json expected_token)] ;;;
    meta INFO [Lit "Received token repr: "; Val (opt_json received_token)] ;;;
    if negb (opt_eqb expected_token received_token) then
      meta ERROR [Lit "Token mismatch: expected="; Val (opt_json expected_token);
                  Lit ", received="; Val (opt_json received_token)] ;;;
      applog ERROR [Lit "Token mismatch: expected="; Val (opt_json expected_token);
                    Lit ", received="; Val (opt_json received_token)] ;;;
      respond_as_web_page "Facebook Webhook Error"
        [Lit "Invalid verify token. Expected: "; Val (opt_json expected_token);
         Lit ", Received: "; Val (opt_json received_token)] false ;;;
      ret RNone
    else if opt_eqb mode (Some "subscribe") then
      save_settings (Settings.set_webhook_is_active settings true) ;;;
      meta INFO [Lit "Facebook Webhook verified successfully with challenge: ";
                 Val (opt_json challenge)] ;;;
      applog INFO [Lit "Facebook Webhook verified successfully with challenge: ";
                   Val (opt_json challenge)] ;;;
      ret (RResponse challenge 200 "text/plain")
    else
      meta ERROR [Lit "Invalid mode: "; Val (opt_json mode)] ;;;
      applog ERROR [Lit "Invalid mode: "; Val (opt_json mode)] ;;;
      respond_as_web_page "Facebook Webhook Error" [Lit "Invalid mode"] false ;;;
      ret RNone.

(** *** create_facebook_lead *)

(** [creqit.db.exists("Facebook Lead", {"facebook_lead_id": leadgen_id})] *)
Definition lead_exists (leadgen_id : json) (l : list lead_doc) : bool :=
  existsb (fun d => json_eqb (facebook_lead_id d) leadgen_id) l.

(** [lead_doc.insert(ignore_permissions=True)] followed by the commit. *)
Definition insert (d : lead_doc) : M unit :=
  fun w =>
    match insert_fault w d with
    | Some e => (w, Raise e)
    | None => (set_leads w (leads w ++ [d]), Ok tt)
    end.

Definition create_facebook_lead (leadgen_id page_id form_id webhook_data : json)
  : M unit :=
  try_except
    (fun w =>
       if negb (doctype_installed w) then
         (meta WARNING [Lit "Facebook Lead DocType not found, skipping lead creation"] ;;;
          applog WARNING [Lit "Facebook Lead DocType not found, skipping lead creation"] ;;;
          ret tt) w
       else if lead_exists leadgen_id (leads w) then
         (meta INFO [Lit "Facebook Lead "; Val leadgen_id; Lit " already exists, skipping"] ;;;
          applog INFO [Lit "Facebook Lead "; Val leadgen_id; Lit " already exists, skipping"] ;;;
          ret tt) w
       else
         (ad_id <- lift (py_get webhook_data "ad_id" JNull) ;;
          adset_id <- lift (py_get webhook_data "adset_id" JNull) ;;
          created <- utils_now ;;
          let lead_doc :=
            mk_lead [Lit "FB-"; Val leadgen_id] "New" leadgen_id form_id page_id
                    ad_id adset_id [Dump webhook_data] created in
          insert lead_doc ;;;
          meta INFO [Lit "Created Facebook Lead "; Lit "{lead_doc.name}";
                     Lit " for lead "; Val leadgen_id] ;;;
          applog INFO [Lit "Created Facebook Lead "; Lit "{lead_doc.name}";
                       Lit " for lead "; Val leadgen_id] ;;;
          ret tt) w)
    (fun e =>
       meta ERROR (Lit "Failed to create Facebook Lead: " :: str_exn e) ;;;
       applog ERROR (Lit "Failed to create Facebook Lead: " :: str_exn e) ;;;
       ret tt).

(** *** process_entry *)

(** [creqit.publish_realtime(event=..., message={...}, user=...)] *)
Definition publish_realtime (ev : string) (leadgen_id page_id form_id : json) : M unit :=
  fun w =>
    (set_realtime w
       (realtime w ++ [mk_event ev leadgen_id page_id form_id (now w) (session_user w)]),
     Ok tt).

(** [for x in xs: body x], stopping at the first raise. *)
Fixpoint for_each (xs : list json) (body : json -> M unit) : M unit :=
  match xs with
  | [] => ret tt
  | x :: xs' => body x ;;; for_each xs' body
  end.

Definition process_change (change : json) : M unit :=
  field <- lift (py_get change "field" JNull) ;;
  if negb (json_eqb field (JStr "leadgen")) then
    meta INFO [Lit "Skipping non-leadgen change: "; Val field]
  else
    value <- lift (py_get change "value" (JObj [])) ;;
    page_id <- lift (py_get value "page_id" JNull) ;;
    form_id <- lift (py_get value "form_id" JNull) ;;
    leadgen_id <- lift (py_get value "leadgen_id" JNull) ;;
    meta INFO [Lit "Received lead "; Val leadgen_id; Lit " from page "; Val page_id;
               Lit ", form "; Val form_id] ;;;
    meta INFO [Lit "Lead data: "; Dump value] ;;;
    create_facebook_lead leadgen_id page_id form_id value ;;;
    publish_realtime "facebook_lead_received" leadgen_id page_id form_id.

Definition process_entry (entry : json) : M unit :=
  entry_id <- lift (py_get entry "id" JNull) ;;
  changes <- lift (py_get entry "changes" (JArr [])) ;;
  n <- lift (py_len changes) ;;
  meta INFO [Lit "Processing entry "; Val entry_id; Lit " with "; Num n; Lit " changes"] ;;;
  items <- lift (py_iter changes) ;;
  for_each items process_change.

(** *** handle_lead_event *)

Definition handle_lead_event (r : request) : M retval :=
  try_except
    (let payload := get_json r in
     meta INFO [Lit "Facebook Lead Event Payload: "; Dump payload] ;;;
     if negb (truthy payload) then
       meta ERROR [Lit "Invalid payload received"] ;;;
       respond_status 400 ;;;
       ret (RError [Lit "Invalid payload"])
     else
       obj <- lift (py_get payload "object" JNull) ;;
       if negb (json_eqb obj (JStr "page")) then
         meta INFO [Lit "Non-page event received: "; Val obj] ;;;
         respond_status 200 ;;;
         ret RSuccess
       else
         entries <- lift (py_get payload "entry" (JArr [])) ;;
         items <- lift (py_iter entries) ;;
         for_each items process_entry ;;;
         meta INFO [Lit "Facebook Lead Event processed successfully"] ;;;
         respond_status 200 ;;;
         ret RSuccess)
    (fun e =>
       meta ERROR (Lit "Facebook Lead Event Processing Error: " :: str_exn e) ;;;
       applog ERROR (Lit "Facebook Lead Event Processing Error: " :: str_exn e) ;;;
       respond_status 500 ;;;
       ret (RError (str_exn e))).

(** *** handle_webhook *)

Definition headers_json (h : list (string * string)) : json :=
  JObj (map (fun kv => (fst kv, JStr (snd kv))) h).

Definition handle_webhook (r : request) : M retval :=
  try_except
    (meta INFO [Lit "Facebook Webhook: "; Lit (method r); Lit " request received"] ;;;
     meta INFO [Lit "Facebook Webhook: Headers: "; Val (headers_json (headers r))] ;;;
     meta INFO [Lit "Facebook Webhook: Args: "; Val (headers_json (args r))] ;;;
     meta INFO [Lit "Facebook Webhook: User-Agent: ";
                Val (match arg "User-Agent" (headers r) with
                     | Some s => JStr s
                     | None => JStr "None"
                     end)] ;;;
     meta INFO [Lit "Facebook Webhook: Remote IP: "; Val (opt_json (remote_addr r))] ;;;
     applog INFO [Lit "Facebook Webhook: "; Lit (method r); Lit " request received"] ;;;
     if String.eqb (method r) "GET" then handle_verification r
     else if String.eqb (method r) "POST" then handle_lead_event r
     else raise (ValidationError [Lit "Unsupported HTTP method"]))
    (fun e =>
       meta ERROR (Lit "Facebook Webhook Error: " :: str_exn e) ;;;
       applog ERROR (Lit "Facebook Webhook Error: " :: str_exn e) ;;;
       respond_status 500 ;;;
       ret (RError (str_exn e))).

End Webhook.


(* ================================================================== *)
(** ** doctype/facebook_lead_ads_webhook/facebook_lead_ads_webhook.py *)

Module WebhookDoc.

(** The fields of a "Facebook Lead Ads Webhook" document. *)
Record t : Type := mk {
  enabled : bool;
  page_id : option string;
  form_id : option string;
  verify_token : option string;
  webhook_url : option string;
  is_active : bool;
  subscription_id : json
}.

(** Calls to the external platform (FacebookLeadAds/utils.py, which is
    not part of these sources; only the calls and their answers matter). *)
Inductive api_call : Type :=
| CreateAppWebhookSubscription
    (app_id callback_url verify_token : option string)
    (fields : list string) (include_values : bool)
| InstallAppOnPage (page_id : option string) (field : string)
| DeleteAppWebhookSubscription (app_id : option string) (object : string).

(** [self] is the document object in memory, [stored] its row in the
    database ([None] while it has none).  [api k c] is the platform's
    answer to [c] when it is the [k]-th call made; [write_fault] stands
    for the store refusing to write a row. *)
Record state : Type := mk_state {
  self : t;
  stored : option t;
  settings : Settings.t;
  api : nat -> api_call -> outcome json;
  calls : list api_call;                 (* oldest first *)
  write_fault : t -> option exn;
  rand : nat -> ascii;                   (* the generator's character stream *)
  rand_pos : nat;
  site_url : string;                     (* creqit.utils.get_url() *)
  messages : list text;                  (* creqit.msgprint *)
  error_log : list string                (* creqit.log_error titles *)
}.

Definition M : Type -> Type := prog state.

Definition set_self (s : state) (d : t) : state :=
  mk_state d (stored s) (settings s) (api s) (calls s) (write_fault s)
    (rand s) (rand_pos s) (site_url s) (messages s) (error_log s).
Definition set_stored (s : state) (r : option t) : state :=
  mk_state (self s) r (settings s) (api s) (calls s) (write_fault s)
    (rand s) (rand_pos s) (site_url s) (messages s) (error_log s).
Definition set_calls (s : state) (c : list api_call) : state :=
  mk_state (self s) (stored s) (settings s) (api s) c (write_fault s)
    (rand s) (rand_pos s) (site_url s) (messages s) (error_log s).
Definition set_rand_pos (s : state) (n : nat) : state :=
  mk_state (self s) (stored s) (settings s) (api s) (calls s) (write_fault s)
    (rand s) n (site_url s) (messages s) (error_log s).
Definition set_messages (s : state) (m : list text) : state :=
  mk_state (self s) (stored s) (settings s) (api s) (calls s) (write_fault s)
    (rand s) (rand_pos s) (site_url s) m (error_log s).
Definition set_error_log (s : state) (l : list string) : state :=
  mk_state (self s) (stored s) (settings s) (api s) (calls s) (write_fault s)
    (rand s) (rand_pos s) (site_url s) (messages s) l.

Definition get_self : M t := fun s => (s, Ok (self s)).
Definition update_self (f : t -> t) : M unit := fun s => (set_self s (f (self s)), Ok tt).
Definition get_stored : M (option t) := fun s => (s, Ok (stored s)).
Definition get_single : M Settings.t := fun s => (s, Ok (settings s)).
Definition msgprint (m : text) : M unit :=
  fun s => (set_messages s (messages s ++ [m]), Ok tt).
Definition log_error (title : string) : M unit :=
  fun s => (set_error_log s (error_log s ++ [title]), Ok tt).
Definition throw {A} (m : text) : M A := raise (ValidationError m).

(** One call to the platform: recorded, then answered. *)
Definition call (c : api_call) : M json :=
  fun s => (set_calls s (calls s ++ [c]), api s (List.length (calls s)) c).

(** Modelled from the spec: [creqit.generate_hash(length=n)] is the
    framework's; per section 3 it yields a random value of the requested
    size.  Here: the next [n] characters of the generator's stream. *)
Fixpoint take_rand (f : nat -> ascii) (from n : nat) : string :=
  match n with
  | O => EmptyString
  | S n' => String (f from) (take_rand f (S from) n')
  end.

Definition generate_hash (length : nat) : M string :=
  fun s => (set_rand_pos s (rand_pos s + length), Ok (take_rand (rand s) (rand_pos s) length)).

Definition set_verify_token (d : t) (v : option string) : t :=
  mk (enabled d) (page_id d) (form_id d) v (webhook_url d) (is_active d) (subscription_id d).
Definition set_webhook_url (d : t) (v : option string) : t :=
  mk (enabled d) (page_id d) (form_id d) (verify_token d) v (is_active d) (subscription_id d).
Definition set_is_active (d : t) (v : bool) : t :=
  mk (enabled d) (page_id d) (form_id d) (verify_token d) (webhook_url d) v (subscription_id d).
Definition set_subscription_id (d : t) (v : json) : t :=
  mk (enabled d) (page_id d) (form_id d) (verify_token d) (webhook_url d) (is_active d) v.

(** [FacebookLeadAdsWebhook.validate] *)
Definition validate : M unit :=
  self <- get_self ;;
  if enabled self then
    settings <- get_single ;;
    if negb (Settings.enabled settings) then
      throw [Lit "Please enable Facebook Lead Ads Settings first"]
    else if Settings.blank (page_id self) then
      throw [Lit "Page ID is required"]
    else if Settings.blank (form_id self) then
      throw [Lit "Form ID is required"]
    else ret tt
  else ret tt.

(** [FacebookLeadAdsWebhook.before_insert] *)
Definition before_insert : M unit :=
  h <- generate_hash 32 ;;
  update_self (fun d => set_verify_token d (Some h)) ;;;
  fun s =>
    update_self (fun d => set_webhook_url d
      (Some (site_url s ++ "/api/method/creqit.meta.FacebookLeadAds.webhook.handle_webhook"))) s.

(** The row write of a save. *)
Definition db_update : M unit :=
  fun s =>
    match write_fault s (self s) with
    | Some e => (s, Raise e)
    | None => (set_stored s (Some (self s)), Ok tt)
    end.

Section Hooks.

(** [self.save(ignore_permissions=True)] as seen from inside a hook: the
    same save, one call frame deeper. *)
Variable save : M unit.

(** [FacebookLeadAdsWebhook.subscribe_webhook] *)
Definition subscribe_webhook : M unit :=
  try_except
    (settings <- get_single ;;
     self <- get_self ;;
     subscription <- call (CreateAppWebhookSubscription
                             (Settings.app_id settings) (webhook_url self)
                             (verify_token self) ["leadgen"] true) ;;
     call (InstallAppOnPage (page_id self) "leadgen") ;;;
     update_self (fun d => set_is_active d true) ;;;
     id <- lift (py_get subscription "id" JNull) ;;
     update_self (fun d => set_subscription_id d id) ;;;
     save ;;;
     msgprint [Lit "Webhook subscription created successfully"])
    (fun e =>
       log_error "Facebook Webhook Subscription Error" ;;;
       throw (Lit "Failed to subscribe webhook: " :: str_exn e)).

(** [FacebookLeadAdsWebhook.unsubscribe_webhook] *)
Definition unsubscribe_webhook : M unit :=
  try_except
    (settings <- get_single ;;
     call (DeleteAppWebhookSubscription (Settings.app_id settings) "page") ;;;
     update_self (fun d => set_is_active d false) ;;;
     update_self (fun d => set_subscription_id d JNull) ;;;
     save ;;;
     msgprint [Lit "Webhook subscription removed successfully"])
    (fun e =>
       log_error "Facebook Webhook Unsubscription Error" ;;;
       throw (Lit "Failed to unsubscribe webhook: " :: str_exn e)).

(** [self.has_value_changed("enabled")] against the row as it was when
    the running save began; a document without such a row counts as
    changed. *)
Definition has_enabled_changed (previous : option t) : M bool :=
  self <- get_self ;;
  ret (match previous with
       | None => true
       | Some p => negb (Bool.eqb (enabled p) (enabled self))
       end).

(** [FacebookLeadAdsWebhook.on_update] *)
Definition on_update (previous : option t) : M unit :=
  changed <- has_enabled_changed previous ;;
  if changed then
    self <- get_self ;;
    if enabled self then subscribe_webhook else unsubscribe_webhook
  else ret tt.

(** [FacebookLeadAdsWebhook.on_trash] *)
Definition on_trash : M unit :=
  self <- get_self ;;
  if is_active self then unsubscribe_webhook else ret tt.

End Hooks.

(** Modelled from the spec: [Document.save] and [Document.insert] are
    the framework's.  Per sections 3, 4.3 and 4.4 a document gets
    [before_insert] once, when it is created; every save validates before
    it persists, and [on_update] runs after the row is written.  A
    document without a row is a new one, and saving it inserts it.
    [depth] is the call depth the interpreter still allows. *)
Fixpoint save (depth : nat) : M unit :=
  match depth with
  | O => raise RecursionError
  | S depth' =>
      previous <- get_stored ;;
      match previous with
      | None => before_insert
      | Some _ => ret tt
      end ;;;
      validate ;;;
      db_update ;;;
      on_update (save depth') previous
  end.

(** [doc.delete()]: [on_trash], then the row goes. *)
Definition delete (depth : nat) : M unit :=
  on_trash (save depth) ;;;
  fun s => (set_stored s None, Ok tt).

End WebhookDoc.


(* ================================================================== *)
(** ** Vocabulary of the statements *)

Definition raises {A} (o : outcome A) : bool :=
  match o with
  | Raise _ => true
  | Ok _ => false
  end.

(** The two ways these sources save the settings singleton. *)
Inductive settings_save : Type :=
| PlainSave                                   (* doc.save(...) *)
| TokenSave (token : string) (expiry : Settings.expiry_arg) (now : string).
                                              (* the save inside set_access_token *)

(** The persisted singleton after the save, and how the save ended. *)
Definition run_settings_save (how : settings_save) (self stored : Settings.t)
  : Settings.t * outcome unit :=
  match how with
  | PlainSave => Settings.save false self stored
  | TokenSave token expiry now => snd (Settings.set_access_token self token expiry now stored)
  end.

(** The validation rule as section 4.4 is read: every save of enabled
    settings without app id or app secret throws before persistence. *)
Definition validation_rule_as_worded (how : settings_save) (self stored : Settings.t)
  : Prop :=
  Settings.enabled self = true ->
  Settings.blank (Settings.app_id self) = true
  \/ Settings.blank (Settings.app_secret self) = true ->
  raises (snd (run_settings_save how self stored)) = true
  /\ fst (run_settings_save how self stored) = stored.


(** A GET request carrying the three handshake parameters. *)
Definition verification_request (mode token challenge : string) : Webhook.request :=
  Webhook.mk_request "GET"
    [("hub.mode", mode); ("hub.verify_token", token); ("hub.challenge", challenge)]
    [] None Webhook.NoBody.

(** A world with nothing stored, nothing logged and a store that never
    refuses an insert. *)
Definition quiet_world (s : Settings.t) (installed : bool) : Webhook.world :=
  Webhook.mk_world s installed [] (fun _ => None) [] [] [] 200 None
    "2025-01-01 00:00:00" "Guest".


(** *** Payloads of the shape section 4.2 describes

    [{object: "page", entry: [{id, changes: [{field, value: {...}}]}]}]:
    every entry is an object whose "changes", when present, is an array
    of objects, and the "value" of a leadgen change, when present, is an
    object. *)

Definition is_leadgen (change : json) : bool :=
  match change with
  | JObj kv =>
      match assoc "field" kv with
      | Some f => json_eqb f (JStr "leadgen")
      | None => false
      end
  | _ => false
  end.

Definition shaped_change (change : json) : bool :=
  match change with
  | JObj kv =>
      if is_leadgen change then
        match assoc "value" kv with
        | Some (JObj _) => true
        | Some _ => false
        | None => true
        end
      else true
  | _ => false
  end.

(** The "value" objects of the leadgen changes, in delivery order. *)
Definition change_values (change : json) : list json :=
  match change with
  | JObj kv =>
      if is_leadgen change then
        match assoc "value" kv with
        | Some v => [v]
        | None => [JObj []]
        end
      else []
  | _ => []
  end.

Definition shaped_entry (entry : json) : bool :=
  match entry with
  | JObj kv =>
      match assoc "changes" kv with
      | Some (JArr cs) => forallb shaped_change cs
      | Some _ => false
      | None => true
      end
  | _ => false
  end.

Definition entry_values (entry : json) : list json :=
  match entry with
  | JObj kv =>
      match assoc "changes" kv with
      | Some (JArr cs) => flat_map change_values cs
      | _ => []
      end
  | _ => []
  end.

Definition shaped_page_payload (payload : json) : bool :=
  match payload with
  | JObj kv =>
      match assoc "object" kv with
      | Some o => json_eqb o (JStr "page")
      | None => false
      end
      && match assoc "entry" kv with
         | Some (JArr es) => forallb shaped_entry es
         | Some _ => false
         | None => true
         end
  | _ => false
  end.

Definition payload_values (payload : json) : list json :=
  match payload with
  | JObj kv =>
      match assoc "entry" kv with
      | Some (JArr es) => flat_map entry_values es
      | _ => []
      end
  | _ => []
  end.

(** [value.get(key)] on a value object. *)
Definition field_of (key : string) (value : json) : json :=
  match value with
  | JObj kv => match assoc key kv with Some x => x | None => JNull end
  | _ => JNull
  end.

Definition leadgen_ids (payload : json) : list json :=
  map (field_of "leadgen_id") (payload_values payload).

(** The document and the event one leadgen change gives rise to. *)
Definition lead_of (now : string) (value : json) : Webhook.lead_doc :=
  Webhook.mk_lead [Lit "FB-"; Val (field_of "leadgen_id" value)] "New"
    (field_of "leadgen_id" value) (field_of "form_id" value) (field_of "page_id" value)
    (field_of "ad_id" value) (field_of "adset_id" value) [Dump value] now.

Definition event_of (now user : string) (value : json) : Webhook.realtime_event :=
  Webhook.mk_event "facebook_lead_received"
    (field_of "leadgen_id" value) (field_of "page_id" value) (field_of "form_id" value)
    now user.

(** What the creation step does to the stored leads, and the line it
    leaves in the application log. *)
Definition store_lead (installed : bool) (fault : Webhook.lead_doc -> option exn)
    (now : string) (stored : list Webhook.lead_doc) (value : json)
  : list Webhook.lead_doc :=
  if negb installed then stored
  else if Webhook.lead_exists (field_of "leadgen_id" value) stored then stored
  else match fault (lead_of now value) with
       | Some _ => stored
       | None => (stored ++ [lead_of now value])%list
       end.

Definition creation_note (installed : bool) (fault : Webhook.lead_doc -> option exn)
    (now : string) (stored : list Webhook.lead_doc) (value : json)
  : Webhook.level * text :=
  if negb installed then
    (Webhook.WARNING, [Lit "Facebook Lead DocType not found, skipping lead creation"])
  else if Webhook.lead_exists (field_of "leadgen_id" value) stored then
    (Webhook.INFO, [Lit "Facebook Lead "; Val (field_of "leadgen_id" value);
                    Lit " already exists, skipping"])
  else match fault (lead_of now value) with
       | Some e => (Webhook.ERROR, Lit "Failed to create Facebook Lead: " :: str_exn e)
       | None => (Webhook.INFO, [Lit "Created Facebook Lead "; Lit "{lead_doc.name}";
                                 Lit " for lead "; Val (field_of "leadgen_id" value)])
       end.

Fixpoint creation_notes (installed : bool) (fault : Webhook.lead_doc -> option exn)
    (now : string) (stored : list Webhook.lead_doc) (values : list json)
  : list (Webhook.level * text) :=
  match values with
  | [] => []
  | v :: vs =>
      creation_note installed fault now stored v
      :: creation_notes installed fault now (store_lead installed fault now stored v) vs
  end.

(** The parts of the world that lead processing only reads. *)
Definition same_surroundings (w w' : Webhook.world) : Prop :=
  Webhook.settings w' = Webhook.settings w
  /\ Webhook.doctype_installed w' = Webhook.doctype_installed w
  /\ Webhook.insert_fault w' = Webhook.insert_fault w
  /\ Webhook.now w' = Webhook.now w
  /\ Webhook.session_user w' = Webhook.session_user w
  /\ Webhook.page w' = Webhook.page w.

(** [w'] is [w] after the leadgen changes [values] were processed in
    order, each by the creation step and then the publication. *)
Definition processed (w : Webhook.world) (values : list json) (w' : Webhook.world) : Prop :=
  same_surroundings w w'
  /\ Webhook.status_code w' = Webhook.status_code w
  /\ Webhook.leads w'
     = fold_left (store_lead (Webhook.doctype_installed w) (Webhook.insert_fault w)
                    (Webhook.now w))
         values (Webhook.leads w)
  /\ Webhook.realtime w'
     = (Webhook.realtime w
        ++ map (event_of (Webhook.now w) (Webhook.session_user w)) values)%list
  /\ Webhook.app_log w'
     = (Webhook.app_log w
        ++ creation_notes (Webhook.doctype_installed w) (Webhook.insert_fault w)
             (Webhook.now w) (Webhook.leads w) values)%list.

(** A POST request carrying a decoded JSON document. *)
Definition post (payload : json) : Webhook.request :=
  Webhook.mk_request "POST" [] [] None (Webhook.Json payload).

(** Number of stored leads with a given external id. *)
Definition count_leads (id : json) (l : list Webhook.lead_doc) : nat :=
  List.length (filter (fun d => json_eqb (Webhook.facebook_lead_id d) id) l).

(** Sample payloads. *)
Definition leadgen_change (page_id form_id leadgen_id : string) : json :=
  JObj [("field", JStr "leadgen");
        ("value", JObj [("page_id", JStr page_id); ("form_id", JStr form_id);
                        ("leadgen_id", JStr leadgen_id)])].

Definition page_payload (changes : list json) : json :=
  JObj [("object", JStr "page");
        ("entry", JArr [JObj [("id", JStr "1001"); ("changes", JArr changes)]])].

Definition ready_settings : Settings.t :=
  Settings.mk true (Some "app") (Some "key") (Some "tok") true None Settings.Unset.

(** Idempotent ingestion as sections 4.2 and 8 word it: two deliveries
    carrying the same, not yet stored leadgen id leave exactly one record
    for it. *)
Definition idempotence_as_worded (id p1 p2 : json) (w : Webhook.world) : Prop :=
  shaped_page_payload p1 = true ->
  shaped_page_payload p2 = true ->
  In id (leadgen_ids p1) ->
  In id (leadgen_ids p2) ->
  count_leads id (Webhook.leads w) = 0 ->
  let w1 := fst (Webhook.handle_lead_event (post p1) w) in
  let w2 := fst (Webhook.handle_lead_event (post p2) w1) in
  count_leads id (Webhook.leads w2) = 1.

(** The multi-entry property as section 8 words it: N leadgen changes
    with distinct, not yet stored ids give N new records and N events. *)
Definition batch_rule_as_worded (p : json) (w : Webhook.world) : Prop :=
  shaped_page_payload p = true ->
  NoDup (leadgen_ids p) ->
  (forall id, In id (leadgen_ids p) -> count_leads id (Webhook.leads w) = 0) ->
  let w' := fst (Webhook.handle_lead_event (post p) w) in
  let n := List.length (payload_values p) in
  List.length (Webhook.leads w') = List.length (Webhook.leads w) + n
  /\ List.length (Webhook.realtime w') = List.length (Webhook.realtime w) + n.



Definition skipped_note : Webhook.level * text :=
  (Webhook.WARNING, [Lit "Facebook Lead DocType not found, skipping lead creation"]).

(** *** The subscription record *)

(** The two calls [subscribe_webhook] makes for the document in [s]. *)
Definition subscription_call (s : WebhookDoc.state) : WebhookDoc.api_call :=
  WebhookDoc.CreateAppWebhookSubscription
    (Settings.app_id (WebhookDoc.settings s))
    (WebhookDoc.webhook_url (WebhookDoc.self s))
    (WebhookDoc.verify_token (WebhookDoc.self s)) ["leadgen"] true.

Definition install_call (s : WebhookDoc.state) : WebhookDoc.api_call :=
  WebhookDoc.InstallAppOnPage (WebhookDoc.page_id (WebhookDoc.self s)) "leadgen".

Definition subscribe_failed (x : exn) : exn :=
  ValidationError (Lit "Failed to subscribe webhook: " :: str_exn x).

(** The verify token of the row, if there is a row. *)
Definition stored_token (s : WebhookDoc.state) : option (option string) :=
  option_map WebhookDoc.verify_token (WebhookDoc.stored s).

(** Every subscription call in [l] presents the token [tok]. *)
Definition presents_token (tok : option string) (c : WebhookDoc.api_call) : Prop :=
  match c with
  | WebhookDoc.CreateAppWebhookSubscription _ _ v _ _ => v = tok
  | _ => True
  end.

(** The document in memory carries the verify token [tok], and its row
    carries [tok] too or still the token [tok0] it had before. *)
Definition holds_token (tok0 tok : option string) (s : WebhookDoc.state) : Prop :=
  WebhookDoc.verify_token (WebhookDoc.self s) = tok
  /\ (stored_token s = Some tok \/ stored_token s = Some tok0).

(** From [s] to [s'] no hash was generated, and every call made in
    between that creates a subscription presents [tok]. *)
Definition only_presents (tok : option string) (s s' : WebhookDoc.state) : Prop :=
  WebhookDoc.rand_pos s' = WebhookDoc.rand_pos s
  /\ WebhookDoc.rand s' = WebhookDoc.rand s
  /\ exists made,
       WebhookDoc.calls s' = (WebhookDoc.calls s ++ made)%list
       /\ Forall (presents_token tok) made.

(** A program that keeps the token, however it ends. *)
Definition keeps_token {A} (tok0 tok : option string) (m : WebhookDoc.M A) : Prop :=
  forall s, holds_token tok0 tok s ->
    holds_token tok0 tok (fst (m s)) /\ only_presents tok s (fst (m s)).

(** Sample subscription records and platforms. *)
Definition sample_doc (enabled : bool) : WebhookDoc.t :=
  WebhookDoc.mk enabled (Some "page-1") (Some "form-1") (Some "0123456789abcdef")
    (Some "https://crm.example/api/method/creqit.meta.FacebookLeadAds.webhook.handle_webhook")
    false JNull.

Definition platform_up (k : nat) (c : WebhookDoc.api_call) : outcome json :=
  match c with
  | WebhookDoc.CreateAppWebhookSubscription _ _ _ _ _ => Ok (JObj [("id", JStr "sub-77")])
  | _ => Ok (JObj [("success", JBool true)])
  end.

Definition platform_down (k : nat) (c : WebhookDoc.api_call) : outcome json :=
  Raise (ValidationError [Lit "(#200) Permissions error"]).

(** The state right after the enclosing save wrote the row of [d]. *)
Definition doc_state (api : nat -> WebhookDoc.api_call -> outcome json)
    (d row : WebhookDoc.t) : WebhookDoc.state :=
  WebhookDoc.mk_state d (Some row) ready_settings api [] (fun _ => None)
    (fun _ => "a"%char) 0 "https://crm.example" [] [].

(** *** Vocabulary for the whole of webhook.py *)

(** What a lead handler can answer, read together with the status code
    it leaves in the response. *)
Inductive lead_answer (w' : Webhook.world) (res : outcome Webhook.retval) : Prop :=
| AnswerInvalid :
    res = Ok (Webhook.RError [Lit "Invalid payload"]) ->
    Webhook.status_code w' = 400%Z -> lead_answer w' res
| AnswerSuccess :
    res = Ok Webhook.RSuccess ->
    Webhook.status_code w' = 200%Z -> lead_answer w' res
| AnswerFailed (e : exn) :
    res = Ok (Webhook.RError (str_exn e)) ->
    Webhook.status_code w' = 500%Z -> lead_answer w' res.





(** A lead as the creation step writes it at time [now]. *)
Definition fresh_lead (now : string) (d : Webhook.lead_doc) : Prop :=
  Webhook.status d = "New"
  /\ Webhook.lead_id d = [Lit "FB-"; Val (Webhook.facebook_lead_id d)]
  /\ Webhook.created_at d = now.

(** An event as [process_entry] publishes it at time [now] for [user]. *)
Definition lead_event (now user : string) (e : Webhook.realtime_event) : Prop :=
  Webhook.event e = "facebook_lead_received"
  /\ Webhook.msg_timestamp e = now
  /\ Webhook.user e = user.

(** No external lead id is stored twice. *)
Definition one_per_id (l : list Webhook.lead_doc) : Prop :=
  forall id, count_leads id l <= 1.

(** From [w] to [w'] the store and the bus only grew: leads were
    appended, each a fresh one, none under an id already stored; events
    were appended; the clock, the user and the store's configuration are
    the same. *)
Definition grew (w w' : Webhook.world) : Prop :=
  Webhook.doctype_installed w' = Webhook.doctype_installed w
  /\ Webhook.insert_fault w' = Webhook.insert_fault w
  /\ Webhook.now w' = Webhook.now w
  /\ Webhook.session_user w' = Webhook.session_user w
  /\ (exists added,
        Webhook.leads w' = (Webhook.leads w ++ added)%list
        /\ Forall (fresh_lead (Webhook.now w)) added)
  /\ (one_per_id (Webhook.leads w) -> one_per_id (Webhook.leads w'))
  /\ (exists published,
        Webhook.realtime w' = (Webhook.realtime w ++ published)%list
        /\ Forall (lead_event (Webhook.now w) (Webhook.session_user w)) published).

(** A program whose every run, returning or raising, is related by [R]. *)
Definition respects (R : Webhook.world -> Webhook.world -> Prop) {A}
    (m : Webhook.M A) : Prop :=
  forall w, R w (fst (m w)).


(* ================================================================== *)
(** ** webhook.py: the meta logger and the log viewer *)

Module MetaLog.

(** A [RotatingFileHandler] with its formatter's site tag.  A path is
    the list of components handed to [os.path.join]. *)
Record handler : Type := mk_handler {
  file : list string;
  max_bytes : Z;
  backup_count : Z;
  site_tag : string
}.

(** A [logging.Logger]; [level = None] is NOTSET. *)
Record logger : Type := mk_logger {
  level : option Webhook.level;
  propagate : bool;
  handlers : list handler
}.

(** [attrs]: the attributes set on the [creqit] module, each bound to
    the logger of the given name; [registry]: the loggers the [logging]
    module knows by name; [dirs]: the directories that exist. *)
Record state : Type := mk_state {
  site : option string;                     (* creqit.local.site *)
  bench_path : string;                      (* creqit.utils.get_bench_path() *)
  attrs : list (string * string);
  registry : list (string * logger);
  dirs : list (list string)
}.

Fixpoint lookup {A} (k : string) (l : list (string * A)) : option A :=
  match l with
  | [] => None
  | (k', v) :: l' => if String.eqb k k' then Some v else lookup k l'
  end.

(** Bind [k] to [v], replacing an earlier binding. *)
Fixpoint bind_key {A} (k : string) (v : A) (l : list (string * A)) : list (string * A) :=
  match l with
  | [] => [(k, v)]
  | (k', v') :: l' =>
      if String.eqb k k' then (k, v) :: l' else (k', v') :: bind_key k v l'
  end.

(** [creqit.local.site or "default"] *)
Definition site_name (s : option string) : string :=
  match s with
  | Some n => if String.eqb n "" then "default" else n
  | None => "default"
  end.

Fixpoint path_eqb (a b : list string) : bool :=
  match a, b with
  | [], [] => true
  | x :: a', y :: b' => String.eqb x y && path_eqb a' b'
  | _, _ => false
  end.

(** [os.makedirs(d, exist_ok=True)] *)
Definition makedirs (d : list string) (ds : list (list string)) : list (list string) :=
  if existsb (path_eqb d) ds then ds else (ds ++ [d])%list.

(** [logging.getLogger(name)]: the registered logger, or a new one. *)
Definition getLogger (name : string) (reg : list (string * logger)) : logger :=
  match lookup name reg with
  | Some l => l
  | None => mk_logger None true []
  end.

(** [get_meta_logger]: the state after the call and the name of the
    logger it returns. *)
Definition get_meta_logger (st : state) : state * string :=
  let site_name := site_name (site st) in
  let logger_name := "facebook_meta_logger_" ++ site_name in
  match lookup ("meta_logger_" ++ site_name) (attrs st) with
  | Some cached => (st, cached)
  | None =>
      let logger := getLogger logger_name (registry st) in
      let log_dir := [bench_path st; "logs"] in
      let log_file := (log_dir ++ [(site_name ++ "-meta.log")%string])%list in
      let handler := mk_handler log_file (10 * 1024 * 1024) 5 site_name in
      let logger' := mk_logger (Some Webhook.INFO) false (handlers logger ++ [handler]) in
      (mk_state (site st) (bench_path st)
         (bind_key ("meta_logger_" ++ site_name) logger_name (attrs st))
         (bind_key logger_name logger' (registry st))
         (makedirs log_dir (dirs st)),
       logger_name)
  end.

(** *** webhook_logs *)

(** What the viewer reads: the site's meta log when the file exists, and
    the files the fallback pattern matches, in the order [glob] lists
    them, each with its creation time and its lines. *)
Record disk : Type := mk_disk {
  meta_log_file : option (list string);         (* its lines *)
  globbed : list (string * (Z * list string))   (* path, ctime, lines *)
}.

Inductive log_file_name : Type :=
| SiteMetaLog (bench site : string)    (* <bench>/logs/<site>-meta.log *)
| OtherLog (path : string).

Inductive view : Type :=
| NoLogFiles                                    (* {"error": "No log files found"} *)
| LogView (log_file : log_file_name) (site_name : string)
          (total_lines webhook_entries : nat)
          (recent_webhook_logs : list string) (log_type : string).

(** [l[-n:]] for a positive [n]. *)
Definition last_n {A} (n : nat) (l : list A) : list A :=
  skipn (List.length l - n) l.

(** [needle in line] *)
Definition contains (needle line : string) : bool :=
  match String.index 0 needle line with
  | Some _ => true
  | None => false
  end.

(** [max(files, key=os.path.getctime)]: the first file among those with
    the greatest creation time. *)
Fixpoint latest_from (best : string * (Z * list string))
    (rest : list (string * (Z * list string))) : string * (Z * list string) :=
  match rest with
  | [] => best
  | f :: rest' =>
      if Z.ltb (fst (snd best)) (fst (snd f)) then latest_from f rest'
      else latest_from best rest'
  end.

Definition webhook_logs (site : option string) (bench : string) (d : disk) : view :=
  let site_name := site_name site in
  match meta_log_file d with
  | Some lines =>
      let last_lines := if Nat.ltb 100 (List.length lines) then last_n 100 lines else lines in
      LogView (SiteMetaLog bench site_name) site_name (List.length lines)
        (List.length last_lines)
        (match last_lines with [] => [] | _ => last_n 20 last_lines end)
        "site_specific_meta_log"
  | None =>
      match globbed d with
      | [] => NoLogFiles
      | f :: rest =>
          let latest_log := latest_from f rest in
          let lines := snd (snd latest_log) in
          let last_lines :=
            if Nat.ltb 100 (List.length lines) then last_n 100 lines else lines in
          let webhook_lines := filter (contains "Facebook Webhook") last_lines in
          LogView (OtherLog (fst latest_log)) site_name (List.length lines)
            (List.length webhook_lines)
            (match webhook_lines with [] => [] | _ => last_n 20 webhook_lines end)
            "general_log"
      end
  end.

End MetaLog.


(* ================================================================== *)
(** ** doctype/facebook_lead_ads/facebook_lead_ads.py *)

Module LeadAdsDoc.

(** The timestamp fields of a "Facebook Lead Ads" document. *)
Record t : Type := mk {
  created_at : option string;
  updated_at : option string
}.

(** [FacebookLeadAds.before_save]; [now] is [creqit.utils.now()]. *)
Definition before_save (now : string) (self : t) : t :=
  let self1 :=
    if Settings.blank (created_at self) then mk (Some now) (updated_at self) else self in
  mk (created_at self1) (Some now).

(** [FacebookLeadAds.on_update]; the base class's [on_update] does
    nothing. *)
Definition on_update (now : string) (self : t) : t :=
  mk (created_at self) (Some now).

End LeadAdsDoc.

(* ================================================================== *)
(** ** facebook_lead_ads_webhook.py: naming and lead statistics *)

Module LeadStats.

(** The fields of a "Facebook Lead Ads Webhook" document that
    [autoname] and [process_lead] use. *)
Record t : Type := mk {
  webhook_name : option string;
  page_id : option string;
  form_id : option string;
  lead_count : option Z;
  last_lead_received : option string
}.

(** [self]: the document in memory; [stored]: its row; [save_fault]:
    the save refusing the document (validation or the store). *)
Record state : Type := mk_state {
  self : t;
  stored : t;
  save_fault : t -> option exn;
  realtime : list (string * json * string);   (* event, message, user *)
  error_log : list string;
  now : string;
  session_user : string
}.

Definition M : Type -> Type := prog state.

(** [str(x)] of a Data field in an f-string. *)
Definition shown (o : option string) : string :=
  match o with
  | Some s => s
  | None => "None"
  end.

(** [FacebookLeadAdsWebhook.autoname] *)
Definition autoname (d : t) : t :=
  if Settings.blank (webhook_name d) then
    mk (Some (shown (page_id d) ++ "_" ++ shown (form_id d)))
       (page_id d) (form_id d) (lead_count d) (last_lead_received d)
  else d.

(** Modelled from the spec: [self.save(ignore_permissions=True)] is the
    framework's.  [process_lead] leaves [enabled] alone, and a save that
    does not toggle it only writes the row or raises without writing it
    (see [WebhookDoc.save]): refused, or the row becomes the document. *)
Definition save : M unit :=
  fun s =>
    match save_fault s (self s) with
    | Some e => (s, Raise e)
    | None => (mk_state (self s) (self s) (save_fault s) (realtime s) (error_log s)
                 (now s) (session_user s), Ok tt)
    end.

Definition count_lead : M unit :=
  fun s =>
    let d := self s in
    (mk_state
       (mk (webhook_name d) (page_id d) (form_id d)
           (Some (match lead_count d with Some n => n | None => 0 end + 1)%Z)
           (Some (now s)))
       (stored s) (save_fault s) (realtime s) (error_log s) (now s) (session_user s),
     Ok tt).

Definition publish_realtime (ev : string) (message : json) : M unit :=
  fun s =>
    (mk_state (self s) (stored s) (save_fault s)
       (realtime s ++ [(ev, message, session_user s)]) (error_log s) (now s)
       (session_user s),
     Ok tt).

Definition log_error (title : string) : M unit :=
  fun s =>
    (mk_state (self s) (stored s) (save_fault s) (realtime s)
       (error_log s ++ [title]) (now s) (session_user s),
     Ok tt).

(** [FacebookLeadAdsWebhook.process_lead] *)
Definition process_lead (lead_data : json) : M json :=
  try_except
    (count_lead ;;;
     save ;;;
     publish_realtime "facebook_lead_received" lead_data ;;;
     ret lead_data)
    (fun e =>
       log_error "Facebook Lead Processing Error" ;;;
       raise e).

(** Processing leads one after the other, stopping at the first raise. *)
Fixpoint process_all (leads : list json) : M unit :=
  match leads with
  | [] => ret tt
  | l :: rest => process_lead l ;;; process_all rest
  end.

End LeadStats.


(** *** Vocabulary for the document classes *)

(** [(self.lead_count or 0)] *)
Definition counted (d : LeadStats.t) : Z :=
  match LeadStats.lead_count d with
  | Some n => n
  | None => 0
  end.

(** The document once [process_lead] has counted a lead at time [now]. *)
Definition bumped (now : string) (d : LeadStats.t) : LeadStats.t :=
  LeadStats.mk (LeadStats.webhook_name d) (LeadStats.page_id d) (LeadStats.form_id d)
    (Some (counted d + 1)%Z) (Some now).


(** The call [unsubscribe_webhook] makes, and the error it raises. *)
Definition delete_call (s : WebhookDoc.state) : WebhookDoc.api_call :=
  WebhookDoc.DeleteAppWebhookSubscription (Settings.app_id (WebhookDoc.settings s)) "page".

Definition unsubscribe_failed (x : exn) : exn :=
  ValidationError (Lit "Failed to unsubscribe webhook: " :: str_exn x).

(* ================================================================== *)
(** * Properties *)

(** ** Equality tests decide equality *)

Lemma opt_eqb_eq (a b : option string) : Webhook.opt_eqb a b = true <-> a = b.
Proof.
  destruct a as [x|], b as [y|]; simpl; try (split; congruence).
  rewrite String.eqb_eq. split; congruence.
Qed.

Lemma json_eqb_refl : forall a, json_eqb a a = true.
Proof.
  fix IH 1. intros [ | b | z | z | s | l | l]; simpl.
  - reflexivity.
  - apply Bool.eqb_reflx.
  - apply Z.eqb_refl.
  - apply Z.eqb_refl.
  - apply String.eqb_refl.
  - induction l as [|x l IHl]; [reflexivity|].
    rewrite (IH x). exact IHl.
  - induction l as [|[k x] l IHl]; [reflexivity|].
    rewrite String.eqb_refl, (IH x). exact IHl.
Qed.

Lemma json_eqb_true : forall a b, json_eqb a b = true -> a = b.
Proof.
  fix IH 1. intros [ | x | x | x | x | xs | xs] [ | y | y | y | y | ys | ys];
    simpl; try discriminate; intros H.
  - reflexivity.
  - apply Bool.eqb_prop in H. congruence.
  - apply Z.eqb_eq in H. congruence.
  - apply Z.eqb_eq in H. congruence.
  - apply String.eqb_eq in H. congruence.
  - f_equal. revert ys H.
    induction xs as [|x xs IHxs]; intros [|y ys] H; try discriminate; [reflexivity|].
    apply andb_true_iff in H. destruct H as [H1 H2].
    f_equal; [exact (IH _ _ H1) | exact (IHxs _ H2)].
  - f_equal. revert ys H.
    induction xs as [|[k x] xs IHxs]; intros [|[k' y] ys] H; try discriminate;
      [reflexivity|].
    apply andb_true_iff in H. destruct H as [H12 H3].
    apply andb_true_iff in H12. destruct H12 as [H1 H2].
    apply String.eqb_eq in H1. rewrite H1, (IH _ _ H2), (IHxs _ H3). reflexivity.
Qed.

Lemma json_eqb_eq (a b : json) : json_eqb a b = true <-> a = b.
Proof.
  split; [apply json_eqb_true | intros ->; apply json_eqb_refl].
Qed.

Lemma json_eqb_neq (a b : json) : json_eqb a b = false <-> a <> b.
Proof.
  rewrite <- json_eqb_eq. destruct (json_eqb a b); split; congruence.
Qed.


(** ** Settings validation *)

(** C9, as worded, fails: [set_access_token] saves with validation
    switched off, so enabled settings without an app id are persisted. *)
Lemma validation_rule_as_worded_fails :
  ~ validation_rule_as_worded
      (TokenSave "EAABsbCS1iHgBO" Settings.NoExpiry "2025-01-01 00:00:00")
      (Settings.mk true None None None false None Settings.Unset)
      (Settings.mk false None None None false None Settings.Unset).
Proof.
  unfold validation_rule_as_worded. intros H.
  destruct (H eq_refl (or_introl eq_refl)) as [H1 _].
  discriminate H1.
Qed.

(** C9 (amended). A save of the settings on which validation runs, that
    is every save but the one inside [set_access_token], raises exactly
    when the enabled flag is set and the app id or the app secret is
    empty, and then nothing is persisted; with the flag unset validation
    asks for nothing and the save goes through.  The save inside
    [set_access_token] persists the document unvalidated. *)
Theorem settings_validate_requires_credentials (self stored : Settings.t) :
  raises (Settings.validate self)
    = Settings.enabled self
      && (Settings.blank (Settings.app_id self) || Settings.blank (Settings.app_secret self))
  /\ run_settings_save PlainSave self stored
     = (if Settings.enabled self
           && (Settings.blank (Settings.app_id self)
               || Settings.blank (Settings.app_secret self))
        then stored else self,
        Settings.validate self)
  /\ (forall token expiry now,
        raises (snd (run_settings_save (TokenSave token expiry now) self stored)) = false
        /\ Settings.enabled (fst (run_settings_save (TokenSave token expiry now) self stored))
           = Settings.enabled self
        /\ Settings.app_id (fst (run_settings_save (TokenSave token expiry now) self stored))
           = Settings.app_id self
        /\ Settings.app_secret
             (fst (run_settings_save (TokenSave token expiry now) self stored))
           = Settings.app_secret self).
Proof.
  unfold run_settings_save, Settings.set_access_token, Settings.save, Settings.validate.
  split; [|split].
  - destruct (Settings.enabled self), (Settings.blank (Settings.app_id self)),
      (Settings.blank (Settings.app_secret self)); reflexivity.
  - destruct (Settings.enabled self), (Settings.blank (Settings.app_id self)),
      (Settings.blank (Settings.app_secret self)); reflexivity.
  - intros token expiry now. destruct expiry as [|n|t]; [| destruct (Z.eqb n 0) |];
      cbn; repeat split.
Qed.

(** ** Verification handshake *)

(** The world a successful handshake leaves behind keeps the settings
    valid, so the save inside it is decided by the app credentials. *)
Lemma validate_set_active (s : Settings.t) (b : bool) :
  Settings.validate (Settings.set_webhook_is_active s b) = Settings.validate s.
Proof. reflexivity. Qed.



(** ** Lead events: payloads that are not processed *)

(** A falsy payload of any kind is answered 400 and changes nothing but
    the log and the status code. *)
Lemma falsy_payload_400 (r : Webhook.request) (w : Webhook.world) :
  truthy (Webhook.get_json r) = false ->
  Webhook.handle_lead_event r w
  = (Webhook.set_status_code
       (Webhook.set_meta_log w
          (Webhook.meta_log w
           ++ [(Webhook.INFO, [Lit "Facebook Lead Event Payload: "; Dump (Webhook.get_json r)])]
           ++ [(Webhook.ERROR, [Lit "Invalid payload received"])]))
       400,
     Ok (Webhook.RError [Lit "Invalid payload"])).
Proof.
  intros H. unfold Webhook.handle_lead_event, try_except, bind, ret, Webhook.meta,
    Webhook.respond_status.
  rewrite H. simpl. rewrite <- app_assoc. reflexivity.
Qed.



(** C5. A decoded payload whose "object" field is present and is not
    "page" is acknowledged with 200 and {"success": true}.  Nothing else
    happens: no record, no event, and besides the payload dump the only
    log line is the one reporting the non-page event, so the entry list
    is never looked at. *)
Theorem non_page_object_passthrough
    (r : Webhook.request) (w : Webhook.world) (fields : list (string * json)) (obj : json) :
  Webhook.body r = Webhook.Json (JObj fields) ->
  assoc "object" fields = Some obj ->
  obj <> JStr "page" ->
  let w' := fst (Webhook.handle_lead_event r w) in
  snd (Webhook.handle_lead_event r w) = Ok Webhook.RSuccess
  /\ Webhook.status_code w' = 200%Z
  /\ Webhook.leads w' = Webhook.leads w
  /\ Webhook.realtime w' = Webhook.realtime w
  /\ Webhook.meta_log w'
     = (Webhook.meta_log w
        ++ [(Webhook.INFO, [Lit "Facebook Lead Event Payload: "; Dump (JObj fields)]);
            (Webhook.INFO, [Lit "Non-page event received: "; Val obj])])%list
  /\ Webhook.app_log w' = Webhook.app_log w.
Proof.
  intros B O N. apply json_eqb_neq in N.
  unfold Webhook.handle_lead_event, Webhook.get_json, try_except, bind, ret, lift,
    Webhook.meta, Webhook.respond_status, py_get.
  rewrite B. destruct fields as [|f fs]; [discriminate O|].
  cbn [truthy negb]. rewrite O, N. simpl. rewrite <- app_assoc. repeat split.
Qed.

Lemma non_page_object_passthrough_witness :
  let r := Webhook.mk_request "POST" [] [] None
             (Webhook.Json (JObj [("object", JStr "instagram");
                                  ("entry", JArr [JObj [("id", JStr "1")]])])) in
  let w := quiet_world ready_settings true in
  snd (Webhook.handle_lead_event r w) = Ok Webhook.RSuccess
  /\ Webhook.status_code (fst (Webhook.handle_lead_event r w)) = 200%Z
  /\ Webhook.leads (fst (Webhook.handle_lead_event r w)) = [].
Proof.
  cbv zeta.
  pose proof (non_page_object_passthrough
                (Webhook.mk_request "POST" [] [] None
                   (Webhook.Json (JObj [("object", JStr "instagram");
                                        ("entry", JArr [JObj [("id", JStr "1")]])])))
                (quiet_world ready_settings true)
                _ (JStr "instagram") eq_refl eq_refl) as H.
  cbv zeta in H.
  destruct H as (H1 & H2 & H3 & _); [discriminate|].
  repeat split; assumption.
Defined.

(** ** Lead events: the creation step *)

Ltac unfold_prog :=
  unfold try_except, bind, ret, raise, lift, Webhook.meta, Webhook.applog,
    Webhook.respond_status, Webhook.utils_now, Webhook.insert,
    Webhook.publish_realtime.

(** The creation step returns normally whatever it is given and whatever
    the store does: every exception raised inside it ends in its handler. *)
Lemma create_facebook_lead_returns (leadgen_id page_id form_id data : json)
    (w : Webhook.world) :
  snd (Webhook.create_facebook_lead leadgen_id page_id form_id data w) = Ok tt.
Proof.
  unfold Webhook.create_facebook_lead. unfold_prog.
  destruct (Webhook.doctype_installed w); simpl; [|reflexivity].
  destruct (Webhook.lead_exists leadgen_id (Webhook.leads w)); simpl; [reflexivity|].
  destruct (py_get data "ad_id" JNull); simpl; [|reflexivity].
  destruct (py_get data "adset_id" JNull); simpl; [|reflexivity].
  destruct (Webhook.insert_fault w _); reflexivity.
Qed.

(** It never touches the realtime bus, the response or the surroundings,
    and it never removes or alters a stored lead. *)
Lemma create_facebook_lead_frame (leadgen_id page_id form_id data : json)
    (w : Webhook.world) :
  let w' := fst (Webhook.create_facebook_lead leadgen_id page_id form_id data w) in
  same_surroundings w w'
  /\ Webhook.status_code w' = Webhook.status_code w
  /\ Webhook.realtime w' = Webhook.realtime w
  /\ exists added, Webhook.leads w' = (Webhook.leads w ++ added)%list.
Proof.
  unfold Webhook.create_facebook_lead, same_surroundings. unfold_prog.
  destruct (Webhook.doctype_installed w) eqn:Di; simpl.
  2:{ rewrite Di. repeat split. exists []. now rewrite app_nil_r. }
  destruct (Webhook.lead_exists leadgen_id (Webhook.leads w)); simpl.
  { rewrite Di. repeat split. exists []. now rewrite app_nil_r. }
  destruct (py_get data "ad_id" JNull); simpl.
  2:{ rewrite Di. repeat split. exists []. now rewrite app_nil_r. }
  destruct (py_get data "adset_id" JNull); simpl.
  2:{ rewrite Di. repeat split. exists []. now rewrite app_nil_r. }
  destruct (Webhook.insert_fault w _); simpl.
  - rewrite Di. repeat split. exists []. now rewrite app_nil_r.
  - rewrite Di. repeat split. eexists. reflexivity.
Qed.

(** On the value object of a leadgen change the step does what
    [store_lead] and [creation_note] say. *)
Lemma create_facebook_lead_on_value (kv : list (string * json)) (w : Webhook.world) :
  let v := JObj kv in
  let w' := fst (Webhook.create_facebook_lead
                   (field_of "leadgen_id" v) (field_of "page_id" v)
                   (field_of "form_id" v) v w) in
  Webhook.leads w'
  = store_lead (Webhook.doctype_installed w) (Webhook.insert_fault w) (Webhook.now w)
      (Webhook.leads w) v
  /\ Webhook.app_log w'
     = (Webhook.app_log w
        ++ [creation_note (Webhook.doctype_installed w) (Webhook.insert_fault w)
              (Webhook.now w) (Webhook.leads w) v])%list.
Proof.
  cbv zeta.
  unfold Webhook.create_facebook_lead, store_lead, creation_note, lead_of. unfold_prog.
  destruct (Webhook.doctype_installed w); simpl; [|split; reflexivity].
  destruct (Webhook.lead_exists _ (Webhook.leads w)); simpl; [split; reflexivity|].
  destruct (Webhook.insert_fault w _); simpl; split; reflexivity.
Qed.

(** ** Lead events: changes, entries, payloads *)

Lemma processed_nil (w w' : Webhook.world) :
  same_surroundings w w' ->
  Webhook.status_code w' = Webhook.status_code w ->
  Webhook.leads w' = Webhook.leads w ->
  Webhook.realtime w' = Webhook.realtime w ->
  Webhook.app_log w' = Webhook.app_log w ->
  processed w [] w'.
Proof.
  intros S C L R A. unfold processed. simpl. rewrite !app_nil_r. tauto.
Qed.

Lemma creation_notes_app installed fault now stored (xs ys : list json) :
  creation_notes installed fault now stored (xs ++ ys)
  = (creation_notes installed fault now stored xs
     ++ creation_notes installed fault now
          (fold_left (store_lead installed fault now) xs stored) ys)%list.
Proof.
  revert stored. induction xs as [|x xs IH]; intros stored; simpl; [reflexivity|].
  now rewrite IH.
Qed.

Lemma processed_trans (w1 w2 w3 : Webhook.world) (xs ys : list json) :
  processed w1 xs w2 -> processed w2 ys w3 -> processed w1 (xs ++ ys) w3.
Proof.
  unfold processed, same_surroundings.
  intros ((S1 & D1 & F1 & N1 & U1 & P1) & C1 & L1 & R1 & A1)
         ((S2 & D2 & F2 & N2 & U2 & P2) & C2 & L2 & R2 & A2).
  rewrite D1, F1, N1, U1 in *.
  repeat split; try congruence.
  - rewrite L2, L1, fold_left_app. reflexivity.
  - rewrite R2, R1, map_app, app_assoc. reflexivity.
  - rewrite A2, A1, L1, creation_notes_app, app_assoc. reflexivity.
Qed.

Lemma meta_processed (l : Webhook.level) (t : text) (w : Webhook.world) :
  processed w [] (fst (Webhook.meta l t w)).
Proof.
  apply processed_nil; try reflexivity. unfold same_surroundings. simpl. tauto.
Qed.

Lemma is_leadgen_field (kv : list (string * json)) :
  is_leadgen (JObj kv)
  = json_eqb (match assoc "field" kv with Some v => v | None => JNull end) (JStr "leadgen").
Proof.
  unfold is_leadgen. destruct (assoc "field" kv); reflexivity.
Qed.

Lemma create_then_publish (kv : list (string * json)) (w : Webhook.world) :
  let v := JObj kv in
  let w1 := fst (Webhook.create_facebook_lead
                   (field_of "leadgen_id" v) (field_of "page_id" v)
                   (field_of "form_id" v) v w) in
  processed w [v]
    (fst (Webhook.publish_realtime "facebook_lead_received"
            (field_of "leadgen_id" v) (field_of "page_id" v) (field_of "form_id" v) w1)).
Proof.
  cbv zeta.
  pose proof (create_facebook_lead_frame
                (field_of "leadgen_id" (JObj kv)) (field_of "page_id" (JObj kv))
                (field_of "form_id" (JObj kv)) (JObj kv) w) as Hf.
  pose proof (create_facebook_lead_on_value kv w) as Ho.
  cbv zeta in Hf, Ho.
  destruct (Webhook.create_facebook_lead _ _ _ _ w) as [w1 o].
  cbn [fst snd] in *.
  destruct Hf as ((S & D & F & N & U & P) & C & R & _). destruct Ho as (L & A).
  unfold processed, same_surroundings, Webhook.publish_realtime.
  cbn [fst snd Webhook.settings Webhook.doctype_installed Webhook.insert_fault
       Webhook.now Webhook.session_user Webhook.page Webhook.status_code Webhook.leads
       Webhook.realtime Webhook.app_log Webhook.set_realtime fold_left map
       creation_notes].
  rewrite R, N, U. repeat split; assumption.
Qed.

(** A change of the described shape is processed without an exception;
    a leadgen change goes through the creation step and is published, any
    other change is only logged. *)
Lemma process_change_shaped (c : json) (w : Webhook.world) :
  shaped_change c = true ->
  snd (Webhook.process_change c w) = Ok tt
  /\ processed w (change_values c) (fst (Webhook.process_change c w)).
Proof.
  destruct c as [ | | | | | |kv]; try discriminate. intros Sh.
  unfold shaped_change in Sh. unfold change_values.
  rewrite is_leadgen_field in *.
  unfold Webhook.process_change, bind, lift, py_get.
  destruct (json_eqb _ (JStr "leadgen")) eqn:Lg; cbn [negb].
  2:{ split; [reflexivity | apply meta_processed]. }
  set (v := match assoc "value" kv with Some v => v | None => JObj [] end).
  assert (Hv : exists kv', v = JObj kv').
  { unfold v. destruct (assoc "value" kv) as [[ | | | | | |kv']|];
      try discriminate Sh; eexists; reflexivity. }
  destruct Hv as [kv' Hv].
  assert (Hvals : match assoc "value" kv with Some v0 => [v0] | None => [JObj []] end = [v]).
  { unfold v. destruct (assoc "value" kv); reflexivity. }
  rewrite Hvals, Hv. clear Hvals.
  change (match assoc "page_id" kv' with Some x => x | None => JNull end)
    with (field_of "page_id" (JObj kv')).
  change (match assoc "form_id" kv' with Some x => x | None => JNull end)
    with (field_of "form_id" (JObj kv')).
  change (match assoc "leadgen_id" kv' with Some x => x | None => JNull end)
    with (field_of "leadgen_id" (JObj kv')).
  match goal with
  | |- context [Webhook.meta ?l ?t w] =>
      pose proof (meta_processed l t w) as P0;
      destruct (Webhook.meta l t w) as [w0 o0] eqn:E0;
      assert (o0 = Ok tt) by (unfold Webhook.meta in E0; congruence); subst o0
  end.
  match goal with
  | |- context [Webhook.meta ?l ?t w0] =>
      pose proof (meta_processed l t w0) as P1;
      destruct (Webhook.meta l t w0) as [w1 o1] eqn:E1;
      assert (o1 = Ok tt) by (unfold Webhook.meta in E1; congruence); subst o1
  end.
  pose proof (create_then_publish kv' w1) as P2. cbv zeta in P2.
  match goal with
  | |- context [Webhook.create_facebook_lead ?a ?b ?c ?d w1] =>
      pose proof (create_facebook_lead_returns a b c d w1) as Hr;
      destruct (Webhook.create_facebook_lead a b c d w1) as [w2 o] eqn:E
  end.
  cbn [fst snd] in *. subst o.
  split; [reflexivity|].
  apply (processed_trans w w0 _ [] [JObj kv'] P0).
  apply (processed_trans w0 w1 _ [] [JObj kv'] P1). exact P2.
Qed.

Lemma processed_refl (w : Webhook.world) : processed w [] w.
Proof.
  apply processed_nil; try reflexivity. unfold same_surroundings. tauto.
Qed.

(** A loop whose body handles each item without raising handles the
    whole list, item after item. *)
Lemma for_each_processed (body : json -> Webhook.M unit) (good : json -> bool)
    (values : json -> list json) :
  (forall x w, good x = true ->
     snd (body x w) = Ok tt /\ processed w (values x) (fst (body x w))) ->
  forall xs w, forallb good xs = true ->
    snd (Webhook.for_each xs body w) = Ok tt
    /\ processed w (flat_map values xs) (fst (Webhook.for_each xs body w)).
Proof.
  intros Hbody. induction xs as [|x xs IH]; intros w Hall; simpl.
  - split; [reflexivity | apply processed_refl].
  - simpl in Hall. apply andb_true_iff in Hall. destruct Hall as [Hx Hxs].
    destruct (Hbody x w Hx) as [Hr Hp]. unfold bind.
    destruct (body x w) as [w1 o]. simpl in Hr, Hp. subst o.
    destruct (IH w1 Hxs) as [Hr' Hp'].
    split; [exact Hr' | exact (processed_trans _ _ _ _ _ Hp Hp')].
Qed.

Lemma process_entry_shaped (e : json) (w : Webhook.world) :
  shaped_entry e = true ->
  snd (Webhook.process_entry e w) = Ok tt
  /\ processed w (entry_values e) (fst (Webhook.process_entry e w)).
Proof.
  destruct e as [ | | | | | |kv]; try discriminate.
  unfold shaped_entry, entry_values, Webhook.process_entry, bind, lift, py_get.
  destruct (assoc "changes" kv) as [[ | | | | |cs| ]|]; try discriminate; intros Sh.
  - cbn [py_len py_iter].
    match goal with
    | |- context [Webhook.meta ?l ?t w] =>
        pose proof (meta_processed l t w) as P0;
        destruct (Webhook.meta l t w) as [w0 o0] eqn:E0;
        assert (o0 = Ok tt) by (unfold Webhook.meta in E0; congruence); subst o0
    end.
    cbn [fst snd] in *.
    destruct (for_each_processed Webhook.process_change shaped_change change_values
                process_change_shaped cs w0 Sh) as [Hr Hp].
    split; [exact Hr | exact (processed_trans _ _ _ [] _ P0 Hp)].
  - cbn [py_len py_iter].
    split; [reflexivity|]. simpl. apply meta_processed.
Qed.

(** The outcome of a POST whose payload has the described shape: every
    leadgen change is handled in order and the request is acknowledged,
    whatever the store does in the creation step. *)
Lemma shaped_payload_processed (r : Webhook.request) (p : json) (w : Webhook.world) :
  Webhook.body r = Webhook.Json p ->
  shaped_page_payload p = true ->
  let w' := fst (Webhook.handle_lead_event r w) in
  snd (Webhook.handle_lead_event r w) = Ok Webhook.RSuccess
  /\ Webhook.status_code w' = 200%Z
  /\ same_surroundings w w'
  /\ Webhook.leads w'
     = fold_left (store_lead (Webhook.doctype_installed w) (Webhook.insert_fault w)
                    (Webhook.now w))
         (payload_values p) (Webhook.leads w)
  /\ Webhook.realtime w'
     = (Webhook.realtime w
        ++ map (event_of (Webhook.now w) (Webhook.session_user w)) (payload_values p))%list
  /\ Webhook.app_log w'
     = (Webhook.app_log w
        ++ creation_notes (Webhook.doctype_installed w) (Webhook.insert_fault w)
             (Webhook.now w) (Webhook.leads w) (payload_values p))%list.
Proof.
  intros B Sh. cbv zeta.
  assert (H : exists w1,
             processed w (payload_values p) w1
             /\ Webhook.handle_lead_event r w
                = (Webhook.set_status_code
                     (Webhook.set_meta_log w1
                        (Webhook.meta_log w1
                         ++ [(Webhook.INFO,
                              [Lit "Facebook Lead Event processed successfully"])]))
                     200,
                   Ok Webhook.RSuccess)).
  { destruct p as [ | | | | | |kv]; try discriminate.
    unfold shaped_page_payload in Sh. apply andb_true_iff in Sh. destruct Sh as [Ob En].
    assert (T : truthy (JObj kv) = true).
    { destruct kv; [discriminate Ob | reflexivity]. }
    unfold Webhook.handle_lead_event, Webhook.get_json, try_except. rewrite B.
    unfold bind at 1.
    match goal with
    | |- context [Webhook.meta ?l ?t w] =>
        pose proof (meta_processed l t w) as P0;
        destruct (Webhook.meta l t w) as [w0 o0] eqn:E0;
        assert (o0 = Ok tt) by (unfold Webhook.meta in E0; congruence); subst o0
    end.
    rewrite T. cbn [negb fst snd] in *.
    unfold bind at 1, lift, py_get.
    assert (Ob' : json_eqb (match assoc "object" kv with Some v => v | None => JNull end)
                    (JStr "page") = true).
    { destruct (assoc "object" kv); [exact Ob | discriminate Ob]. }
    rewrite Ob'. cbn [negb]. unfold bind at 1 2.
    assert (It : exists es,
               py_iter (match assoc "entry" kv with Some v => v | None => JArr [] end)
               = Ok es
               /\ forallb shaped_entry es = true
               /\ payload_values (JObj kv) = flat_map entry_values es).
    { unfold payload_values.
      destruct (assoc "entry" kv) as [[ | | | | |es| ]|]; try discriminate En.
      - exists es. repeat split. exact En.
      - exists []. repeat split. }
    destruct It as (es & It & Hes & Hvals). rewrite It, Hvals.
    destruct (for_each_processed Webhook.process_entry shaped_entry entry_values
                process_entry_shaped es w0 Hes) as [Hr Hp].
    unfold bind at 1.
    destruct (Webhook.for_each es Webhook.process_entry w0) as [w1 o1].
    cbn [fst snd] in *. subst o1.
    exists w1. split; [exact (processed_trans _ _ _ [] _ P0 Hp)|].
    reflexivity. }
  destruct H as (w1 & ((S & D & F & N & U & P) & C & L & R & A) & E).
  rewrite E. unfold same_surroundings. cbn. tauto.
Qed.

(** ** Counting stored leads *)

Lemma lead_exists_count (id : json) (l : list Webhook.lead_doc) :
  Webhook.lead_exists id l = negb (Nat.eqb (count_leads id l) 0).
Proof.
  unfold Webhook.lead_exists, count_leads.
  induction l as [|d l IH]; simpl; [reflexivity|].
  destruct (json_eqb (Webhook.facebook_lead_id d) id); simpl; [reflexivity | exact IH].
Qed.

Lemma count_leads_app (id : json) (l1 l2 : list Webhook.lead_doc) :
  count_leads id (l1 ++ l2) = count_leads id l1 + count_leads id l2.
Proof.
  unfold count_leads. now rewrite filter_app, length_app.
Qed.

(** One creation step adds a lead with id [id] only when none is stored,
    and then exactly one. *)
Lemma store_lead_filter installed fault now stored value (id : json) :
  filter (fun d => json_eqb (Webhook.facebook_lead_id d) id)
    (store_lead installed fault now stored value)
  = (filter (fun d => json_eqb (Webhook.facebook_lead_id d) id) stored
     ++ (if installed
            && json_eqb (field_of "leadgen_id" value) id
            && Nat.eqb (count_leads id stored) 0
            && match fault (lead_of now value) with Some _ => false | None => true end
         then [lead_of now value] else []))%list.
Proof.
  unfold store_lead.
  destruct installed; cbn [negb andb]; [|now rewrite app_nil_r].
  destruct (Webhook.lead_exists (field_of "leadgen_id" value) stored) eqn:Ex.
  - destruct (json_eqb (field_of "leadgen_id" value) id) eqn:E; cbn [andb];
      [|now rewrite app_nil_r].
    apply json_eqb_eq in E. subst id.
    rewrite lead_exists_count in Ex. apply negb_true_iff in Ex. rewrite Ex.
    now rewrite app_nil_r.
  - destruct (fault (lead_of now value)); [now rewrite andb_false_r, app_nil_r|].
    rewrite andb_true_r, filter_app. simpl.
    destruct (json_eqb (field_of "leadgen_id" value) id) eqn:E; cbn [andb].
    + apply json_eqb_eq in E. subst id.
      rewrite lead_exists_count in Ex. apply negb_false_iff in Ex. rewrite Ex.
      reflexivity.
    + reflexivity.
Qed.

Lemma store_lead_count installed fault now stored value (id : json) :
  count_leads id (store_lead installed fault now stored value)
  = count_leads id stored
    + (if installed
          && json_eqb (field_of "leadgen_id" value) id
          && Nat.eqb (count_leads id stored) 0
          && match fault (lead_of now value) with Some _ => false | None => true end
       then 1 else 0).
Proof.
  unfold count_leads at 1. rewrite store_lead_filter, length_app.
  fold (count_leads id stored).
  destruct (_ && _ && _ && _); reflexivity.
Qed.

(** Once a lead with id [id] is stored, no batch changes the leads stored
    under that id. *)
Lemma stored_id_untouched installed fault now (values : list json) (id : json) :
  forall stored,
    count_leads id stored <> 0 ->
    filter (fun d => json_eqb (Webhook.facebook_lead_id d) id)
      (fold_left (store_lead installed fault now) values stored)
    = filter (fun d => json_eqb (Webhook.facebook_lead_id d) id) stored.
Proof.
  induction values as [|v vs IH]; intros stored H; simpl; [reflexivity|].
  assert (E : filter (fun d => json_eqb (Webhook.facebook_lead_id d) id)
                (store_lead installed fault now stored v)
              = filter (fun d => json_eqb (Webhook.facebook_lead_id d) id) stored).
  { rewrite store_lead_filter.
    apply Nat.eqb_neq in H. rewrite H, andb_false_r. cbn [andb].
    now rewrite app_nil_r. }
  rewrite IH.
  - exact E.
  - unfold count_leads. rewrite E. exact H.
Qed.

(** No batch ever brings the number of leads stored under one id above
    one. *)
Lemma at_most_one_per_id installed fault now (values : list json) (id : json) :
  forall stored,
    count_leads id stored <= 1 ->
    count_leads id (fold_left (store_lead installed fault now) values stored) <= 1.
Proof.
  induction values as [|v vs IH]; intros stored H; simpl; [exact H|].
  apply IH. rewrite store_lead_count.
  destruct (Nat.eqb (count_leads id stored) 0) eqn:E.
  - apply Nat.eqb_eq in E. rewrite E. destruct (_ && _ && _ && _); lia.
  - rewrite andb_false_r. cbn [andb]. lia.
Qed.

(** With the DocType installed and a store that accepts inserts, a batch
    that carries [id] leaves exactly one lead stored under it. *)
Lemma carried_id_stored fault now (values : list json) (id : json) :
  (forall d, fault d = None) ->
  In id (map (field_of "leadgen_id") values) ->
  forall stored,
    count_leads id stored <= 1 ->
    count_leads id (fold_left (store_lead true fault now) values stored) = 1.
Proof.
  intros Hf. induction values as [|v vs IH]; intros Hin stored H; [destruct Hin|].
  simpl. simpl in Hin.
  assert (Hstep : count_leads id (store_lead true fault now stored v) <= 1).
  { apply (at_most_one_per_id true fault now [v] id stored H). }
  destruct Hin as [Hv | Hin]; [|apply IH; assumption].
  assert (H1 : count_leads id (store_lead true fault now stored v) = 1).
  { rewrite store_lead_count, Hf, Hv, json_eqb_refl. cbn [andb].
    destruct (Nat.eqb (count_leads id stored) 0) eqn:E; cbn [andb].
    - apply Nat.eqb_eq in E. lia.
    - apply Nat.eqb_neq in E. lia. }
  pose proof (stored_id_untouched true fault now vs id
                (store_lead true fault now stored v)) as Hk.
  unfold count_leads in *. rewrite Hk; [exact H1 | lia].
Qed.


(** ** Idempotent ingestion *)

(** C2, as worded, fails: where the "Facebook Lead" DocType is not
    installed the creation step is skipped, and two deliveries of the same
    lead leave no record at all. *)
Lemma idempotence_as_worded_fails :
  ~ idempotence_as_worded (JStr "L-1")
      (page_payload [leadgen_change "P" "F" "L-1"])
      (page_payload [leadgen_change "P" "F" "L-1"])
      (quiet_world ready_settings false).
Proof.
  unfold idempotence_as_worded. intros H.
  specialize (H eq_refl eq_refl (or_introl eq_refl) (or_introl eq_refl) eq_refl).
  cbv zeta in H. vm_compute in H. discriminate H.
Qed.

(** C2 (amended). Where the "Facebook Lead" DocType is installed and the
    store accepts inserts, two payloads of the described shape that both
    carry a leadgen change with the same, not yet stored leadgen id leave
    exactly one record for it.  The second delivery, in whatever world
    holds the leads the first one left, finds that record and creates
    nothing under the id; both deliveries are acknowledged. *)
Theorem ingestion_idempotent (id p1 p2 : json) (w w1' : Webhook.world) :
  shaped_page_payload p1 = true ->
  shaped_page_payload p2 = true ->
  In id (leadgen_ids p1) ->
  In id (leadgen_ids p2) ->
  count_leads id (Webhook.leads w) = 0 ->
  Webhook.doctype_installed w = true ->
  (forall d, Webhook.insert_fault w d = None) ->
  let w1 := fst (Webhook.handle_lead_event (post p1) w) in
  Webhook.leads w1' = Webhook.leads w1 ->
  let w2 := fst (Webhook.handle_lead_event (post p2) w1') in
  count_leads id (Webhook.leads w1) = 1
  /\ count_leads id (Webhook.leads w2) = 1
  /\ filter (fun d => json_eqb (Webhook.facebook_lead_id d) id) (Webhook.leads w2)
     = filter (fun d => json_eqb (Webhook.facebook_lead_id d) id) (Webhook.leads w1)
  /\ snd (Webhook.handle_lead_event (post p1) w) = Ok Webhook.RSuccess
  /\ snd (Webhook.handle_lead_event (post p2) w1') = Ok Webhook.RSuccess.
Proof.
  intros S1 S2 I1 I2 C0 Di Nf w1 E w2.
  destruct (shaped_payload_processed (post p1) p1 w eq_refl S1)
    as (R1 & _ & _ & L1 & _).
  destruct (shaped_payload_processed (post p2) p2 w1' eq_refl S2)
    as (R2 & _ & _ & L2 & _).
  fold w1 in L1. fold w2 in L2.
  assert (H1 : count_leads id (Webhook.leads w1) = 1).
  { rewrite L1, Di. apply carried_id_stored; [exact Nf | exact I1 | lia]. }
  assert (K : filter (fun d => json_eqb (Webhook.facebook_lead_id d) id) (Webhook.leads w2)
              = filter (fun d => json_eqb (Webhook.facebook_lead_id d) id)
                  (Webhook.leads w1)).
  { rewrite L2, E. apply stored_id_untouched. lia. }
  repeat split; try assumption.
  unfold count_leads in *. rewrite K. exact H1.
Qed.

Lemma ingestion_idempotent_witness :
  let p := page_payload [leadgen_change "P" "F" "L-1"] in
  let w := quiet_world ready_settings true in
  let w1 := fst (Webhook.handle_lead_event (post p) w) in
  let w2 := fst (Webhook.handle_lead_event (post p) w1) in
  count_leads (JStr "L-1") (Webhook.leads w1) = 1
  /\ count_leads (JStr "L-1") (Webhook.leads w2) = 1.
Proof.
  cbv zeta.
  pose proof (ingestion_idempotent (JStr "L-1")
                (page_payload [leadgen_change "P" "F" "L-1"])
                (page_payload [leadgen_change "P" "F" "L-1"])
                (quiet_world ready_settings true)
                (fst (Webhook.handle_lead_event
                        (post (page_payload [leadgen_change "P" "F" "L-1"]))
                        (quiet_world ready_settings true)))
                eq_refl eq_refl (or_introl eq_refl) (or_introl eq_refl) eq_refl eq_refl
                (fun _ => eq_refl) eq_refl) as H.
  cbv zeta in H. destruct H as (H1 & H2 & _). split; assumption.
Defined.

(** ** Batches of new leads *)

Lemma store_new_leads fault now (values : list json) :
  (forall d, fault d = None) ->
  NoDup (map (field_of "leadgen_id") values) ->
  forall stored,
    (forall id, In id (map (field_of "leadgen_id") values) -> count_leads id stored = 0) ->
    fold_left (store_lead true fault now) values stored
    = (stored ++ map (lead_of now) values)%list.
Proof.
  intros Hf. induction values as [|v vs IH]; intros Nd stored Hnew; simpl.
  - now rewrite app_nil_r.
  - simpl in Nd. inversion Nd as [|x xs Hnotin Nd']; subst.
    assert (E : store_lead true fault now stored v = (stored ++ [lead_of now v])%list).
    { unfold store_lead. cbn [negb].
      rewrite lead_exists_count, (Hnew _ (or_introl eq_refl)), Hf. reflexivity. }
    rewrite E, IH; [now rewrite <- app_assoc | exact Nd' |].
    intros id Hin. rewrite count_leads_app, (Hnew id (or_intror Hin)).
    unfold count_leads. simpl.
    destruct (json_eqb (field_of "leadgen_id" v) id) eqn:Eq; [|reflexivity].
    apply json_eqb_eq in Eq. subst id. contradiction.
Qed.

(** C4, as worded, fails: where the "Facebook Lead" DocType is not
    installed, a page payload with one new leadgen change creates no
    record. *)
Lemma batch_rule_as_worded_fails :
  ~ batch_rule_as_worded (page_payload [leadgen_change "P" "F" "L-1"])
      (quiet_world ready_settings false).
Proof.
  unfold batch_rule_as_worded. intros H.
  assert (Nd : NoDup (leadgen_ids (page_payload [leadgen_change "P" "F" "L-1"]))).
  { vm_compute. constructor; [intros [] | constructor]. }
  specialize (H eq_refl Nd (fun _ _ => eq_refl)).
  cbv zeta in H. destruct H as [H _]. vm_compute in H. discriminate H.
Qed.

(** C4 (amended). Where the "Facebook Lead" DocType is installed and the
    store accepts inserts, a page payload of the described shape whose N
    leadgen changes carry pairwise distinct, not yet stored leadgen ids is
    acknowledged and adds exactly N records, one per change and in order,
    each with status "New" and the ids of its change; and it publishes
    exactly N events, one per change and in order, each with the leadgen,
    page and form id of its change, the current time and the session's
    user. *)
Theorem batch_creates_and_publishes (r : Webhook.request) (p : json) (w : Webhook.world) :
  Webhook.body r = Webhook.Json p ->
  shaped_page_payload p = true ->
  NoDup (leadgen_ids p) ->
  (forall id, In id (leadgen_ids p) -> count_leads id (Webhook.leads w) = 0) ->
  Webhook.doctype_installed w = true ->
  (forall d, Webhook.insert_fault w d = None) ->
  let w' := fst (Webhook.handle_lead_event r w) in
  let changes := payload_values p in
  snd (Webhook.handle_lead_event r w) = Ok Webhook.RSuccess
  /\ Webhook.status_code w' = 200%Z
  /\ Webhook.leads w' = (Webhook.leads w ++ map (lead_of (Webhook.now w)) changes)%list
  /\ List.length (Webhook.leads w') = List.length (Webhook.leads w) + List.length changes
  /\ (forall c, In c changes ->
        Webhook.status (lead_of (Webhook.now w) c) = "New"
        /\ Webhook.facebook_lead_id (lead_of (Webhook.now w) c) = field_of "leadgen_id" c
        /\ Webhook.facebook_page_id (lead_of (Webhook.now w) c) = field_of "page_id" c
        /\ Webhook.facebook_form_id (lead_of (Webhook.now w) c) = field_of "form_id" c)
  /\ Webhook.realtime w'
     = (Webhook.realtime w
        ++ map (fun c => Webhook.mk_event "facebook_lead_received"
                           (field_of "leadgen_id" c) (field_of "page_id" c)
                           (field_of "form_id" c) (Webhook.now w) (Webhook.session_user w))
             changes)%list
  /\ List.length (Webhook.realtime w')
     = List.length (Webhook.realtime w) + List.length changes.
Proof.
  intros B Sh Nd New Di Nf. cbv zeta.
  destruct (shaped_payload_processed r p w B Sh) as (R & C & _ & L & Ev & _).
  cbv zeta in *. rewrite Di in L.
  rewrite (store_new_leads _ _ _ Nf Nd _ New) in L.
  repeat split; try assumption.
  - rewrite L, length_app, length_map. reflexivity.
  - rewrite Ev, length_app, length_map. reflexivity.
Qed.

Lemma batch_creates_and_publishes_witness :
  let p := page_payload [leadgen_change "P" "F1" "L-1"; leadgen_change "P" "F2" "L-2"] in
  let w := quiet_world ready_settings true in
  let w' := fst (Webhook.handle_lead_event (post p) w) in
  List.length (Webhook.leads w') = 2 /\ List.length (Webhook.realtime w') = 2.
Proof.
  cbv zeta.
  assert (Nd : NoDup (leadgen_ids
                        (page_payload [leadgen_change "P" "F1" "L-1";
                                       leadgen_change "P" "F2" "L-2"]))).
  { vm_compute. constructor.
    - intros [H | []]. discriminate H.
    - constructor; [intros [] | constructor]. }
  pose proof (batch_creates_and_publishes
                (post (page_payload [leadgen_change "P" "F1" "L-1";
                                     leadgen_change "P" "F2" "L-2"]))
                _ (quiet_world ready_settings true)
                eq_refl eq_refl Nd (fun _ _ => eq_refl) eq_refl (fun _ => eq_refl)) as H.
  cbv zeta in H. destruct H as (_ & _ & _ & H1 & _ & _ & H2).
  split; [exact H1 | exact H2].
Defined.


(** ** A missing DocType *)

Lemma store_lead_not_installed fault now (values : list json) :
  forall stored, fold_left (store_lead false fault now) values stored = stored.
Proof.
  induction values as [|v vs IH]; intros stored; simpl; [reflexivity | apply IH].
Qed.

Lemma creation_notes_not_installed fault now (values : list json) :
  forall stored,
    creation_notes false fault now stored values = map (fun _ => skipped_note) values.
Proof.
  induction values as [|v vs IH]; intros stored; simpl; [reflexivity|].
  f_equal. apply IH.
Qed.

(** C10. Where the "Facebook Lead" DocType is not installed, a page
    payload of the described shape is still acknowledged with 200 and
    {"success": true}: no record is created, every leadgen change is
    published all the same, and each of them leaves one warning, and
    nothing else, in the application log. *)
Theorem missing_doctype_acknowledged (r : Webhook.request) (p : json) (w : Webhook.world) :
  Webhook.body r = Webhook.Json p ->
  shaped_page_payload p = true ->
  Webhook.doctype_installed w = false ->
  let w' := fst (Webhook.handle_lead_event r w) in
  snd (Webhook.handle_lead_event r w) = Ok Webhook.RSuccess
  /\ Webhook.status_code w' = 200%Z
  /\ Webhook.leads w' = Webhook.leads w
  /\ Webhook.realtime w'
     = (Webhook.realtime w
        ++ map (event_of (Webhook.now w) (Webhook.session_user w)) (payload_values p))%list
  /\ Webhook.app_log w'
     = (Webhook.app_log w ++ map (fun _ => skipped_note) (payload_values p))%list.
Proof.
  intros B Sh Di. cbv zeta.
  destruct (shaped_payload_processed r p w B Sh) as (R & C & _ & L & Ev & A).
  cbv zeta in *. rewrite Di in L, A.
  rewrite store_lead_not_installed in L. rewrite creation_notes_not_installed in A.
  repeat split; assumption.
Qed.

Lemma missing_doctype_acknowledged_witness :
  let p := page_payload [leadgen_change "P" "F" "L-1"] in
  let w := quiet_world ready_settings false in
  let w' := fst (Webhook.handle_lead_event (post p) w) in
  snd (Webhook.handle_lead_event (post p) w) = Ok Webhook.RSuccess
  /\ Webhook.leads w' = []
  /\ List.length (Webhook.realtime w') = 1
  /\ Webhook.app_log w' = [skipped_note].
Proof.
  cbv zeta.
  pose proof (missing_doctype_acknowledged
                (post (page_payload [leadgen_change "P" "F" "L-1"])) _
                (quiet_world ready_settings false) eq_refl eq_refl eq_refl) as H.
  cbv zeta in H. destruct H as (H1 & _ & H3 & H4 & H5).
  split; [exact H1|]. split; [exact H3|]. split; [rewrite H4; reflexivity | exact H5].
Defined.

(** ** Failures inside and outside the creation step *)

Lemma bind_ok {S A B} (m : prog S A) (k : A -> prog S B) (w w' : S) (a : A) :
  m w = (w', Ok a) -> bind m k w = k a w'.
Proof. intros E. unfold bind. now rewrite E. Qed.

Lemma bind_raise {S A B} (m : prog S A) (k : A -> prog S B) (w w' : S) (e : exn) :
  m w = (w', Raise e) -> bind m k w = (w', Raise e).
Proof. intros E. unfold bind. now rewrite E. Qed.




(** ** Subscribing a webhook record *)

Ltac unfold_doc :=
  unfold WebhookDoc.subscribe_webhook, WebhookDoc.unsubscribe_webhook,
    WebhookDoc.on_update, WebhookDoc.has_enabled_changed, WebhookDoc.validate,
    WebhookDoc.db_update, WebhookDoc.before_insert, WebhookDoc.generate_hash,
    WebhookDoc.call, WebhookDoc.get_self, WebhookDoc.update_self,
    WebhookDoc.get_stored, WebhookDoc.get_single, WebhookDoc.msgprint,
    WebhookDoc.log_error, WebhookDoc.throw,
    try_except, bind, ret, raise, lift.

(** Saving a document whose row already carries its [enabled] flag
    writes the row, or raises without writing; no hook fires. *)
Lemma save_same_flag (depth : nat) (s : WebhookDoc.state) (row : WebhookDoc.t) :
  WebhookDoc.stored s = Some row ->
  WebhookDoc.enabled row = WebhookDoc.enabled (WebhookDoc.self s) ->
  WebhookDoc.save depth s = (WebhookDoc.set_stored s (Some (WebhookDoc.self s)), Ok tt)
  \/ exists x, WebhookDoc.save depth s = (s, Raise x).
Proof.
  intros St En. destruct depth as [|d]; [right; eexists; reflexivity|].
  cbn [WebhookDoc.save]. unfold_doc. rewrite St. cbn.
  destruct (WebhookDoc.enabled (WebhookDoc.self s)) eqn:Es; cbn.
  - destruct (negb (Settings.enabled (WebhookDoc.settings s))); cbn;
      [right; eexists; reflexivity|].
    destruct (Settings.blank (WebhookDoc.page_id (WebhookDoc.self s))); cbn;
      [right; eexists; reflexivity|].
    destruct (Settings.blank (WebhookDoc.form_id (WebhookDoc.self s))); cbn;
      [right; eexists; reflexivity|].
    destruct (WebhookDoc.write_fault s (WebhookDoc.self s)); cbn;
      [right; eexists; reflexivity|].
    rewrite En, Es. cbn. left. reflexivity.
  - destruct (WebhookDoc.write_fault s (WebhookDoc.self s)); cbn;
      [right; eexists; reflexivity|].
    rewrite En, Es. cbn. left. reflexivity.
Qed.

(** When a save reaches its hooks, the row is the document as written:
    this is the state in which [on_update] calls [subscribe_webhook]. *)
Lemma hooks_see_written_row (s : WebhookDoc.state) :
  snd (WebhookDoc.db_update s) = Ok tt ->
  WebhookDoc.stored (fst (WebhookDoc.db_update s))
  = Some (WebhookDoc.self (fst (WebhookDoc.db_update s))).
Proof.
  unfold WebhookDoc.db_update.
  destruct (WebhookDoc.write_fault s (WebhookDoc.self s)); [discriminate | reflexivity].
Qed.




(** ** The verify token *)

Lemma only_presents_refl tok s : only_presents tok s s.
Proof.
  unfold only_presents. repeat split. exists []. now rewrite app_nil_r.
Qed.

Lemma only_presents_trans tok s1 s2 s3 :
  only_presents tok s1 s2 -> only_presents tok s2 s3 -> only_presents tok s1 s3.
Proof.
  intros (P1 & R1 & m1 & C1 & F1) (P2 & R2 & m2 & C2 & F2).
  unfold only_presents. repeat split; try congruence.
  exists (m1 ++ m2)%list. split.
  - rewrite C2, C1, app_assoc. reflexivity.
  - apply Forall_app. split; assumption.
Qed.

Section Keeping.

Variables tok0 tok : option string.

Lemma keeps_ret {A} (a : A) : keeps_token tok0 tok (ret a).
Proof. intros s H. split; [exact H | apply only_presents_refl]. Qed.

Lemma keeps_raise {A} (e : exn) : keeps_token tok0 tok (@raise _ A e).
Proof. intros s H. split; [exact H | apply only_presents_refl]. Qed.

Lemma keeps_lift {A} (o : outcome A) : keeps_token tok0 tok (lift o).
Proof. intros s H. split; [exact H | apply only_presents_refl]. Qed.

Lemma keeps_bind {A B} (m : WebhookDoc.M A) (k : A -> WebhookDoc.M B) :
  keeps_token tok0 tok m -> (forall a, keeps_token tok0 tok (k a)) -> keeps_token tok0 tok (bind m k).
Proof.
  intros Hm Hk s H. unfold bind. specialize (Hm s H).
  destruct (m s) as [s1 [a|e]]; cbn [fst] in *; [|exact Hm].
  destruct Hm as [H1 P1]. destruct (Hk a s1 H1) as [H2 P2].
  split; [exact H2 | exact (only_presents_trans _ _ _ _ P1 P2)].
Qed.

Lemma keeps_try {A} (m : WebhookDoc.M A) (h : exn -> WebhookDoc.M A) :
  keeps_token tok0 tok m -> (forall e, keeps_token tok0 tok (h e)) ->
  keeps_token tok0 tok (try_except m h).
Proof.
  intros Hm Hh s H. unfold try_except. specialize (Hm s H).
  destruct (m s) as [s1 [a|e]]; cbn [fst] in *; [exact Hm|].
  destruct Hm as [H1 P1]. destruct (Hh e s1 H1) as [H2 P2].
  split; [exact H2 | exact (only_presents_trans _ _ _ _ P1 P2)].
Qed.

(** Reading the document gives one that carries the token. *)
Lemma keeps_get_self {B} (k : WebhookDoc.t -> WebhookDoc.M B) :
  (forall d, WebhookDoc.verify_token d = tok -> keeps_token tok0 tok (k d)) ->
  keeps_token tok0 tok (bind WebhookDoc.get_self k).
Proof.
  intros Hk s H. unfold bind, WebhookDoc.get_self.
  apply (Hk (WebhookDoc.self s) (proj1 H) s H).
Qed.

(** Reading the row finds one. *)
Lemma keeps_get_stored {B} (k : option WebhookDoc.t -> WebhookDoc.M B) :
  (forall row, keeps_token tok0 tok (k (Some row))) ->
  keeps_token tok0 tok (bind WebhookDoc.get_stored k).
Proof.
  intros Hk s H. unfold bind, WebhookDoc.get_stored.
  assert (E : exists row, WebhookDoc.stored s = Some row).
  { destruct H as [_ H2]. unfold stored_token in H2.
    destruct (WebhookDoc.stored s) as [row|]; [eexists; reflexivity|].
    destruct H2 as [H2 | H2]; discriminate H2. }
  destruct E as [row E]. rewrite E. apply (Hk row s H).
Qed.

Lemma keeps_get_single : keeps_token tok0 tok WebhookDoc.get_single.
Proof. intros s H. split; [exact H | apply only_presents_refl]. Qed.

Lemma keeps_msgprint (m : text) : keeps_token tok0 tok (WebhookDoc.msgprint m).
Proof. intros s H. split; [exact H | exact (only_presents_refl tok s)]. Qed.

Lemma keeps_log_error (t : string) : keeps_token tok0 tok (WebhookDoc.log_error t).
Proof. intros s H. split; [exact H | exact (only_presents_refl tok s)]. Qed.

Lemma keeps_throw {A} (m : text) : keeps_token tok0 tok (@WebhookDoc.throw A m).
Proof. apply keeps_raise. Qed.

Lemma keeps_update_self (f : WebhookDoc.t -> WebhookDoc.t) :
  (forall d, WebhookDoc.verify_token (f d) = WebhookDoc.verify_token d) ->
  keeps_token tok0 tok (WebhookDoc.update_self f).
Proof.
  intros Hf s [H1 H2]. split; [|exact (only_presents_refl tok s)].
  split; [cbn; now rewrite Hf | exact H2].
Qed.

Lemma keeps_call (c : WebhookDoc.api_call) :
  presents_token tok c -> keeps_token tok0 tok (WebhookDoc.call c).
Proof.
  intros Hc s H. split; [exact H|].
  unfold only_presents. cbn. repeat split.
  exists [c]. split; [reflexivity | constructor; [exact Hc | constructor]].
Qed.

Lemma keeps_db_update : keeps_token tok0 tok WebhookDoc.db_update.
Proof.
  intros s [H1 H2]. unfold WebhookDoc.db_update.
  destruct (WebhookDoc.write_fault s (WebhookDoc.self s)); cbn [fst].
  - split; [split; assumption | apply only_presents_refl].
  - split; [|exact (only_presents_refl tok s)].
    split; [exact H1|]. left. unfold stored_token. cbn. now rewrite H1.
Qed.

Lemma keeps_validate : keeps_token tok0 tok WebhookDoc.validate.
Proof.
  unfold WebhookDoc.validate.
  apply keeps_get_self. intros d _.
  destruct (WebhookDoc.enabled d); [|apply keeps_ret].
  apply keeps_bind; [apply keeps_get_single|]. intros st.
  destruct (negb (Settings.enabled st)); [apply keeps_throw|].
  destruct (Settings.blank (WebhookDoc.page_id d)); [apply keeps_throw|].
  destruct (Settings.blank (WebhookDoc.form_id d)); [apply keeps_throw | apply keeps_ret].
Qed.

Variable save : WebhookDoc.M unit.
Hypothesis keeps_save : keeps_token tok0 tok save.

Lemma keeps_subscribe : keeps_token tok0 tok (WebhookDoc.subscribe_webhook save).
Proof.
  unfold WebhookDoc.subscribe_webhook. apply keeps_try.
  - apply keeps_bind; [apply keeps_get_single|]. intros st.
    apply keeps_get_self. intros d Hd.
    apply keeps_bind; [apply keeps_call; exact Hd|]. intros sub.
    apply keeps_bind; [apply keeps_call; exact I|]. intros _.
    apply keeps_bind; [apply keeps_update_self; reflexivity|]. intros _.
    apply keeps_bind; [apply keeps_lift|]. intros id.
    apply keeps_bind; [apply keeps_update_self; reflexivity|]. intros _.
    apply keeps_bind; [exact keeps_save|]. intros _.
    apply keeps_msgprint.
  - intros e. apply keeps_bind; [apply keeps_log_error|]. intros _. apply keeps_throw.
Qed.

Lemma keeps_unsubscribe : keeps_token tok0 tok (WebhookDoc.unsubscribe_webhook save).
Proof.
  unfold WebhookDoc.unsubscribe_webhook. apply keeps_try.
  - apply keeps_bind; [apply keeps_get_single|]. intros st.
    apply keeps_bind; [apply keeps_call; exact I|]. intros _.
    apply keeps_bind; [apply keeps_update_self; reflexivity|]. intros _.
    apply keeps_bind; [apply keeps_update_self; reflexivity|]. intros _.
    apply keeps_bind; [exact keeps_save|]. intros _.
    apply keeps_msgprint.
  - intros e. apply keeps_bind; [apply keeps_log_error|]. intros _. apply keeps_throw.
Qed.

Lemma keeps_on_update (previous : option WebhookDoc.t) :
  keeps_token tok0 tok (WebhookDoc.on_update save previous).
Proof.
  unfold WebhookDoc.on_update, WebhookDoc.has_enabled_changed.
  apply keeps_bind.
  - apply keeps_get_self. intros d _. apply keeps_ret.
  - intros changed. destruct changed; [|apply keeps_ret].
    apply keeps_get_self. intros d _.
    destruct (WebhookDoc.enabled d); [apply keeps_subscribe | apply keeps_unsubscribe].
Qed.

End Keeping.

(** Saving a document that has a row keeps the token, at any depth and
    whatever the hooks do. *)
Lemma keeps_save_existing (tok0 tok : option string) (depth : nat) :
  keeps_token tok0 tok (WebhookDoc.save depth).
Proof.
  induction depth as [|d IH]; cbn [WebhookDoc.save]; [apply keeps_raise|].
  apply keeps_get_stored. intros row.
  apply keeps_bind; [apply keeps_ret|]. intros _.
  apply keeps_bind; [apply keeps_validate|]. intros _.
  apply keeps_bind; [apply keeps_db_update|]. intros _.
  apply keeps_on_update. exact IH.
Qed.

Lemma take_rand_length (f : nat -> ascii) (n from : nat) :
  String.length (WebhookDoc.take_rand f from n) = n.
Proof.
  revert from. induction n as [|n IH]; intros from; simpl; [reflexivity|].
  now rewrite IH.
Qed.

Lemma validate_reads_only (s : WebhookDoc.state) : fst (WebhookDoc.validate s) = s.
Proof.
  unfold WebhookDoc.validate. unfold_doc.
  destruct (WebhookDoc.enabled (WebhookDoc.self s)); [|reflexivity].
  destruct (negb (Settings.enabled (WebhookDoc.settings s))); [reflexivity|].
  destruct (Settings.blank (WebhookDoc.page_id (WebhookDoc.self s))); [reflexivity|].
  destruct (Settings.blank (WebhookDoc.form_id (WebhookDoc.self s))); reflexivity.
Qed.

(** Saving a document that has no row yet gives it a token from the
    generator, and nothing later in that save replaces it. *)
Lemma save_new_token (d : nat) (s : WebhookDoc.state) :
  WebhookDoc.stored s = None ->
  WebhookDoc.verify_token (WebhookDoc.self (fst (WebhookDoc.save (S d) s)))
  = Some (WebhookDoc.take_rand (WebhookDoc.rand s) (WebhookDoc.rand_pos s) 32).
Proof.
  intros Hn. cbn [WebhookDoc.save].
  unfold bind at 1, WebhookDoc.get_stored at 1. rewrite Hn.
  unfold bind at 1.
  set (h := WebhookDoc.take_rand (WebhookDoc.rand s) (WebhookDoc.rand_pos s) 32).
  destruct (WebhookDoc.before_insert s) as [s1 o] eqn:B.
  assert (Ho : o = Ok tt /\ WebhookDoc.verify_token (WebhookDoc.self s1) = Some h
               /\ WebhookDoc.stored s1 = None).
  { unfold WebhookDoc.before_insert in B. unfold_doc. cbn in B.
    inversion B; subst. repeat split. exact Hn. }
  destruct Ho as (-> & Tk & St1). clear B.
  unfold bind at 1.
  pose proof (validate_reads_only s1) as V.
  destruct (WebhookDoc.validate s1) as [sv [[]|e]]; cbn [fst] in *; subst sv;
    [|exact Tk].
  unfold bind at 1. unfold WebhookDoc.db_update at 1.
  destruct (WebhookDoc.write_fault s1 (WebhookDoc.self s1)); [exact Tk|].
  assert (G : holds_token (Some h) (Some h)
                (WebhookDoc.set_stored s1 (Some (WebhookDoc.self s1)))).
  { split; [exact Tk|]. left. unfold stored_token. cbn. now rewrite Tk. }
  destruct (keeps_on_update (Some h) (Some h) (WebhookDoc.save d)
              (keeps_save_existing (Some h) (Some h) d) None _ G) as [[T _] _].
  exact T.
Qed.

(** C8. A record gets its verify token in the save that creates it:
    32 characters from the generator.  A save of a record that already
    has a row never assigns the token: the document keeps the one it
    came with, no hash is generated, the row ends with the document's
    token or the one it had, and every subscription call made on the way,
    through whichever enable or disable hook, presents the document's
    token.  So a document that carries its row's token, as one loaded
    from the row does, leaves the stored token unchanged. *)
Theorem verify_token_set_once :
  (forall d s,
      WebhookDoc.stored s = None ->
      WebhookDoc.verify_token (WebhookDoc.self (fst (WebhookDoc.save (S d) s)))
      = Some (WebhookDoc.take_rand (WebhookDoc.rand s) (WebhookDoc.rand_pos s) 32)
      /\ String.length
           (WebhookDoc.take_rand (WebhookDoc.rand s) (WebhookDoc.rand_pos s) 32) = 32)
  /\ (forall depth s row,
        WebhookDoc.stored s = Some row ->
        let s' := fst (WebhookDoc.save depth s) in
        WebhookDoc.verify_token (WebhookDoc.self s')
        = WebhookDoc.verify_token (WebhookDoc.self s)
        /\ (stored_token s' = Some (WebhookDoc.verify_token (WebhookDoc.self s))
            \/ stored_token s' = Some (WebhookDoc.verify_token row))
        /\ (WebhookDoc.verify_token (WebhookDoc.self s) = WebhookDoc.verify_token row ->
            stored_token s' = Some (WebhookDoc.verify_token row))
        /\ WebhookDoc.rand_pos s' = WebhookDoc.rand_pos s
        /\ exists made,
             WebhookDoc.calls s' = (WebhookDoc.calls s ++ made)%list
             /\ Forall (presents_token (WebhookDoc.verify_token (WebhookDoc.self s))) made).
Proof.
  split.
  - intros d s Hn. split; [apply save_new_token; exact Hn | apply take_rand_length].
  - intros depth s row St. cbv zeta.
    assert (G : holds_token (WebhookDoc.verify_token row)
                  (WebhookDoc.verify_token (WebhookDoc.self s)) s).
    { split; [reflexivity|]. right. unfold stored_token. now rewrite St. }
    destruct (keeps_save_existing _ _ depth s G) as [[T1 T2] (P & _ & M)].
    repeat split; try assumption.
    intros E. rewrite E in T2. destruct T2; assumption.
Qed.

(** A record created disabled gets the generator's 32 characters; a
    stored record that is being enabled subscribes with the token it
    already has and keeps it. *)
Lemma verify_token_set_once_witness :
  let fresh := WebhookDoc.set_stored
                 (doc_state platform_up (sample_doc false) (sample_doc false)) None in
  let enabling := doc_state platform_up (sample_doc true) (sample_doc false) in
  WebhookDoc.verify_token (WebhookDoc.self (fst (WebhookDoc.save 8 fresh)))
  = Some "aaaaaaaaaaaaaaaaaaaaaaaaaaaaaaaa"
  /\ stored_token (fst (WebhookDoc.save 8 enabling)) = Some (Some "0123456789abcdef")
  /\ WebhookDoc.calls (fst (WebhookDoc.save 8 enabling))
     = [subscription_call enabling; install_call enabling].
Proof.
  cbv zeta.
  destruct verify_token_set_once as [Hnew Hold].
  destruct (Hnew 7 (WebhookDoc.set_stored
                      (doc_state platform_up (sample_doc false) (sample_doc false)) None)
              eq_refl) as [T0 _].
  destruct (Hold 8 (doc_state platform_up (sample_doc true) (sample_doc false))
              (sample_doc false) eq_refl) as (_ & _ & T1 & _).
  split; [exact T0|]. split; [exact (T1 eq_refl)|]. vm_compute. reflexivity.
Defined.

(* ================================================================== *)
(** * Further properties of webhook.py *)

(** ** The handlers never let an exception out *)

(** X1. Whatever is posted, [handle_lead_event] returns: its answer is
    the "Invalid payload" envelope with status 400, the success envelope
    with status 200, or the text of a caught exception with status 500. *)
Theorem handle_lead_event_answers (r : Webhook.request) (w : Webhook.world) :
  lead_answer (fst (Webhook.handle_lead_event r w)) (snd (Webhook.handle_lead_event r w)).
Proof.
  destruct (truthy (Webhook.get_json r)) eqn:T.
  2:{ rewrite (falsy_payload_400 r w T). apply AnswerInvalid; reflexivity. }
  remember (Webhook.handle_lead_event r w) as out eqn:E. revert E.
  unfold Webhook.handle_lead_event, try_except. rewrite T. cbn [negb].
  match goal with
  | |- out = (let (w', o) := ?body w in _) -> _ => destruct (body w) as [w1 [v|e]] eqn:B
  end.
  - intros ->. cbn [fst snd].
    revert B. unfold bind at 1. unfold Webhook.meta at 1.
    unfold bind at 1, lift at 1.
    destruct (py_get (Webhook.get_json r) "object" JNull) as [obj|x]; [|discriminate].
    destruct (negb (json_eqb obj (JStr "page"))).
    + unfold bind, Webhook.meta, Webhook.respond_status, ret. intros B.
      inversion B; subst. apply AnswerSuccess; reflexivity.
    + unfold bind at 1, lift at 1.
      destruct (py_get (Webhook.get_json r) "entry" (JArr [])) as [en|x]; [|discriminate].
      unfold bind at 1, lift at 1.
      destruct (py_iter en) as [items|x]; [|discriminate].
      unfold bind at 1.
      destruct (Webhook.for_each items Webhook.process_entry _) as [w2 [[]|x]];
        [|discriminate].
      unfold bind, Webhook.meta, Webhook.respond_status, ret. intros B.
      inversion B; subst. apply AnswerSuccess; reflexivity.
  - intros ->. unfold bind, Webhook.meta, Webhook.applog, Webhook.respond_status, ret.
    cbn [fst snd]. apply (AnswerFailed _ _ e); reflexivity.
Qed.








(** ** What no request can do to the store *)

Section Respecting.

Variable R : Webhook.world -> Webhook.world -> Prop.
Hypothesis R_refl : forall w, R w w.
Hypothesis R_trans : forall w1 w2 w3, R w1 w2 -> R w2 w3 -> R w1 w3.
Hypothesis R_meta : forall w l, R w (Webhook.set_meta_log w l).
Hypothesis R_applog : forall w l, R w (Webhook.set_app_log w l).
Hypothesis R_status : forall w c, R w (Webhook.set_status_code w c).
Hypothesis R_create :
  forall a b c d, respects R (Webhook.create_facebook_lead a b c d).
Hypothesis R_publish :
  forall a b c, respects R (Webhook.publish_realtime "facebook_lead_received" a b c).

Lemma respects_ret {A} (a : A) : respects R (ret a).
Proof. intros w. apply R_refl. Qed.

Lemma respects_raise {A} (e : exn) : respects R (@raise _ A e).
Proof. intros w. apply R_refl. Qed.

Lemma respects_lift {A} (o : outcome A) : respects R (lift o).
Proof. intros w. apply R_refl. Qed.

Lemma respects_bind {A B} (m : Webhook.M A) (k : A -> Webhook.M B) :
  respects R m -> (forall a, respects R (k a)) -> respects R (bind m k).
Proof.
  intros Hm Hk w. unfold bind. specialize (Hm w).
  destruct (m w) as [w1 [a|e]]; cbn [fst] in *; [|exact Hm].
  exact (R_trans _ _ _ Hm (Hk a w1)).
Qed.

Lemma respects_try {A} (m : Webhook.M A) (h : exn -> Webhook.M A) :
  respects R m -> (forall e, respects R (h e)) -> respects R (try_except m h).
Proof.
  intros Hm Hh w. unfold try_except. specialize (Hm w).
  destruct (m w) as [w1 [a|e]]; cbn [fst] in *; [exact Hm|].
  exact (R_trans _ _ _ Hm (Hh e w1)).
Qed.

Lemma respects_meta (l : Webhook.level) (t : text) : respects R (Webhook.meta l t).
Proof. intros w. apply R_meta. Qed.

Lemma respects_applog (l : Webhook.level) (t : text) : respects R (Webhook.applog l t).
Proof. intros w. apply R_applog. Qed.

Lemma respects_status (c : Z) : respects R (Webhook.respond_status c).
Proof. intros w. apply R_status. Qed.

Lemma respects_for_each (body : json -> Webhook.M unit) :
  (forall x, respects R (body x)) ->
  forall xs, respects R (Webhook.for_each xs body).
Proof.
  intros Hb. induction xs as [|x xs IH]; cbn [Webhook.for_each].
  - apply respects_ret.
  - apply respects_bind; [apply Hb | intros _; exact IH].
Qed.

Lemma respects_process_change (c : json) : respects R (Webhook.process_change c).
Proof.
  unfold Webhook.process_change.
  apply respects_bind; [apply respects_lift|]. intros field.
  destruct (negb (json_eqb field (JStr "leadgen"))); [apply respects_meta|].
  apply respects_bind; [apply respects_lift|]. intros value.
  apply respects_bind; [apply respects_lift|]. intros page_id.
  apply respects_bind; [apply respects_lift|]. intros form_id.
  apply respects_bind; [apply respects_lift|]. intros leadgen_id.
  apply respects_bind; [apply respects_meta|]. intros _.
  apply respects_bind; [apply respects_meta|]. intros _.
  apply respects_bind; [apply R_create|]. intros _.
  apply R_publish.
Qed.

Lemma respects_process_entry (e : json) : respects R (Webhook.process_entry e).
Proof.
  unfold Webhook.process_entry.
  apply respects_bind; [apply respects_lift|]. intros entry_id.
  apply respects_bind; [apply respects_lift|]. intros changes.
  apply respects_bind; [apply respects_lift|]. intros n.
  apply respects_bind; [apply respects_meta|]. intros _.
  apply respects_bind; [apply respects_lift|]. intros items.
  apply respects_for_each. exact respects_process_change.
Qed.

Lemma respects_handle_lead_event (r : Webhook.request) :
  respects R (Webhook.handle_lead_event r).
Proof.
  unfold Webhook.handle_lead_event. apply respects_try.
  - apply respects_bind; [apply respects_meta|]. intros _.
    destruct (negb (truthy (Webhook.get_json r))).
    + apply respects_bind; [apply respects_meta|]. intros _.
      apply respects_bind; [apply respects_status|]. intros _. apply respects_ret.
    + apply respects_bind; [apply respects_lift|]. intros obj.
      destruct (negb (json_eqb obj (JStr "page"))).
      * apply respects_bind; [apply respects_meta|]. intros _.
        apply respects_bind; [apply respects_status|]. intros _. apply respects_ret.
      * apply respects_bind; [apply respects_lift|]. intros entries.
        apply respects_bind; [apply respects_lift|]. intros items.
        apply respects_bind;
          [apply respects_for_each; exact respects_process_entry|]. intros _.
        apply respects_bind; [apply respects_meta|]. intros _.
        apply respects_bind; [apply respects_status|]. intros _. apply respects_ret.
  - intros e.
    apply respects_bind; [apply respects_meta|]. intros _.
    apply respects_bind; [apply respects_applog|]. intros _.
    apply respects_bind; [apply respects_status|]. intros _. apply respects_ret.
Qed.

Hypothesis R_page : forall w p, R w (Webhook.set_page w p).
Hypothesis R_settings : forall w s, R w (Webhook.set_settings w s).

Lemma respects_web_page (t : string) (h : text) (ok : bool) :
  respects R (Webhook.respond_as_web_page t h ok).
Proof. intros w. apply R_page. Qed.

Lemma respects_save_settings (s : Settings.t) : respects R (Webhook.save_settings s).
Proof.
  intros w. unfold Webhook.save_settings.
  destruct (Settings.save false s (Webhook.settings w)) as [stored o]. apply R_settings.
Qed.

Lemma respects_handle_verification (r : Webhook.request) :
  respects R (Webhook.handle_verification r).
Proof.
  unfold Webhook.handle_verification.
  apply respects_bind; [apply respects_meta|]. intros _.
  apply respects_bind; [intros w; apply R_refl|]. intros settings.
  apply respects_bind; [apply respects_meta|]. intros _.
  destruct (negb (Settings.enabled settings)).
  { apply respects_bind; [apply respects_meta|]. intros _.
    apply respects_bind; [apply respects_applog|]. intros _.
    apply respects_bind; [apply respects_web_page|]. intros _. apply respects_ret. }
  apply respects_bind; [apply respects_meta|]. intros _.
  apply respects_bind; [apply respects_meta|]. intros _.
  apply respects_bind; [apply respects_meta|]. intros _.
  destruct (negb (Webhook.opt_eqb _ _)).
  { apply respects_bind; [apply respects_meta|]. intros _.
    apply respects_bind; [apply respects_applog|]. intros _.
    apply respects_bind; [apply respects_web_page|]. intros _. apply respects_ret. }
  destruct (Webhook.opt_eqb _ _).
  - apply respects_bind; [apply respects_save_settings|]. intros _.
    apply respects_bind; [apply respects_meta|]. intros _.
    apply respects_bind; [apply respects_applog|]. intros _. apply respects_ret.
  - apply respects_bind; [apply respects_meta|]. intros _.
    apply respects_bind; [apply respects_applog|]. intros _.
    apply respects_bind; [apply respects_web_page|]. intros _. apply respects_ret.
Qed.

Lemma respects_handle_webhook (r : Webhook.request) :
  respects R (Webhook.handle_webhook r).
Proof.
  unfold Webhook.handle_webhook. apply respects_try.
  - apply respects_bind; [apply respects_meta|]. intros _.
    apply respects_bind; [apply respects_meta|]. intros _.
    apply respects_bind; [apply respects_meta|]. intros _.
    apply respects_bind; [apply respects_meta|]. intros _.
    apply respects_bind; [apply respects_meta|]. intros _.
    apply respects_bind; [apply respects_applog|]. intros _.
    destruct (String.eqb (Webhook.method r) "GET");
      [apply respects_handle_verification|].
    destruct (String.eqb (Webhook.method r) "POST");
      [apply respects_handle_lead_event | apply respects_raise].
  - intros e.
    apply respects_bind; [apply respects_meta|]. intros _.
    apply respects_bind; [apply respects_applog|]. intros _.
    apply respects_bind; [apply respects_status|]. intros _. apply respects_ret.
Qed.

End Respecting.

Lemma grew_refl (w : Webhook.world) : grew w w.
Proof.
  unfold grew. repeat split; try reflexivity; try tauto.
  - exists []. split; [now rewrite app_nil_r | constructor].
  - exists []. split; [now rewrite app_nil_r | constructor].
Qed.

Lemma grew_trans (w1 w2 w3 : Webhook.world) : grew w1 w2 -> grew w2 w3 -> grew w1 w3.
Proof.
  intros (D1 & F1 & N1 & U1 & (a1 & L1 & A1) & O1 & (p1 & E1 & P1))
         (D2 & F2 & N2 & U2 & (a2 & L2 & A2) & O2 & (p2 & E2 & P2)).
  rewrite N1, U1 in *.
  unfold grew. repeat split; try congruence.
  - exists (a1 ++ a2)%list. split.
    + rewrite L2, L1, app_assoc. reflexivity.
    + apply Forall_app. split; assumption.
  - intros H. exact (O2 (O1 H)).
  - exists (p1 ++ p2)%list. split.
    + rewrite E2, E1, app_assoc. reflexivity.
    + apply Forall_app. split; assumption.
Qed.

(** A world that differs in neither leads, events, clock, user nor store
    configuration has grown, by nothing. *)
Lemma grew_same (w w' : Webhook.world) :
  Webhook.doctype_installed w' = Webhook.doctype_installed w ->
  Webhook.insert_fault w' = Webhook.insert_fault w ->
  Webhook.now w' = Webhook.now w ->
  Webhook.session_user w' = Webhook.session_user w ->
  Webhook.leads w' = Webhook.leads w ->
  Webhook.realtime w' = Webhook.realtime w ->
  grew w w'.
Proof.
  intros D F N U L E. unfold grew. rewrite L, E. repeat split; try assumption; try tauto.
  - exists []. split; [now rewrite app_nil_r | constructor].
  - exists []. split; [now rewrite app_nil_r | constructor].
Qed.

(** The creation step adds at most one lead: a fresh one, under the id it
    was given, and only when that id is not stored yet. *)
Lemma create_facebook_lead_adds (leadgen_id page_id form_id data : json)
    (w : Webhook.world) :
  let w' := fst (Webhook.create_facebook_lead leadgen_id page_id form_id data w) in
  Webhook.leads w' = Webhook.leads w
  \/ exists d,
       Webhook.leads w' = (Webhook.leads w ++ [d])%list
       /\ Webhook.facebook_lead_id d = leadgen_id
       /\ Webhook.facebook_page_id d = page_id
       /\ Webhook.facebook_form_id d = form_id
       /\ fresh_lead (Webhook.now w) d
       /\ Webhook.doctype_installed w = true
       /\ count_leads leadgen_id (Webhook.leads w) = 0
       /\ Webhook.insert_fault w d = None.
Proof.
  cbv zeta. unfold Webhook.create_facebook_lead. unfold_prog.
  destruct (Webhook.doctype_installed w) eqn:Di; cbn [negb]; [|left; reflexivity].
  destruct (Webhook.lead_exists leadgen_id (Webhook.leads w)) eqn:Ex; [left; reflexivity|].
  destruct (py_get data "ad_id" JNull) as [ad|x]; [|left; reflexivity].
  destruct (py_get data "adset_id" JNull) as [adset|x]; [|left; reflexivity].
  cbn [fst snd
       Webhook.insert_fault Webhook.leads Webhook.now Webhook.set_meta_log
       Webhook.set_app_log Webhook.set_leads].
  destruct (Webhook.insert_fault w _) as [x|] eqn:Fa; [left; reflexivity|].
  right. eexists. cbn. split; [reflexivity|].
  repeat split; try assumption.
  rewrite lead_exists_count in Ex. apply negb_false_iff in Ex.
  apply Nat.eqb_eq in Ex. exact Ex.
Qed.

Lemma grew_create (a b c d : json) : respects grew (Webhook.create_facebook_lead a b c d).
Proof.
  intros w.
  destruct (create_facebook_lead_frame a b c d w) as ((S & D & F & N & U & P) & C & E & _).
  destruct (create_facebook_lead_adds a b c d w) as [L | (x & L & I & _ & _ & Fr & _ & Z0 & _)].
  - apply grew_same; assumption.
  - unfold grew. rewrite E. repeat split; try assumption.
    + exists [x]. split; [exact L | constructor; [exact Fr | constructor]].
    + intros H id. rewrite L, count_leads_app.
      unfold count_leads at 2. cbn [filter]. rewrite I.
      destruct (json_eqb a id) eqn:Q; cbn [List.length].
      * apply json_eqb_eq in Q. subst id. rewrite Z0. lia.
      * specialize (H id). lia.
    + exists []. split; [now rewrite app_nil_r | constructor].
Qed.

Lemma grew_publish (a b c : json) :
  respects grew (Webhook.publish_realtime "facebook_lead_received" a b c).
Proof.
  intros w. unfold grew, Webhook.publish_realtime. cbn.
  repeat split; try tauto.
  - exists []. split; [now rewrite app_nil_r | constructor].
  - eexists. split; [reflexivity|]. constructor; [|constructor]. repeat split.
Qed.

Lemma handle_webhook_grew (r : Webhook.request) (w : Webhook.world) :
  grew w (fst (Webhook.handle_webhook r w)).
Proof.
  apply (respects_handle_webhook grew grew_refl grew_trans).
  - intros w0 l. apply grew_same; reflexivity.
  - intros w0 l. apply grew_same; reflexivity.
  - intros w0 c. apply grew_same; reflexivity.
  - exact grew_create.
  - exact grew_publish.
  - intros w0 p. apply grew_same; reflexivity.
  - intros w0 s. apply grew_same; reflexivity.
Qed.

(** X3. The lead store is append-only.  Whatever request arrives, of any
    method and with any body, the leads stored before are still there,
    unchanged and in place, and every lead added is a fresh one: status
    "New", lead id "FB-" followed by its external id, created at the time
    of the request. *)
Theorem leads_append_only (r : Webhook.request) (w : Webhook.world) :
  exists added,
    Webhook.leads (fst (Webhook.handle_webhook r w)) = (Webhook.leads w ++ added)%list
    /\ Forall (fun d =>
                 Webhook.status d = "New"
                 /\ Webhook.lead_id d = [Lit "FB-"; Val (Webhook.facebook_lead_id d)]
                 /\ Webhook.created_at d = Webhook.now w) added.
Proof.
  destruct (handle_webhook_grew r w) as (_ & _ & _ & _ & H & _). exact H.
Qed.

(** X4. One lead per external id is an invariant of the endpoint: if no
    id is stored twice before a request, none is after it, whatever the
    request carries, the same id several times included. *)
Theorem one_lead_per_id_kept (r : Webhook.request) (w : Webhook.world) :
  (forall id, count_leads id (Webhook.leads w) <= 1) ->
  forall id, count_leads id (Webhook.leads (fst (Webhook.handle_webhook r w))) <= 1.
Proof.
  destruct (handle_webhook_grew r w) as (_ & _ & _ & _ & _ & H & _). exact H.
Qed.

Lemma one_lead_per_id_kept_witness :
  let p := page_payload [leadgen_change "P" "F" "L-1"; leadgen_change "P" "F" "L-1"] in
  count_leads (JStr "L-1")
    (Webhook.leads (fst (Webhook.handle_webhook (post p) (quiet_world ready_settings true))))
  <= 1.
Proof.
  cbv zeta. apply one_lead_per_id_kept. intros id. apply Nat.le_0_l.
Defined.

(** X5. The realtime bus is append-only, and the endpoint publishes one
    kind of event: whatever request arrives, the events published before
    are still there and every event added is a "facebook_lead_received"
    stamped with the time of the request and addressed to the session's
    user. *)
Theorem events_append_only (r : Webhook.request) (w : Webhook.world) :
  exists published,
    Webhook.realtime (fst (Webhook.handle_webhook r w))
    = (Webhook.realtime w ++ published)%list
    /\ Forall (fun e =>
                 Webhook.event e = "facebook_lead_received"
                 /\ Webhook.msg_timestamp e = Webhook.now w
                 /\ Webhook.user e = Webhook.session_user w) published.
Proof.
  destruct (handle_webhook_grew r w) as (_ & _ & _ & _ & _ & _ & H). exact H.
Qed.

(** ** What each handler leaves alone *)

Lemma same_surroundings_refl (w : Webhook.world) : same_surroundings w w.
Proof. unfold same_surroundings. tauto. Qed.

Lemma same_surroundings_trans (w1 w2 w3 : Webhook.world) :
  same_surroundings w1 w2 -> same_surroundings w2 w3 -> same_surroundings w1 w3.
Proof.
  unfold same_surroundings.
  intros (A1 & B1 & C1 & D1 & E1 & F1) (A2 & B2 & C2 & D2 & E2 & F2).
  repeat split; congruence.
Qed.

(** X6. Lead events never touch the configuration: whatever is posted,
    and however the processing ends, [handle_lead_event] leaves the
    settings singleton, the installed DocTypes, the clock, the session
    user and the page to render exactly as they were. *)
Theorem lead_events_leave_settings (r : Webhook.request) (w : Webhook.world) :
  let w' := fst (Webhook.handle_lead_event r w) in
  Webhook.settings w' = Webhook.settings w
  /\ Webhook.doctype_installed w' = Webhook.doctype_installed w
  /\ Webhook.now w' = Webhook.now w
  /\ Webhook.session_user w' = Webhook.session_user w
  /\ Webhook.page w' = Webhook.page w.
Proof.
  cbv zeta.
  assert (H : same_surroundings w (fst (Webhook.handle_lead_event r w))).
  { apply (respects_handle_lead_event same_surroundings
             same_surroundings_refl same_surroundings_trans).
    - intros w0 l. unfold same_surroundings. cbn. tauto.
    - intros w0 l. unfold same_surroundings. cbn. tauto.
    - intros w0 c. unfold same_surroundings. cbn. tauto.
    - intros a b c d w0. apply create_facebook_lead_frame.
    - intros a b c w0. unfold same_surroundings. cbn. tauto. }
  unfold same_surroundings in H. tauto.
Qed.

(** X7. The handshake leaves the lead store, the bus and the status code
    alone, and changes the settings in one way only: when it echoes the
    challenge, and only then, the stored singleton becomes the same
    singleton with [webhook_is_active] set. *)
Theorem verification_only_activates (r : Webhook.request) (w : Webhook.world) :
  let w' := fst (Webhook.handle_verification r w) in
  let res := snd (Webhook.handle_verification r w) in
  Webhook.leads w' = Webhook.leads w
  /\ Webhook.realtime w' = Webhook.realtime w
  /\ Webhook.status_code w' = Webhook.status_code w
  /\ ((exists content code mimetype, res = Ok (Webhook.RResponse content code mimetype))
      /\ Webhook.settings w' = Settings.set_webhook_is_active (Webhook.settings w) true
      \/ (forall content code mimetype, res <> Ok (Webhook.RResponse content code mimetype))
         /\ Webhook.settings w' = Webhook.settings w).
Proof.
  cbv zeta.
  destruct (Settings.enabled (Webhook.settings w)) eqn:En;
  destruct (Webhook.opt_eqb (Settings.webhook_verify_token (Webhook.settings w))
              (Webhook.arg "hub.verify_token" (Webhook.args r))) eqn:Tk;
  destruct (Webhook.opt_eqb (Webhook.arg "hub.mode" (Webhook.args r)) (Some "subscribe"))
    eqn:Md;
  destruct (Settings.blank (Settings.app_id (Webhook.settings w))) eqn:Ba;
  destruct (Settings.blank (Settings.app_secret (Webhook.settings w))) eqn:Bs;
  unfold Webhook.handle_verification, Webhook.save_settings, Settings.save,
    Settings.validate, bind, ret, Webhook.meta, Webhook.applog,
    Webhook.respond_as_web_page, Webhook.get_single;
  repeat (simpl; rewrite ?En, ?Tk, ?Md, ?Ba, ?Bs).
  all: repeat split.
  all: try (right; split; [intros content code mimetype H; discriminate H | reflexivity]).
  all: try (right; split; [intros content code mimetype H; discriminate H
                          | destruct w; reflexivity]).
  all: left; split; [do 3 eexists; reflexivity | reflexivity].
Qed.

(** ** Lead events: malformed and uneventful payloads *)

(** X8. A decoded payload that is truthy but not an object (an array, a
    string, a number, [true]) is answered with status 500 and the text of
    the attribute error its missing [get] raises; nothing is stored or
    published. *)
Theorem non_object_payload_500 (r : Webhook.request) (v : json) (w : Webhook.world) :
  Webhook.body r = Webhook.Json v ->
  truthy v = true ->
  (forall kv, v <> JObj kv) ->
  let w' := fst (Webhook.handle_lead_event r w) in
  snd (Webhook.handle_lead_event r w)
  = Ok (Webhook.RError [Lit "'"; Lit (type_name v); Lit "' object has no attribute '";
                        Lit "get"; Lit "'"])
  /\ Webhook.status_code w' = 500%Z
  /\ Webhook.leads w' = Webhook.leads w
  /\ Webhook.realtime w' = Webhook.realtime w.
Proof.
  intros B T N. cbv zeta.
  unfold Webhook.handle_lead_event, Webhook.get_json, try_except. rewrite B, T.
  cbn [negb]. unfold bind at 1. unfold Webhook.meta at 1. unfold bind at 1, lift at 1.
  destruct v as [ | | | | | |kv]; try (cbn; repeat split; reflexivity).
  exfalso. exact (N kv eq_refl).
Qed.

Lemma non_object_payload_500_witness :
  let r := post (JArr [JObj [("object", JStr "page")]]) in
  let w := quiet_world ready_settings true in
  snd (Webhook.handle_lead_event r w)
  = Ok (Webhook.RError [Lit "'"; Lit "list"; Lit "' object has no attribute '";
                        Lit "get"; Lit "'"])
  /\ Webhook.status_code (fst (Webhook.handle_lead_event r w)) = 500%Z.
Proof.
  cbv zeta.
  destruct (non_object_payload_500 (post (JArr [JObj [("object", JStr "page")]]))
              (JArr [JObj [("object", JStr "page")]])
              (quiet_world ready_settings true) eq_refl eq_refl) as (H1 & H2 & _).
  - intros kv H. discriminate H.
  - split; assumption.
Defined.

(** X9. The "entry" key of a page payload: when it is missing the
    payload is acknowledged and nothing happens; when it is present but
    cannot be iterated (null, a number, a boolean) the answer is 500 with
    the "object is not iterable" type error; in both cases nothing is
    stored or published. *)
Theorem entry_key_edge_cases (r : Webhook.request) (kv : list (string * json))
    (w : Webhook.world) :
  Webhook.body r = Webhook.Json (JObj kv) ->
  assoc "object" kv = Some (JStr "page") ->
  let w' := fst (Webhook.handle_lead_event r w) in
  let res := snd (Webhook.handle_lead_event r w) in
  (assoc "entry" kv = None ->
   res = Ok Webhook.RSuccess /\ Webhook.status_code w' = 200%Z
   /\ Webhook.leads w' = Webhook.leads w /\ Webhook.realtime w' = Webhook.realtime w)
  /\ (forall v e, assoc "entry" kv = Some v -> py_iter v = Raise e ->
      res = Ok (Webhook.RError [Lit "'"; Lit (type_name v); Lit "' object is not iterable"])
      /\ Webhook.status_code w' = 500%Z
      /\ Webhook.leads w' = Webhook.leads w /\ Webhook.realtime w' = Webhook.realtime w).
Proof.
  intros B Ob. cbv zeta.
  assert (T : truthy (JObj kv) = true) by (destruct kv; [discriminate Ob | reflexivity]).
  split.
  - intros En.
    assert (Sh : shaped_page_payload (JObj kv) = true).
    { unfold shaped_page_payload. rewrite Ob, En. reflexivity. }
    destruct (shaped_payload_processed r _ w B Sh) as (R & C & _ & L & Ev & _).
    unfold payload_values in L, Ev. rewrite En in L, Ev. cbn in L, Ev.
    rewrite app_nil_r in Ev. repeat split; assumption.
  - intros v e En It.
    assert (Msg : str_exn e
                  = [Lit "'"; Lit (type_name v); Lit "' object is not iterable"])
      by (destruct v; try discriminate It; inversion It; reflexivity).
    set (w0 := Webhook.set_meta_log w
                 (Webhook.meta_log w
                  ++ [(Webhook.INFO, [Lit "Facebook Lead Event Payload: "; Dump (JObj kv)])])).
    assert (E : Webhook.handle_lead_event r w
                = (Webhook.set_status_code
                     (Webhook.set_app_log
                        (Webhook.set_meta_log w0
                           (Webhook.meta_log w0
                            ++ [(Webhook.ERROR,
                                 Lit "Facebook Lead Event Processing Error: " :: str_exn e)]))
                        (Webhook.app_log w0
                         ++ [(Webhook.ERROR,
                              Lit "Facebook Lead Event Processing Error: " :: str_exn e)]))
                     500,
                   Ok (Webhook.RError (str_exn e)))).
    { unfold Webhook.handle_lead_event, Webhook.get_json, try_except. rewrite B, T.
      cbn [negb].
      assert (W0 : Webhook.meta Webhook.INFO
                     [Lit "Facebook Lead Event Payload: "; Dump (JObj kv)] w = (w0, Ok tt))
        by reflexivity.
      rewrite (bind_ok _ _ _ _ _ W0).
      unfold lift at 1, py_get at 1. rewrite Ob.
      rewrite (bind_ok _ _ w0 w0 (JStr "page") eq_refl).
      rewrite json_eqb_refl. cbn [negb].
      unfold lift at 1, py_get at 1. rewrite En.
      rewrite (bind_ok _ _ w0 w0 v eq_refl).
      rewrite (bind_raise _ _ w0 w0 e); [reflexivity | unfold lift; now rewrite It]. }
    rewrite E, Msg. cbn. repeat split.
Qed.

Lemma entry_key_edge_cases_witness :
  let w := quiet_world ready_settings true in
  snd (Webhook.handle_lead_event (post (JObj [("object", JStr "page")])) w)
  = Ok Webhook.RSuccess
  /\ snd (Webhook.handle_lead_event
            (post (JObj [("object", JStr "page"); ("entry", JNull)])) w)
     = Ok (Webhook.RError [Lit "'"; Lit "NoneType"; Lit "' object is not iterable"]).
Proof.
  cbv zeta. split.
  - destruct (entry_key_edge_cases (post (JObj [("object", JStr "page")])) _
                (quiet_world ready_settings true) eq_refl eq_refl) as [H _].
    destruct (H eq_refl) as [H1 _]. exact H1.
  - destruct (entry_key_edge_cases
                (post (JObj [("object", JStr "page"); ("entry", JNull)])) _
                (quiet_world ready_settings true) eq_refl eq_refl) as [_ H].
    destruct (H JNull _ eq_refl eq_refl) as [H1 _]. exact H1.
Defined.

Lemma store_all_stored installed fault now (values : list json) :
  forall stored,
    (forall id, In id (map (field_of "leadgen_id") values) -> count_leads id stored <> 0) ->
    fold_left (store_lead installed fault now) values stored = stored.
Proof.
  induction values as [|v vs IH]; intros stored H; simpl; [reflexivity|].
  assert (E : store_lead installed fault now stored v = stored).
  { unfold store_lead. destruct installed; cbn [negb]; [|reflexivity].
    rewrite lead_exists_count.
    specialize (H _ (or_introl eq_refl)). apply Nat.eqb_neq in H. rewrite H.
    reflexivity. }
  rewrite E. apply IH. intros id Hin. apply H. right. exact Hin.
Qed.

(** X10. A delivery whose leads are all stored already stores nothing,
    yet it publishes one event per leadgen change again: the notification
    is not deduplicated, only the record is. *)
Theorem redelivery_publishes_again (r : Webhook.request) (p : json) (w : Webhook.world) :
  Webhook.body r = Webhook.Json p ->
  shaped_page_payload p = true ->
  (forall id, In id (leadgen_ids p) -> count_leads id (Webhook.leads w) <> 0) ->
  let w' := fst (Webhook.handle_lead_event r w) in
  snd (Webhook.handle_lead_event r w) = Ok Webhook.RSuccess
  /\ Webhook.leads w' = Webhook.leads w
  /\ Webhook.realtime w'
     = (Webhook.realtime w
        ++ map (event_of (Webhook.now w) (Webhook.session_user w)) (payload_values p))%list
  /\ List.length (Webhook.realtime w')
     = List.length (Webhook.realtime w) + List.length (payload_values p).
Proof.
  intros B Sh St. cbv zeta.
  destruct (shaped_payload_processed r p w B Sh) as (R & _ & _ & L & Ev & _).
  cbv zeta in *. rewrite (store_all_stored _ _ _ _ _ St) in L.
  repeat split; try assumption.
  rewrite Ev, length_app, length_map. reflexivity.
Qed.

Lemma redelivery_publishes_again_witness :
  let p := page_payload [leadgen_change "P" "F" "L-1"] in
  let w1 := fst (Webhook.handle_lead_event (post p) (quiet_world ready_settings true)) in
  let w2 := fst (Webhook.handle_lead_event (post p) w1) in
  Webhook.leads w2 = Webhook.leads w1
  /\ List.length (Webhook.realtime w2) = 2.
Proof.
  cbv zeta.
  destruct (redelivery_publishes_again
              (post (page_payload [leadgen_change "P" "F" "L-1"])) _
              (fst (Webhook.handle_lead_event
                      (post (page_payload [leadgen_change "P" "F" "L-1"]))
                      (quiet_world ready_settings true)))
              eq_refl eq_refl) as (_ & H2 & _ & H4).
  - intros id [<- | []]. vm_compute. discriminate.
  - split; [exact H2 | rewrite H4; reflexivity].
Defined.

(** X11. Changes for other fields are ignored: a payload of the
    described shape that carries no leadgen change is acknowledged with
    200, stores nothing, publishes nothing and leaves the application log
    as it was. *)
Theorem other_fields_ignored (r : Webhook.request) (p : json) (w : Webhook.world) :
  Webhook.body r = Webhook.Json p ->
  shaped_page_payload p = true ->
  payload_values p = [] ->
  let w' := fst (Webhook.handle_lead_event r w) in
  snd (Webhook.handle_lead_event r w) = Ok Webhook.RSuccess
  /\ Webhook.status_code w' = 200%Z
  /\ Webhook.leads w' = Webhook.leads w
  /\ Webhook.realtime w' = Webhook.realtime w
  /\ Webhook.app_log w' = Webhook.app_log w.
Proof.
  intros B Sh Nv. cbv zeta.
  destruct (shaped_payload_processed r p w B Sh) as (R & C & _ & L & Ev & A).
  cbv zeta in *. rewrite Nv in L, Ev, A. cbn in L, Ev, A.
  rewrite app_nil_r in Ev, A. repeat split; assumption.
Qed.

Lemma other_fields_ignored_witness :
  let p := page_payload [JObj [("field", JStr "feed"); ("value", JStr "not an object")];
                         JObj [("value", JNull)]] in
  let w := quiet_world ready_settings true in
  snd (Webhook.handle_lead_event (post p) w) = Ok Webhook.RSuccess
  /\ Webhook.leads (fst (Webhook.handle_lead_event (post p) w)) = []
  /\ Webhook.realtime (fst (Webhook.handle_lead_event (post p) w)) = [].
Proof.
  cbv zeta.
  destruct (other_fields_ignored
              (post (page_payload
                       [JObj [("field", JStr "feed"); ("value", JStr "not an object")];
                        JObj [("value", JNull)]])) _
              (quiet_world ready_settings true) eq_refl eq_refl eq_refl)
    as (H1 & _ & H3 & H4 & _).
  split; [exact H1 | split; [exact H3 | exact H4]].
Defined.

(** ** Verification: which refusal, and the unset token *)

Ltac split_verification r w :=
  pose proof (opt_eqb_eq (Settings.webhook_verify_token (Webhook.settings w))
                (Webhook.arg "hub.verify_token" (Webhook.args r)));
  pose proof (opt_eqb_eq (Webhook.arg "hub.mode" (Webhook.args r)) (Some "subscribe"));
  destruct (Settings.enabled (Webhook.settings w)) eqn:En;
  destruct (Webhook.opt_eqb (Settings.webhook_verify_token (Webhook.settings w))
              (Webhook.arg "hub.verify_token" (Webhook.args r))) eqn:Tk;
  destruct (Webhook.opt_eqb (Webhook.arg "hub.mode" (Webhook.args r)) (Some "subscribe"))
    eqn:Md;
  destruct (Settings.blank (Settings.app_id (Webhook.settings w))) eqn:Ba;
  destruct (Settings.blank (Settings.app_secret (Webhook.settings w))) eqn:Bs;
  unfold Webhook.handle_verification, Webhook.save_settings, Settings.save,
    Settings.validate, bind, ret, Webhook.meta, Webhook.applog,
    Webhook.respond_as_web_page, Webhook.get_single;
  repeat (simpl; rewrite ?En, ?Tk, ?Md, ?Ba, ?Bs).

(** X12. The handshake checks the feature flag, then the token, then the
    mode, and the first check that fails decides the error page.  With the
    feature disabled the page says so whatever token was sent; a wrong
    token gives a page that shows both the stored and the received token;
    a right token with another mode gives "Invalid mode".  Each of them is
    a failure page and the handler returns nothing. *)
Theorem verification_refusals (r : Webhook.request) (w : Webhook.world) :
  let s := Webhook.settings w in
  let mode := Webhook.arg "hub.mode" (Webhook.args r) in
  let token := Webhook.arg "hub.verify_token" (Webhook.args r) in
  let w' := fst (Webhook.handle_verification r w) in
  let res := snd (Webhook.handle_verification r w) in
  (Settings.enabled s = false ->
   res = Ok Webhook.RNone
   /\ Webhook.page w'
      = Some (Webhook.mk_page "Facebook Webhook Error"
                [Lit "Facebook Lead Ads is not enabled"] false))
  /\ (Settings.enabled s = true -> Settings.webhook_verify_token s <> token ->
      res = Ok Webhook.RNone
      /\ Webhook.page w'
         = Some (Webhook.mk_page "Facebook Webhook Error"
                   [Lit "Invalid verify token. Expected: ";
                    Val (opt_json (Settings.webhook_verify_token s));
                    Lit ", Received: "; Val (opt_json token)] false))
  /\ (Settings.enabled s = true -> Settings.webhook_verify_token s = token ->
      mode <> Some "subscribe" ->
      res = Ok Webhook.RNone
      /\ Webhook.page w'
         = Some (Webhook.mk_page "Facebook Webhook Error" [Lit "Invalid mode"] false)).
Proof.
  cbv zeta. split_verification r w.
  all: repeat split; intros; try discriminate; try reflexivity.
  all: try match goal with
           | H : _ <-> ?a = ?b, N : ?a <> ?b |- _ =>
               exfalso; apply N; apply H; reflexivity
           end.
  all: try match goal with
           | H : false = true <-> ?a = ?b, E : ?a = ?b |- _ =>
               apply H in E; discriminate E
           end.
Qed.

Lemma verification_refusals_witness :
  let r := verification_request "subscribe" "guess" "1158201444" in
  let w := quiet_world ready_settings true in
  Webhook.page (fst (Webhook.handle_verification r w))
  = Some (Webhook.mk_page "Facebook Webhook Error"
            [Lit "Invalid verify token. Expected: "; Val (JStr "tok");
             Lit ", Received: "; Val (JStr "guess")] false).
Proof.
  cbv zeta.
  destruct (verification_refusals (verification_request "subscribe" "guess" "1158201444")
              (quiet_world ready_settings true)) as (_ & H & _).
  destruct H as [_ H]; [reflexivity | discriminate | exact H].
Defined.

(** X13. Where no verify token is stored, the token check is passed by a
    request that carries no "hub.verify_token" at all, and by no other:
    with the feature enabled, credentials present and mode "subscribe",
    the challenge is echoed exactly when the parameter is absent. *)
Theorem unset_token_matches_absent_parameter (r : Webhook.request) (w : Webhook.world) :
  Settings.enabled (Webhook.settings w) = true ->
  Settings.webhook_verify_token (Webhook.settings w) = None ->
  Settings.blank (Settings.app_id (Webhook.settings w)) = false ->
  Settings.blank (Settings.app_secret (Webhook.settings w)) = false ->
  Webhook.arg "hub.mode" (Webhook.args r) = Some "subscribe" ->
  (snd (Webhook.handle_verification r w)
   = Ok (Webhook.RResponse (Webhook.arg "hub.challenge" (Webhook.args r)) 200 "text/plain")
   <-> Webhook.arg "hub.verify_token" (Webhook.args r) = None).
Proof.
  intros E T A S M.
  destruct (Webhook.arg "hub.verify_token" (Webhook.args r)) as [t|] eqn:Tk;
    unfold Webhook.handle_verification, Webhook.save_settings, Settings.save,
      Settings.validate, bind, ret, Webhook.meta, Webhook.applog,
      Webhook.respond_as_web_page, Webhook.get_single;
    repeat (simpl; rewrite ?E, ?T, ?A, ?S, ?M, ?Tk);
    split; intros H; try discriminate H; reflexivity.
Qed.

Lemma unset_token_matches_absent_parameter_witness :
  snd (Webhook.handle_verification
         (Webhook.mk_request "GET" [("hub.mode", "subscribe"); ("hub.challenge", "42")]
            [] None Webhook.NoBody)
         (quiet_world (Settings.mk true (Some "app") (Some "key") None false None
                         Settings.Unset) true))
  = Ok (Webhook.RResponse (Some "42") 200 "text/plain").
Proof.
  apply (unset_token_matches_absent_parameter
           (Webhook.mk_request "GET" [("hub.mode", "subscribe"); ("hub.challenge", "42")]
              [] None Webhook.NoBody)
           (quiet_world (Settings.mk true (Some "app") (Some "key") None false None
                           Settings.Unset) true)
           eq_refl eq_refl eq_refl eq_refl eq_refl).
  reflexivity.
Defined.

(* ================================================================== *)
(** * Properties of the meta logger and the log viewer *)

Lemma lookup_bind_key {A} (k : string) (v : A) (l : list (string * A)) :
  MetaLog.lookup k (MetaLog.bind_key k v l) = Some v.
Proof.
  induction l as [|[k' v'] l IH]; simpl.
  - now rewrite String.eqb_refl.
  - destruct (String.eqb k k') eqn:E; simpl.
    + now rewrite String.eqb_refl.
    + rewrite E. exact IH.
Qed.

Lemma get_meta_logger_again (st : MetaLog.state) :
  MetaLog.get_meta_logger (fst (MetaLog.get_meta_logger st)) = MetaLog.get_meta_logger st.
Proof.
  unfold MetaLog.get_meta_logger at 2 3.
  destruct (MetaLog.lookup _ (MetaLog.attrs st)) as [cached|] eqn:E.
  - cbn [fst]. unfold MetaLog.get_meta_logger. rewrite E. reflexivity.
  - cbn [fst]. unfold MetaLog.get_meta_logger.
    cbn [MetaLog.site MetaLog.attrs]. rewrite lookup_bind_key. reflexivity.
Qed.

Lemma calls_after_first (st : MetaLog.state) (n : nat) :
  Nat.iter (S n) (fun s => fst (MetaLog.get_meta_logger s)) st
  = fst (MetaLog.get_meta_logger st).
Proof.
  induction n as [|n IH]; [reflexivity|].
  change (Nat.iter (S (S n)) (fun s => fst (MetaLog.get_meta_logger s)) st)
    with (fst (MetaLog.get_meta_logger
                 (Nat.iter (S n) (fun s => fst (MetaLog.get_meta_logger s)) st))).
  rewrite IH, get_meta_logger_again. reflexivity.
Qed.

(** X14. The meta logger is set up once per site.  A second call of
    [get_meta_logger] changes nothing and returns the same logger; and
    when the site's logger is neither cached nor registered yet, it has,
    after any number of calls, exactly one handler: the rotating file
    [<bench>/logs/<site>-meta.log], 10 MiB per file with 5 backups, with
    level INFO and propagation off. *)
Theorem meta_logger_set_up_once (st : MetaLog.state) :
  MetaLog.get_meta_logger (fst (MetaLog.get_meta_logger st)) = MetaLog.get_meta_logger st
  /\ (let site := MetaLog.site_name (MetaLog.site st) in
      MetaLog.lookup ("meta_logger_" ++ site) (MetaLog.attrs st) = None ->
      MetaLog.lookup ("facebook_meta_logger_" ++ site) (MetaLog.registry st) = None ->
      forall n,
        let st' := Nat.iter (S n) (fun s => fst (MetaLog.get_meta_logger s)) st in
        snd (MetaLog.get_meta_logger st') = "facebook_meta_logger_" ++ site
        /\ MetaLog.lookup ("facebook_meta_logger_" ++ site) (MetaLog.registry st')
           = Some (MetaLog.mk_logger (Some Webhook.INFO) false
                     [MetaLog.mk_handler
                        [MetaLog.bench_path st; "logs"; site ++ "-meta.log"]
                        10485760 5 site])).
Proof.
  split; [apply get_meta_logger_again|].
  cbv zeta. intros A Rg n.
  rewrite calls_after_first. rewrite get_meta_logger_again.
  unfold MetaLog.get_meta_logger. rewrite A. cbn [fst snd MetaLog.registry].
  split; [reflexivity|]. rewrite lookup_bind_key.
  unfold MetaLog.getLogger. rewrite Rg. reflexivity.
Qed.

Lemma meta_logger_set_up_once_witness :
  let st := MetaLog.mk_state (Some "crm.example") "/home/bench" [] [] [] in
  let st' := Nat.iter 3 (fun s => fst (MetaLog.get_meta_logger s)) st in
  snd (MetaLog.get_meta_logger st') = "facebook_meta_logger_crm.example"
  /\ MetaLog.lookup "facebook_meta_logger_crm.example" (MetaLog.registry st')
     = Some (MetaLog.mk_logger (Some Webhook.INFO) false
               [MetaLog.mk_handler ["/home/bench"; "logs"; "crm.example-meta.log"]
                  10485760 5 "crm.example"]).
Proof.
  cbv zeta.
  destruct (meta_logger_set_up_once
              (MetaLog.mk_state (Some "crm.example") "/home/bench" [] [] [])) as [_ H].
  exact (H eq_refl eq_refl 2).
Defined.

(** ** The log viewer *)

Lemma last_n_length {A} (n : nat) (l : list A) :
  List.length (MetaLog.last_n n l) = Nat.min n (List.length l).
Proof. unfold MetaLog.last_n. rewrite length_skipn. lia. Qed.

Lemma last_n_suffix {A} (n : nat) (l : list A) :
  exists older, l = (older ++ MetaLog.last_n n l)%list.
Proof.
  unfold MetaLog.last_n. exists (firstn (List.length l - n) l).
  now rewrite firstn_skipn.
Qed.

(** The tail of a tail is the tail. *)
Lemma last_n_last_n {A} (m n : nat) (l : list A) :
  m <= n -> MetaLog.last_n m (MetaLog.last_n n l) = MetaLog.last_n m l.
Proof.
  intros H. unfold MetaLog.last_n. rewrite length_skipn, skipn_skipn.
  f_equal. lia.
Qed.

Lemma last_n_In {A} (n : nat) (l : list A) (x : A) : In x (MetaLog.last_n n l) -> In x l.
Proof.
  destruct (last_n_suffix n l) as [older E]. intros H. rewrite E.
  apply in_or_app. right. exact H.
Qed.

(** X15. With a site meta log on disk, [webhook_logs] reports its tail:
    the lines returned are the last 20 of the file, or all of them when
    it has fewer, unfiltered and in order; the entry count is the file's
    length capped at 100 and the total is the file's length. *)
Theorem webhook_logs_site_tail (site : option string) (bench : string)
    (d : MetaLog.disk) (lines : list string) :
  MetaLog.meta_log_file d = Some lines ->
  exists recent older,
    MetaLog.webhook_logs site bench d
    = MetaLog.LogView (MetaLog.SiteMetaLog bench (MetaLog.site_name site))
        (MetaLog.site_name site) (List.length lines) (Nat.min 100 (List.length lines))
        recent "site_specific_meta_log"
    /\ lines = (older ++ recent)%list
    /\ List.length recent = Nat.min 20 (List.length lines).
Proof.
  intros E. exists (MetaLog.last_n 20 lines).
  destruct (last_n_suffix 20 lines) as [older Ho]. exists older.
  split; [|split; [exact Ho | apply last_n_length]].
  unfold MetaLog.webhook_logs. rewrite E.
  destruct (Nat.ltb 100 (List.length lines)) eqn:Lt.
  - apply Nat.ltb_lt in Lt. rewrite last_n_length, last_n_last_n by lia.
    replace (Nat.min 100 (List.length lines)) with 100 by lia.
    f_equal.
    destruct (MetaLog.last_n 100 lines) eqn:El; [|reflexivity].
    pose proof (last_n_length 100 lines) as Hl. rewrite El in Hl.
    cbn [List.length] in Hl. lia.
  - apply Nat.ltb_ge in Lt.
    replace (Nat.min 100 (List.length lines)) with (List.length lines) by lia.
    f_equal. destruct lines; reflexivity.
Qed.

Lemma webhook_logs_site_tail_witness :
  exists recent older,
    MetaLog.webhook_logs (Some "crm.example") "/home/bench"
      (MetaLog.mk_disk (Some (repeat "line" 23)) [])
    = MetaLog.LogView (MetaLog.SiteMetaLog "/home/bench" "crm.example") "crm.example"
        23 23 recent "site_specific_meta_log"
    /\ repeat "line" 23 = (older ++ recent)%list
    /\ List.length recent = 20.
Proof.
  exact (webhook_logs_site_tail (Some "crm.example") "/home/bench"
           (MetaLog.mk_disk (Some (repeat "line" 23)) []) (repeat "line" 23) eq_refl).
Defined.

Lemma latest_from_spec (rest : list (string * (Z * list string))) :
  forall best,
    In (MetaLog.latest_from best rest) (best :: rest)
    /\ forall f, In f (best :: rest) ->
         (fst (snd f) <= fst (snd (MetaLog.latest_from best rest)))%Z.
Proof.
  induction rest as [|g rest IH]; intros best; cbn [MetaLog.latest_from].
  - split; [left; reflexivity|]. intros f [<- | []]. lia.
  - destruct (Z.ltb (fst (snd best)) (fst (snd g))) eqn:Lt.
    + destruct (IH g) as [Hin Hmax]. split.
      * right. exact Hin.
      * intros f [<- | Hf]; [|exact (Hmax f Hf)].
        apply Z.ltb_lt in Lt. specialize (Hmax g (or_introl eq_refl)). lia.
    + destruct (IH best) as [Hin Hmax]. split.
      * destruct Hin as [H | H]; [left; exact H | right; right; exact H].
      * intros f [<- | [<- | Hf]].
        -- apply Hmax. left. reflexivity.
        -- apply Z.ltb_ge in Lt. specialize (Hmax best (or_introl eq_refl)). lia.
        -- apply Hmax. right. exact Hf.
Qed.

(** X16. Without a site meta log, [webhook_logs] falls back to the other
    log files: none at all gives the "No log files found" error;
    otherwise it reads one with the greatest creation time and returns at
    most 20 lines, each of them a line of that file that contains
    "Facebook Webhook", out of at most 100 counted. *)
Theorem webhook_logs_fallback (site : option string) (bench : string) (d : MetaLog.disk) :
  MetaLog.meta_log_file d = None ->
  (MetaLog.globbed d = [] -> MetaLog.webhook_logs site bench d = MetaLog.NoLogFiles)
  /\ (MetaLog.globbed d <> [] ->
      exists path ctime lines entries recent,
        MetaLog.webhook_logs site bench d
        = MetaLog.LogView (MetaLog.OtherLog path) (MetaLog.site_name site)
            (List.length lines) entries recent "general_log"
        /\ In (path, (ctime, lines)) (MetaLog.globbed d)
        /\ (forall f, In f (MetaLog.globbed d) -> (fst (snd f) <= ctime)%Z)
        /\ entries <= 100
        /\ List.length recent <= 20
        /\ List.length recent <= entries
        /\ Forall (fun l => MetaLog.contains "Facebook Webhook" l = true /\ In l lines)
             recent).
Proof.
  intros E. unfold MetaLog.webhook_logs. rewrite E. split.
  - intros ->. reflexivity.
  - destruct (MetaLog.globbed d) as [|f rest] eqn:G; [congruence|]. intros _.
    destruct (latest_from_spec rest f) as [Hin Hmax].
    destruct (MetaLog.latest_from f rest) as [path [ctime lines]] eqn:L.
    cbn [fst snd] in *.
    set (last_lines := if Nat.ltb 100 (List.length lines)
                       then MetaLog.last_n 100 lines else lines).
    set (webhook_lines := filter (MetaLog.contains "Facebook Webhook") last_lines).
    assert (Hlast : List.length last_lines <= 100
                    /\ forall l, In l last_lines -> In l lines).
    { unfold last_lines. destruct (Nat.ltb 100 (List.length lines)) eqn:Lt.
      - split; [rewrite last_n_length; lia | intros l; apply last_n_In].
      - apply Nat.ltb_ge in Lt. split; [exact Lt | tauto]. }
    destruct Hlast as [Hlen Hsub].
    assert (Hw : List.length webhook_lines <= 100).
    { unfold webhook_lines. pose proof (filter_length_le
        (MetaLog.contains "Facebook Webhook") last_lines). lia. }
    exists path, ctime, lines, (List.length webhook_lines),
      (match webhook_lines with [] => [] | _ => MetaLog.last_n 20 webhook_lines end).
    split; [reflexivity|]. split; [exact Hin|]. split; [exact Hmax|].
    split; [exact Hw|].
    assert (Hr : match webhook_lines with [] => [] | _ => MetaLog.last_n 20 webhook_lines end
                 = MetaLog.last_n 20 webhook_lines) by (destruct webhook_lines; reflexivity).
    rewrite Hr. split; [rewrite last_n_length; lia|].
    split; [rewrite last_n_length; lia|].
    apply Forall_forall. intros l Hl. apply last_n_In in Hl.
    unfold webhook_lines in Hl. apply filter_In in Hl. destruct Hl as [H1 H2].
    split; [exact H2 | exact (Hsub l H1)].
Qed.

Lemma webhook_logs_fallback_witness :
  MetaLog.webhook_logs None "/home/bench" (MetaLog.mk_disk None []) = MetaLog.NoLogFiles.
Proof.
  destruct (webhook_logs_fallback None "/home/bench" (MetaLog.mk_disk None []) eq_refl)
    as [H _].
  exact (H eq_refl).
Defined.

(* ================================================================== *)
(** * Properties of the document classes *)

(** ** Lead timestamps (facebook_lead_ads.py) *)

(** X17. The creation time of a lead document is written once.  The
    first [before_save] fills an empty [created_at] with the time of that
    save; a [created_at] that is set survives every later [before_save]
    and [on_update], while [updated_at] always becomes the time of the
    latest hook. *)
Theorem created_at_written_once (t1 t2 t3 : string) (d : LeadAdsDoc.t) :
  t1 <> "" ->
  let d1 := LeadAdsDoc.before_save t1 d in
  let d2 := LeadAdsDoc.on_update t2 d1 in
  let d3 := LeadAdsDoc.before_save t3 d2 in
  (Settings.blank (LeadAdsDoc.created_at d) = true -> LeadAdsDoc.created_at d1 = Some t1)
  /\ (Settings.blank (LeadAdsDoc.created_at d) = false ->
      LeadAdsDoc.created_at d1 = LeadAdsDoc.created_at d)
  /\ LeadAdsDoc.created_at d2 = LeadAdsDoc.created_at d1
  /\ LeadAdsDoc.created_at d3 = LeadAdsDoc.created_at d1
  /\ LeadAdsDoc.updated_at d1 = Some t1
  /\ LeadAdsDoc.updated_at d2 = Some t2
  /\ LeadAdsDoc.updated_at d3 = Some t3.
Proof.
  intros Ht. cbv zeta. apply String.eqb_neq in Ht.
  unfold LeadAdsDoc.before_save, LeadAdsDoc.on_update.
  destruct (Settings.blank (LeadAdsDoc.created_at d)) eqn:B; cbn.
  - rewrite Ht. cbn. repeat split; intros; try discriminate; reflexivity.
  - rewrite B. cbn. repeat split; intros; try discriminate; reflexivity.
Qed.

Lemma created_at_written_once_witness :
  LeadAdsDoc.created_at
    (LeadAdsDoc.before_save "2025-03-01 09:00:00"
       (LeadAdsDoc.on_update "2025-01-01 00:00:01"
          (LeadAdsDoc.before_save "2025-01-01 00:00:00" (LeadAdsDoc.mk None None))))
  = Some "2025-01-01 00:00:00".
Proof.
  destruct (created_at_written_once "2025-01-01 00:00:00" "2025-01-01 00:00:01"
              "2025-03-01 09:00:00" (LeadAdsDoc.mk None None)) as (H1 & _ & _ & H4 & _).
  - discriminate.
  - cbv zeta in H4. rewrite H4. exact (H1 eq_refl).
Defined.

(** ** Naming and lead statistics (facebook_lead_ads_webhook.py) *)

Lemma joined_name_not_blank (a b : string) : String.eqb (a ++ "_" ++ b) "" = false.
Proof. destruct a; reflexivity. Qed.

(** X18. [autoname] names only the nameless: a record that has a
    non-empty name keeps it, a record without one is named after its page
    and form ("<page_id>_<form_id>", a missing id showing as "None"), and
    naming a record twice is naming it once. *)
Theorem autoname_names_once (d : LeadStats.t) :
  (Settings.blank (LeadStats.webhook_name d) = false -> LeadStats.autoname d = d)
  /\ (Settings.blank (LeadStats.webhook_name d) = true ->
      LeadStats.webhook_name (LeadStats.autoname d)
      = Some (LeadStats.shown (LeadStats.page_id d) ++ "_"
              ++ LeadStats.shown (LeadStats.form_id d)))
  /\ LeadStats.autoname (LeadStats.autoname d) = LeadStats.autoname d.
Proof.
  unfold LeadStats.autoname.
  destruct (Settings.blank (LeadStats.webhook_name d)) eqn:B.
  - split; [discriminate|]. split; [reflexivity|].
    cbn [LeadStats.webhook_name Settings.blank]. rewrite joined_name_not_blank.
    reflexivity.
  - split; [reflexivity|]. split; [discriminate|]. rewrite B. reflexivity.
Qed.

Lemma autoname_names_once_witness :
  LeadStats.webhook_name
    (LeadStats.autoname (LeadStats.mk None (Some "page-1") (Some "form-1") None None))
  = Some "page-1_form-1".
Proof.
  destruct (autoname_names_once
              (LeadStats.mk None (Some "page-1") (Some "form-1") None None))
    as (_ & H & _).
  exact (H eq_refl).
Defined.

(** X19. [process_lead] counts a lead and saves.  When the save goes
    through, the counter is one more than before (an unset counter counts
    as 0), the time of the last lead is now, the row is the document, one
    "facebook_lead_received" event carries the lead data to the session's
    user, and the lead data is returned.  When the save is refused, the
    same exception comes out again, unwrapped, the failure is logged once,
    nothing is published and the row is untouched, though the document in
    memory already counts the lead. *)
Theorem process_lead_counts (lead_data : json) (s : LeadStats.state) :
  let d := bumped (LeadStats.now s) (LeadStats.self s) in
  let s' := fst (LeadStats.process_lead lead_data s) in
  let res := snd (LeadStats.process_lead lead_data s) in
  LeadStats.self s' = d
  /\ LeadStats.lead_count d = Some (counted (LeadStats.self s) + 1)%Z
  /\ (LeadStats.save_fault s d = None ->
      res = Ok lead_data
      /\ LeadStats.stored s' = d
      /\ LeadStats.realtime s'
         = (LeadStats.realtime s
            ++ [("facebook_lead_received", lead_data, LeadStats.session_user s)])%list
      /\ LeadStats.error_log s' = LeadStats.error_log s)
  /\ (forall e, LeadStats.save_fault s d = Some e ->
      res = Raise e
      /\ LeadStats.stored s' = LeadStats.stored s
      /\ LeadStats.realtime s' = LeadStats.realtime s
      /\ LeadStats.error_log s'
         = (LeadStats.error_log s ++ ["Facebook Lead Processing Error"])%list).
Proof.
  cbv zeta.
  unfold LeadStats.process_lead, try_except, bind, ret, raise, LeadStats.count_lead,
    LeadStats.save, LeadStats.publish_realtime, LeadStats.log_error, bumped, counted.
  cbn [LeadStats.self LeadStats.save_fault LeadStats.now].
  destruct (LeadStats.save_fault s _) as [x|] eqn:F; cbn.
  - repeat split; try reflexivity; intros; try discriminate.
    + inversion H; subst. reflexivity.
  - repeat split; try reflexivity; intros; discriminate.
Qed.

Lemma process_lead_counts_witness :
  let s := LeadStats.mk_state (LeadStats.mk (Some "w") (Some "P") (Some "F") None None)
             (LeadStats.mk (Some "w") (Some "P") (Some "F") None None)
             (fun _ => None) [] [] "2025-01-01 00:00:00" "Administrator" in
  snd (LeadStats.process_lead (JObj [("leadgen_id", JStr "L-1")]) s)
  = Ok (JObj [("leadgen_id", JStr "L-1")])
  /\ LeadStats.lead_count (LeadStats.stored
                             (fst (LeadStats.process_lead
                                     (JObj [("leadgen_id", JStr "L-1")]) s))) = Some 1%Z.
Proof.
  cbv zeta.
  destruct (process_lead_counts (JObj [("leadgen_id", JStr "L-1")])
              (LeadStats.mk_state (LeadStats.mk (Some "w") (Some "P") (Some "F") None None)
                 (LeadStats.mk (Some "w") (Some "P") (Some "F") None None)
                 (fun _ => None) [] [] "2025-01-01 00:00:00" "Administrator"))
    as (_ & _ & H & _).
  destruct (H eq_refl) as (H1 & H2 & _). split; [exact H1 | rewrite H2; reflexivity].
Defined.

Lemma process_lead_keeps (lead_data : json) (s : LeadStats.state) :
  let s' := fst (LeadStats.process_lead lead_data s) in
  LeadStats.save_fault s' = LeadStats.save_fault s
  /\ LeadStats.now s' = LeadStats.now s
  /\ LeadStats.session_user s' = LeadStats.session_user s.
Proof.
  cbv zeta.
  unfold LeadStats.process_lead, try_except, bind, ret, raise, LeadStats.count_lead,
    LeadStats.save, LeadStats.publish_realtime, LeadStats.log_error.
  cbn [LeadStats.self LeadStats.save_fault LeadStats.now].
  destruct (LeadStats.save_fault s _); cbn; repeat split.
Qed.

(** X20. The lead counter is a running count: on a store that accepts
    the saves, processing a sequence of leads raises the counter by the
    length of the sequence and publishes exactly one event per lead, in
    order. *)
Theorem lead_count_is_running_count (leads : list json) :
  forall s,
    (forall d, LeadStats.save_fault s d = None) ->
    let s' := fst (LeadStats.process_all leads s) in
    snd (LeadStats.process_all leads s) = Ok tt
    /\ counted (LeadStats.self s')
       = (counted (LeadStats.self s) + Z.of_nat (List.length leads))%Z
    /\ LeadStats.realtime s'
       = (LeadStats.realtime s
          ++ map (fun l => ("facebook_lead_received", l, LeadStats.session_user s))
               leads)%list.
Proof.
  induction leads as [|l rest IH]; intros s Hf; cbv zeta.
  - cbn. rewrite app_nil_r. repeat split. lia.
  - cbn [LeadStats.process_all]. unfold bind.
    pose proof (process_lead_keeps l s) as (K1 & K2 & K3).
    assert (P : snd (LeadStats.process_lead l s) = Ok l
                /\ counted (LeadStats.self (fst (LeadStats.process_lead l s)))
                   = (counted (LeadStats.self s) + 1)%Z
                /\ LeadStats.realtime (fst (LeadStats.process_lead l s))
                   = (LeadStats.realtime s
                      ++ [("facebook_lead_received", l, LeadStats.session_user s)])%list).
    { unfold LeadStats.process_lead, try_except, bind, ret, LeadStats.count_lead,
        LeadStats.save, LeadStats.publish_realtime.
      cbn [LeadStats.self LeadStats.save_fault LeadStats.now]. rewrite Hf. cbn.
      repeat split. }
    cbv zeta in K1, K2, K3.
    destruct (LeadStats.process_lead l s) as [s1 o]. cbn [fst snd] in *.
    destruct P as (-> & C1 & R1).
    assert (Hf1 : forall d, LeadStats.save_fault s1 d = None)
      by (intros d; rewrite K1; apply Hf).
    destruct (IH s1 Hf1) as (R & C & Ev). cbv zeta in C, Ev.
    split; [exact R|]. split.
    + rewrite C, C1. cbn [List.length]. lia.
    + rewrite Ev, R1, K3, <- app_assoc. reflexivity.
Qed.

Lemma lead_count_is_running_count_witness :
  let s := LeadStats.mk_state (LeadStats.mk (Some "w") (Some "P") (Some "F") (Some 40%Z) None)
             (LeadStats.mk (Some "w") (Some "P") (Some "F") (Some 40%Z) None)
             (fun _ => None) [] [] "2025-01-01 00:00:00" "Administrator" in
  counted (LeadStats.self (fst (LeadStats.process_all [JNull; JNull] s))) = 42%Z.
Proof.
  cbv zeta.
  destruct (lead_count_is_running_count [JNull; JNull]
              (LeadStats.mk_state
                 (LeadStats.mk (Some "w") (Some "P") (Some "F") (Some 40%Z) None)
                 (LeadStats.mk (Some "w") (Some "P") (Some "F") (Some 40%Z) None)
                 (fun _ => None) [] [] "2025-01-01 00:00:00" "Administrator")
              (fun _ => eq_refl)) as (_ & H & _).
  exact H.
Defined.

(** ** Settings: access tokens *)



(** ** The webhook record: validation and the enable toggle *)

(** X22. A webhook record is validated only while enabled, and then in
    this order: the settings must be enabled, the page id present, the
    form id present.  Validation raises exactly when one of them fails,
    names the first that does, and changes nothing. *)
Theorem webhook_validate_order (s : WebhookDoc.state) :
  let d := WebhookDoc.self s in
  let res := snd (WebhookDoc.validate s) in
  fst (WebhookDoc.validate s) = s
  /\ raises res
     = WebhookDoc.enabled d
       && (negb (Settings.enabled (WebhookDoc.settings s))
           || Settings.blank (WebhookDoc.page_id d)
           || Settings.blank (WebhookDoc.form_id d))
  /\ (WebhookDoc.enabled d = true -> Settings.enabled (WebhookDoc.settings s) = false ->
      res = Raise (ValidationError [Lit "Please enable Facebook Lead Ads Settings first"]))
  /\ (WebhookDoc.enabled d = true -> Settings.enabled (WebhookDoc.settings s) = true ->
      Settings.blank (WebhookDoc.page_id d) = true ->
      res = Raise (ValidationError [Lit "Page ID is required"]))
  /\ (WebhookDoc.enabled d = true -> Settings.enabled (WebhookDoc.settings s) = true ->
      Settings.blank (WebhookDoc.page_id d) = false ->
      Settings.blank (WebhookDoc.form_id d) = true ->
      res = Raise (ValidationError [Lit "Form ID is required"])).
Proof.
  cbv zeta. split; [apply validate_reads_only|].
  unfold WebhookDoc.validate. unfold_doc.
  destruct (WebhookDoc.enabled (WebhookDoc.self s)),
    (Settings.enabled (WebhookDoc.settings s)),
    (Settings.blank (WebhookDoc.page_id (WebhookDoc.self s))),
    (Settings.blank (WebhookDoc.form_id (WebhookDoc.self s)));
    cbn; repeat split; intros; try discriminate; reflexivity.
Qed.

Lemma webhook_validate_order_witness :
  snd (WebhookDoc.validate
         (doc_state platform_up
            (WebhookDoc.mk true None (Some "form-1") None None false JNull)
            (sample_doc true)))
  = Raise (ValidationError [Lit "Page ID is required"]).
Proof.
  destruct (webhook_validate_order
              (doc_state platform_up
                 (WebhookDoc.mk true None (Some "form-1") None None false JNull)
                 (sample_doc true)))
    as (_ & _ & _ & H & _).
  exact (H eq_refl eq_refl eq_refl).
Defined.

Lemma save_same_flag_quiet (depth : nat) (s : WebhookDoc.state) (row : WebhookDoc.t) :
  WebhookDoc.stored s = Some row ->
  WebhookDoc.enabled row = WebhookDoc.enabled (WebhookDoc.self s) ->
  let s' := fst (WebhookDoc.save depth s) in
  WebhookDoc.calls s' = WebhookDoc.calls s
  /\ WebhookDoc.messages s' = WebhookDoc.messages s
  /\ WebhookDoc.error_log s' = WebhookDoc.error_log s
  /\ WebhookDoc.self s' = WebhookDoc.self s.
Proof.
  intros St En. cbv zeta.
  destruct (save_same_flag depth s row St En) as [E | [x E]]; rewrite E;
    repeat split.
Qed.

(** What [unsubscribe_webhook] does where [on_update] and [on_trash]
    call it: one call to the platform, then the document is marked
    inactive and saved; or the user-facing error, with the row as it
    was. *)
Lemma unsubscribe_cases (depth : nat) (s : WebhookDoc.state) (row : WebhookDoc.t) :
  WebhookDoc.stored s = Some row ->
  WebhookDoc.enabled row = WebhookDoc.enabled (WebhookDoc.self s) ->
  let s' := fst (WebhookDoc.unsubscribe_webhook (WebhookDoc.save depth) s) in
  let res := snd (WebhookDoc.unsubscribe_webhook (WebhookDoc.save depth) s) in
  WebhookDoc.calls s' = (WebhookDoc.calls s ++ [delete_call s])%list
  /\ ((res = Ok tt
       /\ raises (WebhookDoc.api s (List.length (WebhookDoc.calls s)) (delete_call s)) = false
       /\ WebhookDoc.self s'
          = WebhookDoc.set_subscription_id
              (WebhookDoc.set_is_active (WebhookDoc.self s) false) JNull
       /\ WebhookDoc.stored s' = Some (WebhookDoc.self s')
       /\ WebhookDoc.messages s'
          = (WebhookDoc.messages s ++ [[Lit "Webhook subscription removed successfully"]])%list)
      \/ ((exists x, res = Raise (unsubscribe_failed x))
          /\ WebhookDoc.stored s' = Some row
          /\ WebhookDoc.messages s' = WebhookDoc.messages s
          /\ WebhookDoc.error_log s'
             = (WebhookDoc.error_log s ++ ["Facebook Webhook Unsubscription Error"])%list
          /\ (forall x, WebhookDoc.api s (List.length (WebhookDoc.calls s)) (delete_call s)
                        = Raise x -> res = Raise (unsubscribe_failed x)))).
Proof.
  intros St En. cbv zeta. unfold delete_call.
  remember (WebhookDoc.unsubscribe_webhook (WebhookDoc.save depth) s) as out eqn:E.
  revert E.
  unfold WebhookDoc.unsubscribe_webhook.
  unfold try_except, bind at 1, WebhookDoc.get_single at 1.
  unfold bind at 1, WebhookDoc.call at 1.
  destruct (WebhookDoc.api s (List.length (WebhookDoc.calls s)) _) as [ans|x] eqn:A1.
  2:{ intros ->. unfold_doc. cbn. split; [reflexivity|]. right.
      repeat split; try assumption.
      - eexists. reflexivity.
      - intros x0 H. inversion H; subst. reflexivity. }
  unfold bind at 1, WebhookDoc.update_self at 1.
  unfold bind at 1, WebhookDoc.update_self at 1.
  unfold bind at 1.
  match goal with
  | |- context [WebhookDoc.save depth ?st] =>
      destruct (save_same_flag depth st row St En) as [E | [x E]]; rewrite E
  end.
  - intros ->. unfold_doc. cbn. split; [reflexivity|]. left. repeat split.
  - intros ->. unfold_doc. cbn. split; [reflexivity|]. right.
    repeat split; try assumption.
    + eexists. reflexivity.
    + intros x0 H. discriminate H.
Qed.

(** The calls [subscribe_webhook] makes in that place: the subscription
    call, and the page install only after it was answered. *)
Lemma subscribe_calls (depth : nat) (s : WebhookDoc.state) (row : WebhookDoc.t) :
  WebhookDoc.stored s = Some row ->
  WebhookDoc.enabled row = WebhookDoc.enabled (WebhookDoc.self s) ->
  let s' := fst (WebhookDoc.subscribe_webhook (WebhookDoc.save depth) s) in
  let res := snd (WebhookDoc.subscribe_webhook (WebhookDoc.save depth) s) in
  let n := List.length (WebhookDoc.calls s) in
  (forall x, WebhookDoc.api s n (subscription_call s) = Raise x ->
     WebhookDoc.calls s' = (WebhookDoc.calls s ++ [subscription_call s])%list
     /\ res = Raise (subscribe_failed x))
  /\ (forall sub, WebhookDoc.api s n (subscription_call s) = Ok sub ->
     WebhookDoc.calls s'
     = (WebhookDoc.calls s ++ [subscription_call s; install_call s])%list)
  /\ (forall sub x, WebhookDoc.api s n (subscription_call s) = Ok sub ->
     WebhookDoc.api s (S n) (install_call s) = Raise x ->
     res = Raise (subscribe_failed x))
  /\ (res = Ok tt ->
      WebhookDoc.is_active (WebhookDoc.self s') = true
      /\ WebhookDoc.stored s' = Some (WebhookDoc.self s')
      /\ exists sub,
           WebhookDoc.api s n (subscription_call s) = Ok sub
           /\ py_get sub "id" JNull = Ok (WebhookDoc.subscription_id (WebhookDoc.self s'))).
Proof.
  intros St En. cbv zeta. unfold subscription_call, install_call.
  remember (WebhookDoc.subscribe_webhook (WebhookDoc.save depth) s) as out eqn:E.
  revert E.
  unfold WebhookDoc.subscribe_webhook.
  unfold try_except, bind at 1, WebhookDoc.get_single at 1.
  unfold bind at 1, WebhookDoc.get_self at 1.
  unfold bind at 1, WebhookDoc.call at 1.
  destruct (WebhookDoc.api s (List.length (WebhookDoc.calls s)) _) as [sub|x] eqn:A1.
  2:{ intros ->. unfold_doc. cbn. repeat split; intros; try discriminate.
      inversion H; subst. reflexivity. }
  unfold bind at 1, WebhookDoc.call at 1.
  cbn [WebhookDoc.api WebhookDoc.calls WebhookDoc.set_calls].
  rewrite length_app, Nat.add_comm. cbn [List.length Nat.add].
  destruct (WebhookDoc.api s (S (List.length (WebhookDoc.calls s))) _) as [ins|x] eqn:A2.
  2:{ intros ->. unfold_doc. cbn. repeat split; intros; try discriminate.
      - now rewrite <- app_assoc.
      - inversion H0; subst. reflexivity. }
  unfold bind at 1, WebhookDoc.update_self at 1.
  unfold bind at 1, lift at 1.
  destruct (py_get sub "id" JNull) as [id|x] eqn:G.
  2:{ intros ->. unfold_doc. cbn. repeat split; intros; try discriminate.
      now rewrite <- app_assoc. }
  unfold bind at 1, WebhookDoc.update_self at 1.
  unfold bind at 1.
  match goal with
  | |- context [WebhookDoc.save depth ?st] =>
      destruct (save_same_flag depth st row St En) as [E | [x E]]; rewrite E
  end.
  - intros ->. unfold_doc. cbn. repeat split; intros; try discriminate.
    + now rewrite <- app_assoc.
    + exists sub. split; [reflexivity | exact G].
  - intros ->. unfold_doc. cbn. repeat split; intros; try discriminate.
    now rewrite <- app_assoc.
Qed.

(** [on_update] on a toggled flag goes to the platform: it subscribes
    when the document is enabled and unsubscribes when it is not. *)
Lemma on_update_toggled (sv : WebhookDoc.M unit) (row : WebhookDoc.t)
    (s : WebhookDoc.state) :
  WebhookDoc.enabled row <> WebhookDoc.enabled (WebhookDoc.self s) ->
  WebhookDoc.on_update sv (Some row) s
  = (if WebhookDoc.enabled (WebhookDoc.self s)
     then WebhookDoc.subscribe_webhook sv s
     else WebhookDoc.unsubscribe_webhook sv s).
Proof.
  intros N.
  cbv [WebhookDoc.on_update WebhookDoc.has_enabled_changed bind WebhookDoc.get_self ret].
  destruct (WebhookDoc.enabled row), (WebhookDoc.enabled (WebhookDoc.self s)) eqn:Es;
    try congruence; cbn [negb Bool.eqb]; rewrite Es; reflexivity.
Qed.

(** For a document without a row [on_update] always goes to the
    platform. *)
Lemma on_update_new (sv : WebhookDoc.M unit) (s : WebhookDoc.state) :
  WebhookDoc.on_update sv None s
  = (if WebhookDoc.enabled (WebhookDoc.self s)
     then WebhookDoc.subscribe_webhook sv s
     else WebhookDoc.unsubscribe_webhook sv s).
Proof.
  cbv [WebhookDoc.on_update WebhookDoc.has_enabled_changed bind WebhookDoc.get_self ret].
  destruct (WebhookDoc.enabled (WebhookDoc.self s)); reflexivity.
Qed.

(** [subscribe_webhook] leaves the callback URL of the document alone. *)
Lemma subscribe_keeps_url (depth : nat) (s : WebhookDoc.state) (row : WebhookDoc.t) :
  WebhookDoc.stored s = Some row ->
  WebhookDoc.enabled row = WebhookDoc.enabled (WebhookDoc.self s) ->
  WebhookDoc.webhook_url
    (WebhookDoc.self (fst (WebhookDoc.subscribe_webhook (WebhookDoc.save depth) s)))
  = WebhookDoc.webhook_url (WebhookDoc.self s).
Proof.
  intros St En.
  remember (WebhookDoc.subscribe_webhook (WebhookDoc.save depth) s) as out eqn:E.
  revert E.
  unfold WebhookDoc.subscribe_webhook.
  unfold try_except, bind at 1, WebhookDoc.get_single at 1.
  unfold bind at 1, WebhookDoc.get_self at 1.
  unfold bind at 1, WebhookDoc.call at 1.
  destruct (WebhookDoc.api s (List.length (WebhookDoc.calls s)) _) as [sub|x] eqn:A1.
  2:{ intros ->. unfold_doc. reflexivity. }
  unfold bind at 1, WebhookDoc.call at 1.
  cbn [WebhookDoc.api WebhookDoc.calls WebhookDoc.set_calls].
  destruct (WebhookDoc.api s _ _) as [ins|x] eqn:A2 in |- *.
  2:{ intros ->. unfold_doc. reflexivity. }
  unfold bind at 1, WebhookDoc.update_self at 1.
  unfold bind at 1, lift at 1.
  destruct (py_get sub "id" JNull) as [id|x] eqn:G.
  2:{ intros ->. unfold_doc. reflexivity. }
  unfold bind at 1, WebhookDoc.update_self at 1.
  unfold bind at 1.
  match goal with
  | |- context [WebhookDoc.save depth ?st] =>
      destruct (save_same_flag depth st row St En) as [E | [x E]]; rewrite E
  end; intros ->; unfold_doc; reflexivity.
Qed.

(** A save whose validation and row write succeed runs [on_update] on
    the written row. *)
Lemma save_reaches_hooks (depth : nat) (s : WebhookDoc.state) (row : WebhookDoc.t) :
  WebhookDoc.stored s = Some row ->
  snd (WebhookDoc.validate s) = Ok tt ->
  WebhookDoc.write_fault s (WebhookDoc.self s) = None ->
  WebhookDoc.save (S depth) s
  = WebhookDoc.on_update (WebhookDoc.save depth) (Some row)
      (WebhookDoc.set_stored s (Some (WebhookDoc.self s))).
Proof.
  intros St V W. cbn [WebhookDoc.save].
  unfold bind at 1, WebhookDoc.get_stored at 1. rewrite St.
  unfold bind at 1, ret at 1. unfold bind at 1.
  pose proof (validate_reads_only s) as Vs.
  destruct (WebhookDoc.validate s) as [sv o]. cbn [fst snd] in *. subst sv o.
  unfold bind at 1, WebhookDoc.db_update at 1. rewrite W. reflexivity.
Qed.

(** X23. A save that does not toggle [enabled] never talks to the
    platform: when the row already carries the document's flag, the save
    makes no call, shows no message, logs no error and leaves the document
    as it is; it only writes the row, or raises without writing it. *)
Theorem untoggled_save_is_quiet (depth : nat) (s : WebhookDoc.state) (row : WebhookDoc.t) :
  WebhookDoc.stored s = Some row ->
  WebhookDoc.enabled row = WebhookDoc.enabled (WebhookDoc.self s) ->
  let s' := fst (WebhookDoc.save depth s) in
  WebhookDoc.calls s' = WebhookDoc.calls s
  /\ WebhookDoc.messages s' = WebhookDoc.messages s
  /\ WebhookDoc.error_log s' = WebhookDoc.error_log s
  /\ WebhookDoc.self s' = WebhookDoc.self s
  /\ (snd (WebhookDoc.save depth s) = Ok tt ->
      WebhookDoc.stored s' = Some (WebhookDoc.self s))
  /\ (snd (WebhookDoc.save depth s) <> Ok tt -> WebhookDoc.stored s' = Some row).
Proof.
  intros St En. cbv zeta.
  destruct (save_same_flag depth s row St En) as [E | [x E]]; rewrite E; cbn;
    repeat split; intros; try assumption; try congruence; discriminate.
Qed.

Lemma untoggled_save_is_quiet_witness :
  let s := doc_state platform_down (sample_doc true) (sample_doc true) in
  WebhookDoc.calls (fst (WebhookDoc.save 8 s)) = []
  /\ WebhookDoc.messages (fst (WebhookDoc.save 8 s)) = [].
Proof.
  cbv zeta.
  destruct (untoggled_save_is_quiet 8
              (doc_state platform_down (sample_doc true) (sample_doc true))
              (sample_doc true) eq_refl eq_refl) as (H1 & H2 & _).
  split; [exact H1 | exact H2].
Defined.

(** X24. Disabling a record calls the platform exactly once.  A save of
    a stored, enabled record whose document is disabled, once the row is
    written, makes one call, the deletion of the app's "page"
    subscription, and no other.  When the platform answers and the second
    save goes through, the save succeeds and the row ends disabled,
    inactive and without a subscription id; when the platform refuses, the
    save raises "Failed to unsubscribe webhook" with the platform's
    message. *)
Theorem disabling_calls_once (depth : nat) (s : WebhookDoc.state) (row : WebhookDoc.t) :
  WebhookDoc.stored s = Some row ->
  WebhookDoc.enabled row = true ->
  WebhookDoc.enabled (WebhookDoc.self s) = false ->
  WebhookDoc.write_fault s (WebhookDoc.self s) = None ->
  let s' := fst (WebhookDoc.save (S depth) s) in
  let res := snd (WebhookDoc.save (S depth) s) in
  let answer := WebhookDoc.api s (List.length (WebhookDoc.calls s)) (delete_call s) in
  WebhookDoc.calls s' = (WebhookDoc.calls s ++ [delete_call s])%list
  /\ (res = Ok tt ->
      WebhookDoc.stored s' = Some (WebhookDoc.self s')
      /\ WebhookDoc.enabled (WebhookDoc.self s') = false
      /\ WebhookDoc.is_active (WebhookDoc.self s') = false
      /\ WebhookDoc.subscription_id (WebhookDoc.self s') = JNull
      /\ raises answer = false)
  /\ (forall x, answer = Raise x -> res = Raise (unsubscribe_failed x)).
Proof.
  intros St Er Ed W. cbv zeta.
  assert (V : snd (WebhookDoc.validate s) = Ok tt).
  { unfold WebhookDoc.validate. unfold_doc. rewrite Ed. reflexivity. }
  rewrite (save_reaches_hooks depth s row St V W).
  rewrite on_update_toggled
    by (cbn [WebhookDoc.self WebhookDoc.set_stored]; congruence).
  cbn [WebhookDoc.self WebhookDoc.set_stored]. rewrite Ed.
  destruct (unsubscribe_cases depth (WebhookDoc.set_stored s (Some (WebhookDoc.self s)))
              (WebhookDoc.self s) eq_refl eq_refl) as [C H].
  cbv zeta in C, H. split; [exact C|].
  destruct H as [(R & A & Sf & Sd & _) | ((x & R) & _ & _ & _ & F)].
  - split.
    + intros _. rewrite Sd, Sf. cbn. repeat split; [exact Ed | exact A].
    + intros x Hx. unfold delete_call in A, Hx. cbn in A. rewrite Hx in A. discriminate A.
  - split.
    + intros Hok. rewrite R in Hok. discriminate Hok.
    + intros x0 Hx. exact (F x0 Hx).
Qed.

Lemma disabling_calls_once_witness :
  let s := doc_state platform_up (sample_doc false) (sample_doc true) in
  WebhookDoc.calls (fst (WebhookDoc.save 8 s))
  = [WebhookDoc.DeleteAppWebhookSubscription (Some "app") "page"].
Proof.
  cbv zeta.
  destruct (disabling_calls_once 7
              (doc_state platform_up (sample_doc false) (sample_doc true))
              (sample_doc true) eq_refl eq_refl eq_refl eq_refl) as (H & _).
  exact H.
Defined.

(** X25. Enabling a record subscribes in two steps, in order.  A save of
    a stored, disabled record whose document is enabled and valid, once
    the row is written, first asks the platform for the subscription,
    presenting the document's callback URL and verify token for the field
    "leadgen"; only when that is answered does it install the app on the
    page.  A refused subscription stops there, with "Failed to subscribe
    webhook" and the platform's message, and the install is never
    attempted.  A save that succeeds leaves the row active with the
    returned subscription id. *)
Theorem enabling_subscribes_in_order (depth : nat) (s : WebhookDoc.state)
    (row : WebhookDoc.t) :
  WebhookDoc.stored s = Some row ->
  WebhookDoc.enabled row = false ->
  WebhookDoc.enabled (WebhookDoc.self s) = true ->
  snd (WebhookDoc.validate s) = Ok tt ->
  WebhookDoc.write_fault s (WebhookDoc.self s) = None ->
  let s' := fst (WebhookDoc.save (S depth) s) in
  let res := snd (WebhookDoc.save (S depth) s) in
  let n := List.length (WebhookDoc.calls s) in
  (forall x, WebhookDoc.api s n (subscription_call s) = Raise x ->
     WebhookDoc.calls s' = (WebhookDoc.calls s ++ [subscription_call s])%list
     /\ res = Raise (subscribe_failed x))
  /\ (forall sub, WebhookDoc.api s n (subscription_call s) = Ok sub ->
     WebhookDoc.calls s'
     = (WebhookDoc.calls s ++ [subscription_call s; install_call s])%list)
  /\ (forall sub x, WebhookDoc.api s n (subscription_call s) = Ok sub ->
     WebhookDoc.api s (S n) (install_call s) = Raise x ->
     res = Raise (subscribe_failed x))
  /\ (res = Ok tt ->
      WebhookDoc.is_active (WebhookDoc.self s') = true
      /\ WebhookDoc.stored s' = Some (WebhookDoc.self s')
      /\ exists sub,
           WebhookDoc.api s n (subscription_call s) = Ok sub
           /\ py_get sub "id" JNull = Ok (WebhookDoc.subscription_id (WebhookDoc.self s'))).
Proof.
  intros St Er Ed V W. cbv zeta.
  rewrite (save_reaches_hooks depth s row St V W).
  rewrite on_update_toggled
    by (cbn [WebhookDoc.self WebhookDoc.set_stored]; congruence).
  cbn [WebhookDoc.self WebhookDoc.set_stored]. rewrite Ed.
  exact (subscribe_calls depth (WebhookDoc.set_stored s (Some (WebhookDoc.self s)))
           (WebhookDoc.self s) eq_refl eq_refl).
Qed.

Lemma enabling_subscribes_in_order_witness :
  let up := doc_state platform_up (sample_doc true) (sample_doc false) in
  let down := doc_state platform_down (sample_doc true) (sample_doc false) in
  WebhookDoc.calls (fst (WebhookDoc.save 8 up)) = [subscription_call up; install_call up]
  /\ WebhookDoc.calls (fst (WebhookDoc.save 8 down)) = [subscription_call down].
Proof.
  cbv zeta. split.
  - destruct (enabling_subscribes_in_order 7
                (doc_state platform_up (sample_doc true) (sample_doc false))
                (sample_doc false) eq_refl eq_refl eq_refl eq_refl eq_refl)
      as (_ & H & _).
    exact (H _ eq_refl).
  - destruct (enabling_subscribes_in_order 7
                (doc_state platform_down (sample_doc true) (sample_doc false))
                (sample_doc false) eq_refl eq_refl eq_refl eq_refl eq_refl)
      as (H & _).
    destruct (H _ eq_refl) as [H1 _]. exact H1.
Defined.

(** X26. Deleting a record unsubscribes it only when it is active.  For
    an inactive record [on_trash] does nothing at all: no call, no
    message, no change, and the row goes.  For an active record it calls
    the platform once, for the deletion of the subscription; when the
    platform refuses, "Failed to unsubscribe webhook" comes out of the
    deletion and the row stays. *)
Theorem delete_unsubscribes_active (depth : nat) (s : WebhookDoc.state)
    (row : WebhookDoc.t) :
  WebhookDoc.stored s = Some row ->
  WebhookDoc.enabled row = WebhookDoc.enabled (WebhookDoc.self s) ->
  let s' := fst (WebhookDoc.delete depth s) in
  let res := snd (WebhookDoc.delete depth s) in
  (WebhookDoc.is_active (WebhookDoc.self s) = false ->
   res = Ok tt /\ s' = WebhookDoc.set_stored s None)
  /\ (WebhookDoc.is_active (WebhookDoc.self s) = true ->
      WebhookDoc.calls s' = (WebhookDoc.calls s ++ [delete_call s])%list
      /\ (res = Ok tt -> WebhookDoc.stored s' = None)
      /\ (forall x,
            WebhookDoc.api s (List.length (WebhookDoc.calls s)) (delete_call s) = Raise x ->
            res = Raise (unsubscribe_failed x) /\ WebhookDoc.stored s' = Some row)).
Proof.
  intros St En. cbv zeta.
  assert (T : WebhookDoc.on_trash (WebhookDoc.save depth) s
              = if WebhookDoc.is_active (WebhookDoc.self s)
                then WebhookDoc.unsubscribe_webhook (WebhookDoc.save depth) s
                else (s, Ok tt)).
  { cbv [WebhookDoc.on_trash bind WebhookDoc.get_self ret].
    destruct (WebhookDoc.is_active (WebhookDoc.self s)); reflexivity. }
  cbv [WebhookDoc.delete bind]. rewrite T.
  split; intros Ia; rewrite Ia.
  - split; reflexivity.
  - destruct (unsubscribe_cases depth s row St En) as [C H]. cbv zeta in C, H.
    destruct (WebhookDoc.unsubscribe_webhook (WebhookDoc.save depth) s) as [s1 o].
    cbn [fst snd] in *.
    destruct H as [(-> & A & _) | ((x & ->) & Sr & _ & _ & F)]; cbn [fst snd].
    + split; [exact C|]. split; [reflexivity|].
      intros x Hx. rewrite Hx in A. discriminate A.
    + split; [exact C|]. split; [intros H; discriminate H|].
      intros x0 Hx. split; [exact (F x0 Hx) | exact Sr].
Qed.

Lemma delete_unsubscribes_active_witness :
  let s := doc_state platform_down (sample_doc false) (sample_doc false) in
  snd (WebhookDoc.delete 8 s) = Ok tt
  /\ WebhookDoc.calls (fst (WebhookDoc.delete 8 s)) = [].
Proof.
  cbv zeta.
  destruct (delete_unsubscribes_active 8
              (doc_state platform_down (sample_doc false) (sample_doc false))
              (sample_doc false) eq_refl eq_refl) as [H _].
  destruct (H eq_refl) as [H1 H2]. split; [exact H1 | rewrite H2; reflexivity].
Defined.

(** X27. A record created enabled registers what it stores.  Saving a
    new, enabled, valid record on a store that accepts it first generates
    the verify token and derives the callback URL from the site URL, and
    the first call to the platform is the subscription request carrying
    exactly these two: the token the document now holds and the site's
    [handle_webhook] endpoint, for the field "leadgen". *)
Theorem creation_registers_stored_token (depth : nat) (s : WebhookDoc.state) :
  WebhookDoc.stored s = None ->
  WebhookDoc.enabled (WebhookDoc.self s) = true ->
  Settings.enabled (WebhookDoc.settings s) = true ->
  Settings.blank (WebhookDoc.page_id (WebhookDoc.self s)) = false ->
  Settings.blank (WebhookDoc.form_id (WebhookDoc.self s)) = false ->
  (forall d, WebhookDoc.write_fault s d = None) ->
  let s' := fst (WebhookDoc.save (S depth) s) in
  let token := WebhookDoc.take_rand (WebhookDoc.rand s) (WebhookDoc.rand_pos s) 32 in
  let url := WebhookDoc.site_url s
             ++ "/api/method/creqit.meta.FacebookLeadAds.webhook.handle_webhook" in
  WebhookDoc.verify_token (WebhookDoc.self s') = Some token
  /\ WebhookDoc.webhook_url (WebhookDoc.self s') = Some url
  /\ exists later,
       WebhookDoc.calls s'
       = (WebhookDoc.calls s
          ++ WebhookDoc.CreateAppWebhookSubscription
               (Settings.app_id (WebhookDoc.settings s)) (Some url) (Some token)
               ["leadgen"] true
             :: later)%list.
Proof.
  intros Hn En Se Pg Fm Wf. cbv zeta.
  split; [apply save_new_token; exact Hn|].
  set (s1 := fst (WebhookDoc.before_insert s)).
  assert (B : WebhookDoc.before_insert s = (s1, Ok tt)) by reflexivity.
  assert (F1 : WebhookDoc.enabled (WebhookDoc.self s1) = true
               /\ WebhookDoc.page_id (WebhookDoc.self s1) = WebhookDoc.page_id (WebhookDoc.self s)
               /\ WebhookDoc.form_id (WebhookDoc.self s1) = WebhookDoc.form_id (WebhookDoc.self s)
               /\ WebhookDoc.settings s1 = WebhookDoc.settings s
               /\ WebhookDoc.write_fault s1 = WebhookDoc.write_fault s
               /\ WebhookDoc.calls s1 = WebhookDoc.calls s
               /\ WebhookDoc.verify_token (WebhookDoc.self s1)
                  = Some (WebhookDoc.take_rand (WebhookDoc.rand s) (WebhookDoc.rand_pos s) 32)
               /\ WebhookDoc.webhook_url (WebhookDoc.self s1)
                  = Some (WebhookDoc.site_url s
                          ++ "/api/method/creqit.meta.FacebookLeadAds.webhook.handle_webhook")).
  { unfold s1, WebhookDoc.before_insert. unfold_doc. cbn. rewrite En. repeat split. }
  destruct F1 as (E1 & P1 & Fo1 & S1 & W1 & C1 & T1 & U1).
  clearbody s1.
  assert (V : snd (WebhookDoc.validate s1) = Ok tt).
  { unfold WebhookDoc.validate. unfold_doc. rewrite E1, S1, Se, P1, Pg, Fo1, Fm. reflexivity. }
  assert (Sv : WebhookDoc.save (S depth) s
               = WebhookDoc.subscribe_webhook (WebhookDoc.save depth)
                   (WebhookDoc.set_stored s1 (Some (WebhookDoc.self s1)))).
  { cbn [WebhookDoc.save].
    unfold bind at 1, WebhookDoc.get_stored at 1. rewrite Hn.
    unfold bind at 1. rewrite B.
    unfold bind at 1.
    pose proof (validate_reads_only s1) as Vs.
    destruct (WebhookDoc.validate s1) as [sv o]. cbn [fst snd] in *. subst sv o.
    unfold bind at 1, WebhookDoc.db_update at 1. rewrite W1, Wf.
    rewrite on_update_new. cbn [WebhookDoc.self WebhookDoc.set_stored].
    rewrite E1. reflexivity. }
  rewrite Sv.
  pose proof (subscribe_calls depth (WebhookDoc.set_stored s1 (Some (WebhookDoc.self s1)))
                (WebhookDoc.self s1) eq_refl eq_refl) as (Hr & Ho & _).
  cbv zeta in Hr, Ho.
  unfold subscription_call in Hr, Ho.
  cbn [WebhookDoc.self WebhookDoc.set_stored WebhookDoc.settings WebhookDoc.calls
       WebhookDoc.api] in Hr, Ho.
  rewrite S1, C1, T1, U1 in Hr, Ho.
  split.
  - rewrite (subscribe_keeps_url depth
               (WebhookDoc.set_stored s1 (Some (WebhookDoc.self s1)))
               (WebhookDoc.self s1) eq_refl eq_refl).
    exact U1.
  - destruct (WebhookDoc.api s1 (List.length (WebhookDoc.calls s))
                (WebhookDoc.CreateAppWebhookSubscription
                   (Settings.app_id (WebhookDoc.settings s))
                   (Some (WebhookDoc.site_url s
                          ++ "/api/method/creqit.meta.FacebookLeadAds.webhook.handle_webhook"))
                   (Some (WebhookDoc.take_rand (WebhookDoc.rand s) (WebhookDoc.rand_pos s) 32))
                   ["leadgen"] true)) as [sub|x] eqn:A.
    + rewrite (Ho sub eq_refl). eexists. reflexivity.
    + destruct (Hr x eq_refl) as [Hc _]. rewrite Hc. eexists. reflexivity.
Qed.

Lemma creation_registers_stored_token_witness :
  let s := WebhookDoc.set_stored
             (doc_state platform_up (sample_doc true) (sample_doc true)) None in
  WebhookDoc.verify_token (WebhookDoc.self (fst (WebhookDoc.save 8 s)))
  = Some "aaaaaaaaaaaaaaaaaaaaaaaaaaaaaaaa"
  /\ exists later,
       WebhookDoc.calls (fst (WebhookDoc.save 8 s))
       = WebhookDoc.CreateAppWebhookSubscription (Some "app")
           (Some "https://crm.example/api/method/creqit.meta.FacebookLeadAds.webhook.handle_webhook")
           (Some "aaaaaaaaaaaaaaaaaaaaaaaaaaaaaaaa") ["leadgen"] true
         :: later.
Proof.
  cbv zeta.
  destruct (creation_registers_stored_token 7
              (WebhookDoc.set_stored
                 (doc_state platform_up (sample_doc true) (sample_doc true)) None)
              eq_refl eq_refl eq_refl eq_refl eq_refl (fun _ => eq_refl))
    as (H1 & _ & later & H3).
  split; [exact H1|]. exists later. exact H3.
Defined.
